(** * hopeonbackend: the transactional workflow layer

    A shallow embedding of the four workflow services of the fundraising
    backend (organizer vetting, campaign lifecycle, donation reconciliation,
    withdrawal payout) over an explicit document store with MongoDB-style
    sessions, of their read operations, and of the request guards and
    campaign routes in front of them, followed by the properties of the
    workflows.

    Conventions of the embedding:
    - a collection is a finite map from [_id] to document ([gmap Id Doc]);
    - a JS [number] is an exact rational ([Q]); rounding of doubles, [NaN]
      and [Infinity] are outside the model;
    - a JS string is a [string] of ASCII characters;
    - [new Date()] is the [now] argument of an operation;
    - the [_id] chosen by the store for a created document is the [newId]
      argument of the creating operation;
    - a write to the store, and the commit of a transaction, may fail with a
      storage error: the [faults] list of a run says which ones do;
    - a query may fail in the same way. A failing query that comes before
      the first write of an operation, or inside a transaction, leaves the
      store as it was, as a failing write in its place does: such queries
      have no fault flag of their own, and the failures of operations that
      only read are outside the model. The one query that follows a write
      outside a transaction, the [populate] of [approveCampaign], has a
      flag;
    - requests run one at a time: interleavings of concurrent requests are
      outside the model. *)

From Stdlib Require Import QArith Qround Lqa Ascii.
From stdpp Require Import gmap strings list fin_maps.

Open Scope string_scope.

(** ** JavaScript strings *)

Module JS.

(** White space as [String.prototype.trim] and the regex class [\s] see it,
    restricted to ASCII: space, TAB, LF, VT, FF, CR. *)
Definition isSpace (c : Ascii.ascii) : bool :=
  let n := Ascii.nat_of_ascii c in
  Nat.eqb n 32 || (Nat.leb 9 n && Nat.leb n 13).

Fixpoint trimStart (s : string) : string :=
  match s with
  | EmptyString => EmptyString
  | String c s' => if isSpace c then trimStart s' else s
  end.

Fixpoint trimEnd (s : string) : string :=
  match s with
  | EmptyString => EmptyString
  | String c s' =>
      match trimEnd s' with
      | EmptyString => if isSpace c then EmptyString else String c EmptyString
      | t => String c t
      end
  end.

(** [s.trim()] *)
Definition trim (s : string) : string := trimEnd (trimStart s).

Definition lowerChar (c : Ascii.ascii) : Ascii.ascii :=
  let n := Ascii.nat_of_ascii c in
  if Nat.leb 65 n && Nat.leb n 90 then Ascii.ascii_of_nat (n + 32) else c.

(** [s.toLowerCase()] *)
Fixpoint toLowerCase (s : string) : string :=
  match s with
  | EmptyString => EmptyString
  | String c s' => String (lowerChar c) (toLowerCase s')
  end.

(** Truthiness of a string: [!s] holds exactly for the empty string. *)
Definition truthy (s : string) : bool :=
  match s with EmptyString => false | _ => true end.

(** [x !== undefined] *)
Definition defined {A} (o : option A) : bool :=
  match o with Some _ => true | None => false end.

(** [x?.trim()] on an optional string. *)
Definition optTrim (o : option string) : option string := trim <$> o.

(** [o || dflt] on an optional string: the default replaces both
    [undefined] and the empty string. *)
Definition orElse (o : option string) (dflt : string) : string :=
  match o with
  | Some s => if truthy s then s else dflt
  | None => dflt
  end.

Fixpoint all (p : Ascii.ascii -> bool) (s : string) : bool :=
  match s with
  | EmptyString => true
  | String c s' => p c && all p s'
  end.

(** [Math.max(a, b)] *)
Definition Math_max (a b : Q) : Q := if Qle_bool a b then b else a.

End JS.

(** ** Object ids *)

Abbreviation Id := string.

Definition isHexDigit (c : Ascii.ascii) : bool :=
  let n := Ascii.nat_of_ascii c in
  (Nat.leb 48 n && Nat.leb n 57)
  || (Nat.leb 65 n && Nat.leb n 70)
  || (Nat.leb 97 n && Nat.leb n 102).

(** [mongoose.Types.ObjectId.isValid(id)] on a string: a string of 24
    hexadecimal digits (the 12-character form that older drivers also take
    is left out; the properties below only use the outcome of the test). *)
Definition ObjectId_isValid (id : Id) : bool :=
  Nat.eqb (String.length id) 24 && JS.all isHexDigit id.

(** ** Enumerations (types/enums.ts) *)

Inductive Role := DONOR | ORGANIZER | ADMIN.
Inductive DonationMethod := DM_PAYPAL | DM_CRYPTO.
Inductive DonationStatus := D_COMPLETED | D_PENDING | D_FAILED.
Inductive ApplicationStatus := A_PENDING | A_APPROVED | A_REJECTED.
Inductive WithdrawalStatus := W_PENDING | W_APPROVED | W_REJECTED | W_PAID.
Inductive OrganizationType := NONPROFIT | CHARITY | INDIVIDUAL | BUSINESS | OTHER.
Inductive PayoutMethod := PM_BANK | PM_PAYPAL | PM_CRYPTO.

#[global] Instance Role_eq_dec : EqDecision Role.
Proof. solve_decision. Defined.
#[global] Instance DonationStatus_eq_dec : EqDecision DonationStatus.
Proof. solve_decision. Defined.
#[global] Instance ApplicationStatus_eq_dec : EqDecision ApplicationStatus.
Proof. solve_decision. Defined.
#[global] Instance WithdrawalStatus_eq_dec : EqDecision WithdrawalStatus.
Proof. solve_decision. Defined.

(** The string values of [PayoutMethod], as the schema's [enum] validator
    compares them. *)
Definition parsePayoutMethod (s : string) : option PayoutMethod :=
  if String.eqb s "bank" then Some PM_BANK
  else if String.eqb s "paypal" then Some PM_PAYPAL
  else if String.eqb s "crypto" then Some PM_CRYPTO
  else None.

(** ** Documents (models/*.model.ts) *)

Record User := mkUser {
  name : string;
  email : string;
  role : Role;
  isOrganizerApproved : bool;
  isOrganizerRevoked : bool;
  revokedAt : option Z;
  revokedBy : option Id;
  revocationReason : option string
}.

Record OrganizerApplication := mkApplication {
  app_user : Id;
  organizationName : string;
  app_description : string;
  contactEmail : option string;
  app_phoneNumber : option string;
  website : option string;
  organizationType : OrganizationType;
  app_status : ApplicationStatus;
  app_reviewedBy : option Id;
  reviewedAt : option Z;
  rejectionReason : option string
}.

Record Campaign := mkCampaign {
  title : string;
  description : option string;
  images : list string;
  target : Q;
  raised : Q;
  owner : Id;
  isApproved : bool;
  isClosed : bool;
  closedReason : option string
}.

(** [Donation.model.ts]. [cryptoCurrency] and [network] are strings that the
    schema restricts with [enum] validators ([Schema.Donation_new]);
    [captureDetails] is of mixed type and is only copied, a string stands
    for it. *)
Record Donation := mkDonation {
  don_campaign : Id;
  donor : Id;
  donorEmail : string;
  amount : Q;
  method : DonationMethod;
  don_status : DonationStatus;
  transactionId : option string;
  payerEmail : option string;
  payerName : option string;
  payerCountry : option string;
  captureDetails : option string;
  cryptoCurrency : option string;
  transactionHash : option string;
  network : option string
}.

Record BankDetails := mkBankDetails {
  accountHolderName : option string;
  bankName : option string;
  accountNumber : option string;
  branchName : option string;
  swiftCode : option string
}.

Record CryptoDetails := mkCryptoDetails {
  walletAddress : option string;
  cd_network : option string
}.

Record WithdrawalRequest := mkWithdrawal {
  organizer : Id;
  wr_campaign : Id;
  amountRequested : Q;
  payoutMethod : PayoutMethod;
  bankDetails : option BankDetails;
  paypalEmail : option string;
  cryptoDetails : option CryptoDetails;
  reason : option string;
  wr_status : WithdrawalStatus;
  adminMessage : option string;
  paidAt : option Z;
  paymentReference : option string;
  wr_reviewedBy : option Id
}.

(** ** The entity store *)

Record Store := mkStore {
  users : gmap string User;
  applications : gmap string OrganizerApplication;
  campaigns : gmap string Campaign;
  donations : gmap string Donation;
  withdrawals : gmap string WithdrawalRequest
}.

Definition set_users (f : gmap string User -> gmap string User) (s : Store) : Store :=
  mkStore (f (users s)) (applications s) (campaigns s) (donations s) (withdrawals s).
Definition set_applications
  (f : gmap string OrganizerApplication -> gmap string OrganizerApplication)
  (s : Store) : Store :=
  mkStore (users s) (f (applications s)) (campaigns s) (donations s) (withdrawals s).
Definition set_campaigns (f : gmap string Campaign -> gmap string Campaign) (s : Store) : Store :=
  mkStore (users s) (applications s) (f (campaigns s)) (donations s) (withdrawals s).
Definition set_donations (f : gmap string Donation -> gmap string Donation) (s : Store) : Store :=
  mkStore (users s) (applications s) (campaigns s) (f (donations s)) (withdrawals s).
Definition set_withdrawals
  (f : gmap string WithdrawalRequest -> gmap string WithdrawalRequest) (s : Store) : Store :=
  mkStore (users s) (applications s) (campaigns s) (donations s) (f (withdrawals s)).

(** [campaign.raised = r] *)
Definition setRaised (r : Q) (c : Campaign) : Campaign :=
  mkCampaign (title c) (description c) (images c) (target c) r (owner c)
    (isApproved c) (isClosed c) (closedReason c).

(** ** Failures *)

Inductive Error :=
| Msg (m : string)                        (* throw new Error(m) *)
| AmountExceeds (requested available : Q) (* the interpolated message of createWithdrawalRequest *)
| SchemaValidation (path : string)        (* a mongoose schema validator rejected the path *)
| DuplicateKey                            (* the _id of a created document is taken *)
| TypeError                               (* a property of null was read *)
| StorageError.                           (* the store failed during a round trip *)

Inductive Result (A : Type) :=
| Ok (a : A)
| Err (e : Error).
Arguments Ok {A} a.
Arguments Err {A} e.

Definition isOk {A} (r : Result A) : bool :=
  match r with Ok _ => true | Err _ => false end.

(** ** Sessions and transactions

    A run of an operation threads a [World]: the committed store [db] that
    every reader sees, the writes of the open transaction (if any) that
    only calls carrying the session see, and the remaining storage faults. *)

Record World := mkWorld {
  db : Store;
  session : option (Store -> Store);
  faults : list bool
}.

Definition M (A : Type) : Type := World -> Result A * World.

Definition ret {A} (a : A) : M A := fun w => (Ok a, w).

Definition throw {A} (e : Error) : M A := fun w => (Err e, w).

Definition bind {A B} (m : M A) (k : A -> M B) : M B :=
  fun w => match m w with
           | (Ok a, w') => k a w'
           | (Err e, w') => (Err e, w')
           end.

Declare Scope js_scope.
Delimit Scope js_scope with js.
Notation "x <- m ;; k" := (bind m (fun x => k))
  (at level 100, m at next level, right associativity) : js_scope.
Notation "m ;; k" := (bind m (fun _ => k))
  (at level 100, right associativity) : js_scope.
Open Scope js_scope.

(** [if (b) throw e;] *)
Definition throwIf (b : bool) (e : Error) : M unit :=
  if b then throw e else ret tt.

(** [try { body } catch (error) { handler(error) }] *)
Definition tryCatch {A} (body : M A) (handler : Error -> M A) : M A :=
  fun w => match body w with
           | (Ok a, w') => (Ok a, w')
           | (Err e, w') => handler e w'
           end.

(** [try { body } finally { cleanup }] *)
Definition tryFinally {A} (body : M A) (cleanup : M unit) : M A :=
  fun w => match body w with
           | (r, w') => match cleanup w' with
                        | (Ok _, w'') => (r, w'')
                        | (Err e, w'') => (Err e, w'')
                        end
           end.

(** One round trip to the store that can fail: it consumes the next fault
    flag; without flags left the store works. *)
Definition storageCall : M unit :=
  fun w => match faults w with
           | true :: fs => (Err StorageError, mkWorld (db w) (session w) fs)
           | false :: fs => (Ok tt, mkWorld (db w) (session w) fs)
           | [] => (Ok tt, w)
           end.

(** The store as a call sees it: a call carrying the session of an open
    transaction sees the transaction's own writes. *)
Definition view (useSession : bool) : M Store :=
  fun w => match useSession, session w with
           | true, Some pending => (Ok (pending (db w)), w)
           | _, _ => (Ok (db w), w)
           end.

(** A write: with the session of an open transaction it is held back until
    the commit, otherwise it reaches the committed store at once. *)
Definition write (useSession : bool) (f : Store -> Store) : M unit :=
  storageCall ;;
  fun w => match useSession, session w with
           | true, Some pending =>
               (Ok tt, mkWorld (db w) (Some (fun s => f (pending s))) (faults w))
           | _, _ => (Ok tt, mkWorld (f (db w)) (session w) (faults w))
           end.

(** [mongoose.startSession()] followed by [session.startTransaction()] *)
Definition startTransaction : M unit :=
  fun w => (Ok tt, mkWorld (db w) (Some (fun s => s)) (faults w)).

(** [session.commitTransaction()] *)
Definition commitTransaction : M unit :=
  storageCall ;;
  fun w => match session w with
           | Some pending => (Ok tt, mkWorld (pending (db w)) None (faults w))
           | None => (Ok tt, w)
           end.

(** [session.abortTransaction()] *)
Definition abortTransaction : M unit :=
  fun w => (Ok tt, mkWorld (db w) None (faults w)).

(** [session.endSession()] *)
Definition endSession : M unit :=
  fun w => (Ok tt, mkWorld (db w) None (faults w)).

(** Running an operation against a store under a fault plan gives its
    outcome and the committed store it leaves. *)
Definition run {A} (m : M A) (flt : list bool) (s : Store) : Result A * Store :=
  match m (mkWorld s None flt) with
  | (r, w) => (r, db w)
  end.

(** ** Mongoose model calls *)

(** [Model.findById(id)], with or without [.session(session)] *)
Definition findById {D} (coll : Store -> gmap string D) (useSession : bool) (id : Id)
  : M (option D) :=
  s <- view useSession ;; ret (coll s !! id).

(** [Model.findOne(filter)] used as an existence test *)
Definition exists_ {D} (coll : Store -> gmap string D) (p : D -> bool) : M bool :=
  s <- view false ;;
  ret (bool_decide (map_Exists (fun _ d => p d = true) (coll s))).

(** [doc.save(opts)]: the schema validators of the modified paths run first. *)
Definition save {D} (upd : (gmap string D -> gmap string D) -> Store -> Store)
  (valid : option Error) (useSession : bool) (id : Id) (doc : D) : M unit :=
  match valid with
  | Some e => throw e
  | None => write useSession (upd (insert id doc))
  end.

(** [Model.create(doc)]: validation, then an insert that fails on a taken
    [_id]. *)
Definition create {D} (coll : Store -> gmap string D)
  (upd : (gmap string D -> gmap string D) -> Store -> Store)
  (valid : option Error) (newId : Id) (doc : D) : M unit :=
  match valid with
  | Some e => throw e
  | None =>
      s <- view false ;;
      match coll s !! newId with
      | Some _ => throw DuplicateKey
      | None => write false (upd (insert newId doc))
      end
  end.

(** [Model.updateMany(filter, update, opts)] *)
Definition updateMany {D} (upd : (gmap string D -> gmap string D) -> Store -> Store)
  (useSession : bool) (filter : D -> bool) (update : D -> D) : M unit :=
  write useSession (upd (fmap (fun d => if filter d then update d else d))).

(** [Model.findByIdAndUpdate(id, update, opts)]: no error when no document
    has the id; the result is the updated document or null. *)
Definition findByIdAndUpdate {D} (coll : Store -> gmap string D)
  (upd : (gmap string D -> gmap string D) -> Store -> Store)
  (useSession : bool) (id : Id) (update : D -> D) : M (option D) :=
  write useSession (upd (alter update id)) ;;
  s <- view useSession ;; ret (coll s !! id).

(** [query.populate(path)] after a write: one more query for the document
    that the path refers to, which can fail like any round trip. *)
Definition populate {D} (coll : Store -> gmap string D) (useSession : bool) (id : Id)
  : M (option D) :=
  storageCall ;; findById coll useSession id.

(** [Model.findByIdAndDelete(id)] *)
Definition findByIdAndDelete {D} (upd : (gmap string D -> gmap string D) -> Store -> Store)
  (id : Id) : M unit :=
  write false (upd (delete id)).

(** First failing validator, if any. *)
Fixpoint firstError (checks : list (bool * string)) : option Error :=
  match checks with
  | [] => None
  | (ok, path) :: rest => if ok then firstError rest else Some (SchemaValidation path)
  end.

(** ** Schema validators (models/*.model.ts)

    Only the validators of paths that the workflow operations write. *)

Module Schema.

Definition maxLength (n : nat) (s : string) : bool := Nat.leb (String.length s) n.

Definition optMaxLength (n : nat) (o : option string) : bool :=
  match o with Some s => maxLength n s | None => true end.

(** User: [revocationReason: { trim: true, maxLength: 500 }] *)
Definition User_revocation (u : User) : option Error :=
  firstError [(optMaxLength 500 (revocationReason u), "revocationReason")].

(** OrganizerApplication: [organizationName: { required, maxLength: 200 }],
    [description: { required, maxLength: 2000 }] *)
Definition Application_new (a : OrganizerApplication) : option Error :=
  firstError [(JS.truthy (organizationName a), "organizationName");
              (maxLength 200 (organizationName a), "organizationName");
              (JS.truthy (app_description a), "description");
              (maxLength 2000 (app_description a), "description")].

(** Campaign: [title: { required, trim, maxLength: 150 }],
    [description: { trim, maxLength: 2000 }], [target: { required, min: 0 }],
    [raised: { min: 0 }] *)
Definition Campaign_title (c : Campaign) : list (bool * string) :=
  [(JS.truthy (title c), "title"); (maxLength 150 (title c), "title")].
Definition Campaign_description (c : Campaign) : list (bool * string) :=
  [(optMaxLength 2000 (description c), "description")].
Definition Campaign_target (c : Campaign) : list (bool * string) :=
  [(Qle_bool 0 (target c), "target")].
Definition Campaign_raised (c : Campaign) : list (bool * string) :=
  [(Qle_bool 0 (raised c), "raised")].

Definition Campaign_new (c : Campaign) : option Error :=
  firstError (Campaign_title c ++ Campaign_description c ++ Campaign_target c
              ++ Campaign_raised c).

(** WithdrawalRequest: [amountRequested: { required, min: 0.01 }]; the
    [enum] validator of [payoutMethod] is [parsePayoutMethod]. *)
Definition Withdrawal_new (w : WithdrawalRequest) : option Error :=
  firstError [(Qle_bool (1 # 100) (amountRequested w), "amountRequested")].

(** [enum: ["ETH", "USDT", "BTC"]] *)
Definition isCryptoCurrency (s : string) : bool :=
  String.eqb s "ETH" || String.eqb s "USDT" || String.eqb s "BTC".

(** [enum: Object.values(CryptoNetwork)] *)
Definition isCryptoNetwork (s : string) : bool :=
  String.eqb s "ethereum" || String.eqb s "polygon" || String.eqb s "bsc".

(** An [enum] validator passes a path that is not set. *)
Definition optEnum (member : string -> bool) (o : option string) : bool :=
  match o with Some s => member s | None => true end.

(** Donation: [donorEmail: { required, trim }], [amount: { required,
    min: 0.01 }], [cryptoCurrency: { enum }], [network: { enum }]; [method]
    and [status] range over their enumerations. *)
Definition Donation_new (d : Donation) : option Error :=
  firstError [(JS.truthy (donorEmail d), "donorEmail");
              (Qle_bool (1 # 100) (amount d), "amount");
              (optEnum isCryptoCurrency (cryptoCurrency d), "cryptoCurrency");
              (optEnum isCryptoNetwork (network d), "network")].

End Schema.

(** ** Organizer vetting workflow (organizer.service.ts) *)

Module OrganizerService.

(** The uploaded [documents] of an application are carried through
    untouched and are left out. *)
Record SubmitApplicationDTO := mkSubmitApplicationDTO {
  dto_organizationName : string;
  dto_description : string;
  dto_contactEmail : option string;
  dto_phoneNumber : option string;
  dto_website : option string;
  dto_organizationType : option OrganizationType
}.

Definition isLive (userId : Id) (a : OrganizerApplication) : bool :=
  String.eqb (app_user a) userId
  && (bool_decide (app_status a = A_PENDING) || bool_decide (app_status a = A_APPROVED)).

Definition submitApplication (newId : Id) (userId : Id)
  (applicationData : SubmitApplicationDTO) : M OrganizerApplication :=
  throwIf (negb (JS.truthy (dto_organizationName applicationData))
           || negb (JS.truthy (dto_description applicationData)))
          (Msg "Organization name and description are required") ;;
  throwIf (Nat.ltb (String.length (JS.trim (dto_organizationName applicationData))) 3)
          (Msg "Organization name must be at least 3 characters") ;;
  throwIf (Nat.ltb (String.length (JS.trim (dto_description applicationData))) 20)
          (Msg "Description must be at least 20 characters") ;;
  throwIf (negb (ObjectId_isValid userId)) (Msg "Invalid user ID") ;;
  existingApp <- exists_ applications (isLive userId) ;;
  throwIf existingApp (Msg "You already have a pending or approved application") ;;
  let application :=
    mkApplication userId
      (JS.trim (dto_organizationName applicationData))
      (JS.trim (dto_description applicationData))
      (JS.optTrim (dto_contactEmail applicationData))
      (JS.optTrim (dto_phoneNumber applicationData))
      (JS.optTrim (dto_website applicationData))
      (default OTHER (dto_organizationType applicationData))
      A_PENDING None None None in
  create applications set_applications (Schema.Application_new application)
         newId application ;;
  ret application.

(** [application.status = APPROVED; application.reviewedBy = adminId;
    application.reviewedAt = new Date()] *)
Definition markApproved (now : Z) (adminId : Id) (a : OrganizerApplication)
  : OrganizerApplication :=
  mkApplication (app_user a) (organizationName a) (app_description a) (contactEmail a)
    (app_phoneNumber a) (website a) (organizationType a)
    A_APPROVED (Some adminId) (Some now) (rejectionReason a).

(** [{ role: Role.ORGANIZER, isOrganizerApproved: true }] *)
Definition promote (u : User) : User :=
  mkUser (name u) (email u) ORGANIZER true (isOrganizerRevoked u)
    (revokedAt u) (revokedBy u) (revocationReason u).

Definition approveApplication (now : Z) (applicationId adminId : Id)
  : M OrganizerApplication :=
  throwIf (negb (ObjectId_isValid applicationId)) (Msg "Invalid application ID") ;;
  throwIf (negb (ObjectId_isValid adminId)) (Msg "Invalid admin ID") ;;
  found <- findById applications false applicationId ;;
  match found with
  | None => throw (Msg "Application not found")
  | Some application =>
      throwIf (negb (bool_decide (app_status application = A_PENDING)))
              (Msg "Only pending applications can be approved") ;;
      startTransaction ;;
      tryFinally
        (tryCatch
           (let application := markApproved now adminId application in
            save set_applications None true applicationId application ;;
            findByIdAndUpdate users set_users true (app_user application) promote ;;
            commitTransaction ;;
            ret application)
           (fun error => abortTransaction ;; throw error))
        endSession
  end.

Definition markRejected (now : Z) (adminId : Id) (why : string) (a : OrganizerApplication)
  : OrganizerApplication :=
  mkApplication (app_user a) (organizationName a) (app_description a) (contactEmail a)
    (app_phoneNumber a) (website a) (organizationType a)
    A_REJECTED (Some adminId) (Some now) (Some why).

Definition rejectApplication (now : Z) (applicationId adminId : Id)
  (rejectionReason : option string) : M OrganizerApplication :=
  throwIf (negb (ObjectId_isValid applicationId)) (Msg "Invalid application ID") ;;
  throwIf (negb (ObjectId_isValid adminId)) (Msg "Invalid admin ID") ;;
  found <- findById applications false applicationId ;;
  match found with
  | None => throw (Msg "Application not found")
  | Some application =>
      throwIf (negb (bool_decide (app_status application = A_PENDING)))
              (Msg "Only pending applications can be rejected") ;;
      let application :=
        markRejected now adminId
          (JS.orElse (JS.optTrim rejectionReason) "Application rejected by admin")
          application in
      save set_applications None false applicationId application ;;
      ret application
  end.

(** [user.isOrganizerRevoked = true; user.revokedAt = new Date();
    user.revokedBy = adminId; user.revocationReason = reason.trim()] *)
Definition markRevoked (now : Z) (adminId : Id) (why : string) (u : User) : User :=
  mkUser (name u) (email u) (role u) (isOrganizerApproved u)
    true (Some now) (Some adminId) (Some why).

(** [{ isClosed: true, $set: { closedReason: "Organizer account revoked" } }] *)
Definition closeForRevocation (c : Campaign) : Campaign :=
  mkCampaign (title c) (description c) (images c) (target c) (raised c) (owner c)
    (isApproved c) true (Some "Organizer account revoked").

(** [{ status: REJECTED, adminMessage: "Organizer account has been revoked",
    reviewedBy: adminId }] *)
Definition rejectForRevocation (adminId : Id) (w : WithdrawalRequest) : WithdrawalRequest :=
  mkWithdrawal (organizer w) (wr_campaign w) (amountRequested w) (payoutMethod w)
    (bankDetails w) (paypalEmail w) (cryptoDetails w) (reason w)
    W_REJECTED (Some "Organizer account has been revoked") (paidAt w)
    (paymentReference w) (Some adminId).

(** [{ owner: organizerId, isClosed: false }] *)
Definition openCampaignOf (organizerId : Id) (c : Campaign) : bool :=
  String.eqb (owner c) organizerId && negb (isClosed c).

(** [{ organizer: organizerId, status: PENDING }] *)
Definition pendingWithdrawalOf (organizerId : Id) (w : WithdrawalRequest) : bool :=
  String.eqb (organizer w) organizerId && bool_decide (wr_status w = W_PENDING).

Record RevokeResult := mkRevokeResult {
  rr_user : User;
  rr_message : string;
  campaignsClosed : bool;
  pendingWithdrawalsRejected : bool
}.

Definition revokeOrganizer (now : Z) (organizerId adminId : Id) (revocationReason : string)
  : M RevokeResult :=
  throwIf (negb (ObjectId_isValid organizerId)) (Msg "Invalid organizer ID") ;;
  throwIf (negb (ObjectId_isValid adminId)) (Msg "Invalid admin ID") ;;
  throwIf (negb (JS.truthy revocationReason)
           || Nat.ltb (String.length (JS.trim revocationReason)) 10)
          (Msg "Revocation reason must be at least 10 characters") ;;
  found <- findById users false organizerId ;;
  match found with
  | None => throw (Msg "User not found")
  | Some user =>
      throwIf (negb (bool_decide (role user = ORGANIZER))) (Msg "User is not an organizer") ;;
      throwIf (isOrganizerRevoked user) (Msg "Organizer is already revoked") ;;
      startTransaction ;;
      tryFinally
        (tryCatch
           (let user := markRevoked now adminId (JS.trim revocationReason) user in
            save set_users (Schema.User_revocation user) true organizerId user ;;
            updateMany set_campaigns true (openCampaignOf organizerId) closeForRevocation ;;
            updateMany set_withdrawals true (pendingWithdrawalOf organizerId)
                       (rejectForRevocation adminId) ;;
            commitTransaction ;;
            ret (mkRevokeResult user "Organizer privileges revoked successfully" true true))
           (fun error => abortTransaction ;; throw error))
        endSession
  end.

(** [user.isOrganizerRevoked = false; user.revokedAt = undefined;
    user.revokedBy = undefined; user.revocationReason = undefined] *)
Definition clearRevocation (u : User) : User :=
  mkUser (name u) (email u) (role u) (isOrganizerApproved u) false None None None.

Record ReinstateResult := mkReinstateResult {
  ri_user : User;
  ri_message : string;
  ri_note : string
}.

Definition reinstateOrganizer (organizerId adminId : Id) : M ReinstateResult :=
  throwIf (negb (ObjectId_isValid organizerId)) (Msg "Invalid organizer ID") ;;
  throwIf (negb (ObjectId_isValid adminId)) (Msg "Invalid admin ID") ;;
  found <- findById users false organizerId ;;
  match found with
  | None => throw (Msg "User not found")
  | Some user =>
      throwIf (negb (bool_decide (role user = ORGANIZER))) (Msg "User is not an organizer") ;;
      throwIf (negb (isOrganizerRevoked user)) (Msg "Organizer is not revoked") ;;
      let user := clearRevocation user in
      save set_users (Schema.User_revocation user) false organizerId user ;;
      ret (mkReinstateResult user "Organizer privileges reinstated successfully"
             "Previously closed campaigns remain closed. Organizer can create new campaigns.")
  end.

End OrganizerService.

(** ** Campaign lifecycle workflow (campaign.service.ts) *)

Module CampaignService.

Record CreateCampaignDTO := mkCreateCampaignDTO {
  cc_title : string;
  cc_description : option string;
  cc_images : option (list string);
  cc_target : Q
}.

Record UpdateCampaignDTO := mkUpdateCampaignDTO {
  uc_title : option string;
  uc_description : option string;
  uc_images : option (list string);
  uc_target : option Q
}.

(** [userRole !== Role.ADMIN] on an optional role *)
Definition notAdmin (userRole : option Role) : bool :=
  negb (bool_decide (userRole = Some ADMIN)).

Definition verifyCampaignOwnership (campaignId userId : Id) (userRole : Role) : M Campaign :=
  found <- findById campaigns false campaignId ;;
  match found with
  | None => throw (Msg "Campaign not found")
  | Some campaign =>
      throwIf (notAdmin (Some userRole) && negb (String.eqb (owner campaign) userId))
              (Msg "You don't have permission to perform this action") ;;
      ret campaign
  end.

Definition createCampaign (newId : Id) (organizerId : Id) (campaignData : CreateCampaignDTO)
  : M Campaign :=
  throwIf (negb (JS.truthy (cc_title campaignData)) || Qeq_bool (cc_target campaignData) 0)
          (Msg "Title and target amount are required") ;;
  throwIf (Qle_bool (cc_target campaignData) 0)
          (Msg "Target amount must be greater than 0") ;;
  user <- findById users false organizerId ;;
  throwIf (match user with
           | None => true
           | Some user =>
               negb (bool_decide (role user = ORGANIZER)) || negb (isOrganizerApproved user)
           end)
          (Msg "Only approved organizers can create campaigns") ;;
  let campaign :=
    mkCampaign (JS.trim (cc_title campaignData))
      (JS.optTrim (cc_description campaignData))
      (default [] (cc_images campaignData))
      (cc_target campaignData) 0 organizerId false false None in
  create campaigns set_campaigns (Schema.Campaign_new campaign) newId campaign ;;
  ret campaign.

(** The campaign with its [owner] path populated: the owner's document, or
    null when no user has that id. *)
Definition getCampaignById (campaignId : Id) (userId : option Id) (userRole : option Role)
  : M (Campaign * option User) :=
  throwIf (negb (ObjectId_isValid campaignId)) (Msg "Invalid campaign ID") ;;
  found <- findById campaigns false campaignId ;;
  match found with
  | None => throw (Msg "Campaign not found")
  | Some campaign =>
      populated <- findById users false (owner campaign) ;;
      (if negb (isApproved campaign) && notAdmin userRole then
         match userId with
         | None => throw (Msg "Campaign not found")
         | Some userId =>
             if negb (JS.truthy userId) then throw (Msg "Campaign not found")
             else match populated with
                  | None => throw TypeError
                  | Some _ =>
                      throwIf (negb (String.eqb (owner campaign) userId))
                              (Msg "Campaign not found")
                  end
         end
       else ret tt) ;;
      ret (campaign, populated)
  end.

(** [Object.assign(campaign, allowedUpdates)] *)
Definition assign (title' : option string) (description' : option string)
  (images' : option (list string)) (target' : option Q) (c : Campaign) : Campaign :=
  mkCampaign (default (title c) title')
    (match description' with Some d => Some (JS.trim d) | None => description c end)
    (default (images c) images')
    (default (target c) target')
    (raised c) (owner c) (isApproved c) (isClosed c) (closedReason c).

Definition updateCampaign (campaignId userId : Id) (userRole : Role)
  (updates : UpdateCampaignDTO) : M Campaign :=
  throwIf (negb (ObjectId_isValid campaignId)) (Msg "Invalid campaign ID") ;;
  campaign <- verifyCampaignOwnership campaignId userId userRole ;;
  throwIf (match uc_title updates with
           | Some t => Nat.eqb (String.length (JS.trim t)) 0
           | None => false
           end)
          (Msg "Title must be a non-empty string") ;;
  throwIf (match uc_target updates with
           | Some t => Qle_bool t 0
           | None => false
           end)
          (Msg "Target must be a positive number") ;;
  let campaign' :=
    assign (JS.trim <$> uc_title updates) (uc_description updates)
           (uc_images updates) (uc_target updates) campaign in
  save set_campaigns
       (firstError
          ((if JS.defined (uc_title updates) then Schema.Campaign_title campaign' else [])
           ++ (if JS.defined (uc_description updates)
               then Schema.Campaign_description campaign' else [])
           ++ (if JS.defined (uc_target updates) then Schema.Campaign_target campaign' else [])))
       false campaignId campaign' ;;
  ret campaign'.

(** [{ isApproved: true }] *)
Definition approve (c : Campaign) : Campaign :=
  mkCampaign (title c) (description c) (images c) (target c) (raised c) (owner c)
    true (isClosed c) (closedReason c).

(** The update is written before the [owner] path of its result is
    populated, outside any transaction. The result is the campaign; the
    populated owner is not part of it here. *)
Definition approveCampaign (campaignId : Id) : M Campaign :=
  throwIf (negb (ObjectId_isValid campaignId)) (Msg "Invalid campaign ID") ;;
  updated <- findByIdAndUpdate campaigns set_campaigns false campaignId approve ;;
  match updated with
  | None => throw (Msg "Campaign not found")
  | Some campaign =>
      populate users false (owner campaign) ;;
      ret campaign
  end.

(** [campaign.isClosed = true] *)
Definition close (c : Campaign) : Campaign :=
  mkCampaign (title c) (description c) (images c) (target c) (raised c) (owner c)
    (isApproved c) true (closedReason c).

Definition closeCampaign (campaignId userId : Id) (userRole : Role) : M Campaign :=
  throwIf (negb (ObjectId_isValid campaignId)) (Msg "Invalid campaign ID") ;;
  campaign <- verifyCampaignOwnership campaignId userId userRole ;;
  throwIf (isClosed campaign) (Msg "Campaign is already closed") ;;
  let campaign := close campaign in
  save set_campaigns None false campaignId campaign ;;
  ret campaign.

Definition deleteCampaign (campaignId userId : Id) (userRole : Role) : M string :=
  throwIf (negb (ObjectId_isValid campaignId)) (Msg "Invalid campaign ID") ;;
  campaign <- verifyCampaignOwnership campaignId userId userRole ;;
  throwIf (negb (Qle_bool (raised campaign) 0))
          (Msg "Cannot delete campaign with existing donations") ;;
  findByIdAndDelete set_campaigns campaignId ;;
  ret "Campaign deleted successfully".

End CampaignService.

(** ** Donation reconciliation workflow (donation.service.ts) *)

Module DonationService.

Record CreateDonationDTO := mkCreateDonationDTO {
  cd_campaign : Id;
  cd_amount : Q;
  cd_method : DonationMethod;
  cd_donorEmail : string;
  cd_transactionId : option string;
  cd_payerEmail : option string;
  cd_payerName : option string;
  cd_payerCountry : option string;
  cd_cryptoCurrency : option string;
  cd_transactionHash : option string;
  cd_networkName : option string
}.

Record UpdateDonationPaymentDetails := mkPaymentDetails {
  pd_transactionId : option string;
  pd_payerEmail : option string;
  pd_payerName : option string;
  pd_payerCountry : option string;
  pd_captureDetails : option string;
  pd_transactionHash : option string
}.

(** The class [[^\s@]] *)
Definition plainChar (c : Ascii.ascii) : bool :=
  negb (JS.isSpace c) && negb (Ascii.eqb c "@"%char).

(** Some ["."] of the string is followed by at least one more character. *)
Fixpoint dotThenMore (s : string) : bool :=
  match s with
  | EmptyString => false
  | String c s' => (Ascii.eqb c "."%char && JS.truthy s') || dotThenMore s'
  end.

(** [[^\s@]+\.[^\s@]+$] *)
Definition domainPart (s : string) : bool :=
  JS.all plainChar s
  && match s with
     | EmptyString => false
     | String _ s' => dotThenMore s'
     end.

(** [[^\s@]+@] then the domain part, from a position where [seen] tells
    whether the local part is already non-empty. *)
Fixpoint localThenDomain (seen : bool) (s : string) : bool :=
  match s with
  | EmptyString => false
  | String c s' =>
      if Ascii.eqb c "@"%char then seen && domainPart s'
      else if JS.isSpace c then false
      else localThenDomain true s'
  end.

(** [/^[^\s@]+@[^\s@]+\.[^\s@]+$/.test(s)] *)
Definition emailRegex_test (s : string) : bool := localThenDomain false s.

(** [method] ranges over the members of [DonationMethod], which are all
    truthy, so the required-fields test looks at the other three. *)
Definition createDonation (newId : Id) (donorId : Id) (donationData : CreateDonationDTO)
  : M Donation :=
  throwIf (negb (JS.truthy (cd_campaign donationData))
           || Qeq_bool (cd_amount donationData) 0
           || negb (JS.truthy (cd_donorEmail donationData)))
          (Msg "Campaign, amount, method, and donor email are required") ;;
  let amount := cd_amount donationData in
  throwIf (negb (Qle_bool (1 # 100) amount)) (Msg "Amount must be at least 0.01") ;;
  throwIf (negb (emailRegex_test (cd_donorEmail donationData))) (Msg "Invalid email format") ;;
  throwIf (negb (ObjectId_isValid donorId)) (Msg "Invalid donor ID") ;;
  throwIf (negb (ObjectId_isValid (cd_campaign donationData))) (Msg "Invalid campaign ID") ;;
  found <- findById campaigns false (cd_campaign donationData) ;;
  match found with
  | None => throw (Msg "Campaign not found")
  | Some campaignDoc =>
      throwIf (negb (isApproved campaignDoc)) (Msg "Campaign is not approved for donations") ;;
      throwIf (isClosed campaignDoc)
              (Msg "Campaign is closed and no longer accepting donations") ;;
      let donation :=
        mkDonation (cd_campaign donationData) donorId
          (JS.trim (JS.toLowerCase (cd_donorEmail donationData)))
          amount (cd_method donationData) D_PENDING
          (cd_transactionId donationData) (cd_payerEmail donationData)
          (cd_payerName donationData) (cd_payerCountry donationData) None
          (cd_cryptoCurrency donationData) (cd_transactionHash donationData)
          (cd_networkName donationData) in
      create donations set_donations (Schema.Donation_new donation) newId donation ;;
      ret donation
  end.

(** [if (details.x) donation.x = details.x] *)
Definition orKeep (new old : option string) : option string :=
  match new with
  | Some v => if JS.truthy v then Some v else old
  | None => old
  end.

(** [donation.status = status] and the payment details that were provided *)
Definition applyStatus (status : DonationStatus)
  (paymentDetails : option UpdateDonationPaymentDetails) (d : Donation) : Donation :=
  match paymentDetails with
  | None =>
      mkDonation (don_campaign d) (donor d) (donorEmail d) (amount d) (method d) status
        (transactionId d) (payerEmail d) (payerName d) (payerCountry d)
        (captureDetails d) (cryptoCurrency d) (transactionHash d) (network d)
  | Some p =>
      mkDonation (don_campaign d) (donor d) (donorEmail d) (amount d) (method d) status
        (orKeep (pd_transactionId p) (transactionId d))
        (orKeep (pd_payerEmail p) (payerEmail d))
        (orKeep (pd_payerName p) (payerName d))
        (orKeep (pd_payerCountry p) (payerCountry d))
        (orKeep (pd_captureDetails p) (captureDetails d))
        (cryptoCurrency d)
        (orKeep (pd_transactionHash p) (transactionHash d))
        (network d)
  end.

(** [{ $inc: { raised: amount } }] *)
Definition credit (amount : Q) (c : Campaign) : Campaign :=
  setRaised (raised c + amount)%Q c.

(** [campaign.raised = Math.max(0, campaign.raised - amount)] *)
Definition debit (amount : Q) (c : Campaign) : Campaign :=
  setRaised (JS.Math_max 0 (raised c - amount)%Q) c.

(** [status] ranges over the members of [DonationStatus], which all pass the
    [Object.values(DonationStatus).includes(status)] test. *)
Definition updateDonationStatus (donationId : Id) (status : DonationStatus)
  (paymentDetails : option UpdateDonationPaymentDetails) : M Donation :=
  throwIf (negb (ObjectId_isValid donationId)) (Msg "Invalid donation ID") ;;
  found <- findById donations false donationId ;;
  match found with
  | None => throw (Msg "Donation not found")
  | Some donation =>
      let previousStatus := don_status donation in
      startTransaction ;;
      tryFinally
        (tryCatch
           (let donation := applyStatus status paymentDetails donation in
            save set_donations None true donationId donation ;;
            (if bool_decide (status = D_COMPLETED)
                && negb (bool_decide (previousStatus = D_COMPLETED))
             then
               findByIdAndUpdate campaigns set_campaigns true (don_campaign donation)
                                 (credit (amount donation)) ;;
               ret tt
             else ret tt) ;;
            (if bool_decide (status = D_FAILED)
                && bool_decide (previousStatus = D_COMPLETED)
             then
               campaign <- findById campaigns false (don_campaign donation) ;;
               match campaign with
               | Some campaign =>
                   let campaign := debit (amount donation) campaign in
                   save set_campaigns (firstError (Schema.Campaign_raised campaign))
                        true (don_campaign donation) campaign
               | None => ret tt
               end
             else ret tt) ;;
            commitTransaction ;;
            ret donation)
           (fun error => abortTransaction ;; throw error))
        endSession
  end.

End DonationService.

(** ** Withdrawal payout workflow (withdrawal.service.ts) *)

Module WithdrawalService.

Record CreateWithdrawalDTO := mkCreateWithdrawalDTO {
  cw_campaign : Id;
  cw_amountRequested : Q;
  cw_payoutMethod : string;
  cw_bankDetails : option BankDetails;
  cw_paypalEmail : option string;
  cw_cryptoDetails : option CryptoDetails;
  cw_reason : option string
}.

(** [status: { $in: [PENDING, APPROVED] }] *)
Definition outstanding (w : WithdrawalRequest) : bool :=
  bool_decide (wr_status w = W_PENDING) || bool_decide (wr_status w = W_APPROVED).

(** [{ campaign: id, status: { $in: [PENDING, APPROVED] } }] *)
Definition outstandingFor (campaignId : Id) (w : WithdrawalRequest) : bool :=
  String.eqb (wr_campaign w) campaignId && outstanding w.

Definition createWithdrawalRequest (newId : Id) (organizerId : Id)
  (withdrawalData : CreateWithdrawalDTO) : M WithdrawalRequest :=
  throwIf (negb (JS.truthy (cw_campaign withdrawalData))
           || Qeq_bool (cw_amountRequested withdrawalData) 0
           || negb (JS.truthy (cw_payoutMethod withdrawalData)))
          (Msg "Campaign, amount requested, and payout method are required") ;;
  let amountRequested := cw_amountRequested withdrawalData in
  throwIf (Qle_bool amountRequested 0) (Msg "Amount requested must be a positive number") ;;
  throwIf (negb (ObjectId_isValid organizerId)) (Msg "Invalid organizer ID") ;;
  throwIf (negb (ObjectId_isValid (cw_campaign withdrawalData))) (Msg "Invalid campaign ID") ;;
  found <- findById campaigns false (cw_campaign withdrawalData) ;;
  match found with
  | None => throw (Msg "Campaign not found")
  | Some campaignDoc =>
      throwIf (negb (String.eqb (owner campaignDoc) organizerId))
              (Msg "You don't own this campaign") ;;
      throwIf (negb (isApproved campaignDoc))
              (Msg "Campaign must be approved before requesting withdrawal") ;;
      throwIf (negb (Qle_bool amountRequested (raised campaignDoc)))
              (AmountExceeds amountRequested (raised campaignDoc)) ;;
      existingRequest <- exists_ withdrawals (outstandingFor (cw_campaign withdrawalData)) ;;
      throwIf existingRequest
              (Msg "You already have a pending or approved withdrawal request for this campaign") ;;
      match parsePayoutMethod (cw_payoutMethod withdrawalData) with
      | None => throw (SchemaValidation "payoutMethod")
      | Some payoutMethod =>
          let withdrawal :=
            mkWithdrawal organizerId (cw_campaign withdrawalData) amountRequested
              payoutMethod (cw_bankDetails withdrawalData) (cw_paypalEmail withdrawalData)
              (cw_cryptoDetails withdrawalData) (cw_reason withdrawalData)
              W_PENDING None None None None in
          create withdrawals set_withdrawals (Schema.Withdrawal_new withdrawal)
                 newId withdrawal ;;
          ret withdrawal
      end
  end.

Definition review (status : WithdrawalStatus) (adminId : Id) (message : option string)
  (w : WithdrawalRequest) : WithdrawalRequest :=
  mkWithdrawal (organizer w) (wr_campaign w) (amountRequested w) (payoutMethod w)
    (bankDetails w) (paypalEmail w) (cryptoDetails w) (reason w)
    status message (paidAt w) (paymentReference w) (Some adminId).

Definition approveWithdrawal (withdrawalId adminId : Id) : M WithdrawalRequest :=
  throwIf (negb (ObjectId_isValid withdrawalId)) (Msg "Invalid withdrawal ID") ;;
  throwIf (negb (ObjectId_isValid adminId)) (Msg "Invalid admin ID") ;;
  found <- findById withdrawals false withdrawalId ;;
  match found with
  | None => throw (Msg "Withdrawal request not found")
  | Some withdrawal =>
      throwIf (negb (bool_decide (wr_status withdrawal = W_PENDING)))
              (Msg "Only pending requests can be approved") ;;
      let withdrawal := review W_APPROVED adminId (adminMessage withdrawal) withdrawal in
      save set_withdrawals None false withdrawalId withdrawal ;;
      ret withdrawal
  end.

Definition rejectWithdrawal (withdrawalId adminId : Id) (adminMessage : option string)
  : M WithdrawalRequest :=
  throwIf (negb (ObjectId_isValid withdrawalId)) (Msg "Invalid withdrawal ID") ;;
  throwIf (negb (ObjectId_isValid adminId)) (Msg "Invalid admin ID") ;;
  found <- findById withdrawals false withdrawalId ;;
  match found with
  | None => throw (Msg "Withdrawal request not found")
  | Some withdrawal =>
      throwIf (negb (bool_decide (wr_status withdrawal = W_PENDING)))
              (Msg "Only pending requests can be rejected") ;;
      let withdrawal :=
        review W_REJECTED adminId
          (Some (JS.orElse (JS.optTrim adminMessage) "Withdrawal request rejected"))
          withdrawal in
      save set_withdrawals None false withdrawalId withdrawal ;;
      ret withdrawal
  end.

(** [withdrawal.status = PAID; withdrawal.paidAt = new Date();
    withdrawal.paymentReference = ref?.trim(); withdrawal.reviewedBy = adminId] *)
Definition markPaid (now : Z) (adminId : Id) (paymentReference : option string)
  (w : WithdrawalRequest) : WithdrawalRequest :=
  mkWithdrawal (organizer w) (wr_campaign w) (amountRequested w) (payoutMethod w)
    (bankDetails w) (paypalEmail w) (cryptoDetails w) (reason w)
    W_PAID (adminMessage w) (Some now) (JS.optTrim paymentReference) (Some adminId).

Definition markAsPaid (now : Z) (withdrawalId adminId : Id)
  (paymentReference : option string) : M WithdrawalRequest :=
  throwIf (negb (ObjectId_isValid withdrawalId)) (Msg "Invalid withdrawal ID") ;;
  throwIf (negb (ObjectId_isValid adminId)) (Msg "Invalid admin ID") ;;
  found <- findById withdrawals false withdrawalId ;;
  match found with
  | None => throw (Msg "Withdrawal request not found")
  | Some withdrawal =>
      throwIf (negb (bool_decide (wr_status withdrawal = W_APPROVED)))
              (Msg "Only approved requests can be marked as paid") ;;
      startTransaction ;;
      tryFinally
        (tryCatch
           (let withdrawal := markPaid now adminId paymentReference withdrawal in
            save set_withdrawals None true withdrawalId withdrawal ;;
            campaign <- findById campaigns false (wr_campaign withdrawal) ;;
            match campaign with
            | Some campaign =>
                let newRaised :=
                  JS.Math_max 0 (raised campaign - amountRequested withdrawal)%Q in
                let campaign := setRaised newRaised campaign in
                save set_campaigns (firstError (Schema.Campaign_raised campaign))
                     true (wr_campaign withdrawal) campaign
            | None => ret tt
            end ;;
            commitTransaction ;;
            ret withdrawal)
           (fun error => abortTransaction ;; throw error))
        endSession
  end.

End WithdrawalService.

(** ** The workflow layer as a transition system

    The requests are the sixteen writing operations of the four workflow
    services. The store has other writers that are not among them:
    registration and the profile update of the auth service
    ([AuthService.updateProfile] passes the request body to
    [User.findByIdAndUpdate], so it can write any path of a user, [role] and
    [isOrganizerApproved] included). What is stated below about histories
    of requests is about histories of these sixteen operations. *)

Inductive Op :=
| SubmitApplication (newId userId : Id) (data : OrganizerService.SubmitApplicationDTO)
| ApproveApplication (now : Z) (applicationId adminId : Id)
| RejectApplication (now : Z) (applicationId adminId : Id) (why : option string)
| RevokeOrganizer (now : Z) (organizerId adminId : Id) (why : string)
| ReinstateOrganizer (organizerId adminId : Id)
| CreateCampaign (newId organizerId : Id) (data : CampaignService.CreateCampaignDTO)
| UpdateCampaign (campaignId userId : Id) (userRole : Role)
    (updates : CampaignService.UpdateCampaignDTO)
| ApproveCampaign (campaignId : Id)
| CloseCampaign (campaignId userId : Id) (userRole : Role)
| DeleteCampaign (campaignId userId : Id) (userRole : Role)
| CreateDonation (newId donorId : Id) (data : DonationService.CreateDonationDTO)
| UpdateDonationStatus (donationId : Id) (status : DonationStatus)
    (details : option DonationService.UpdateDonationPaymentDetails)
| CreateWithdrawalRequest (newId organizerId : Id)
    (data : WithdrawalService.CreateWithdrawalDTO)
| ApproveWithdrawal (withdrawalId adminId : Id)
| RejectWithdrawal (withdrawalId adminId : Id) (message : option string)
| MarkAsPaid (now : Z) (withdrawalId adminId : Id) (paymentReference : option string).

(** The committed store after one request, under a fault plan. *)
Definition exec (op : Op) (flt : list bool) (s : Store) : Store :=
  match op with
  | SubmitApplication newId userId data =>
      (run (OrganizerService.submitApplication newId userId data) flt s).2
  | ApproveApplication now applicationId adminId =>
      (run (OrganizerService.approveApplication now applicationId adminId) flt s).2
  | RejectApplication now applicationId adminId why =>
      (run (OrganizerService.rejectApplication now applicationId adminId why) flt s).2
  | RevokeOrganizer now organizerId adminId why =>
      (run (OrganizerService.revokeOrganizer now organizerId adminId why) flt s).2
  | ReinstateOrganizer organizerId adminId =>
      (run (OrganizerService.reinstateOrganizer organizerId adminId) flt s).2
  | CreateCampaign newId organizerId data =>
      (run (CampaignService.createCampaign newId organizerId data) flt s).2
  | UpdateCampaign campaignId userId userRole updates =>
      (run (CampaignService.updateCampaign campaignId userId userRole updates) flt s).2
  | ApproveCampaign campaignId =>
      (run (CampaignService.approveCampaign campaignId) flt s).2
  | CloseCampaign campaignId userId userRole =>
      (run (CampaignService.closeCampaign campaignId userId userRole) flt s).2
  | DeleteCampaign campaignId userId userRole =>
      (run (CampaignService.deleteCampaign campaignId userId userRole) flt s).2
  | CreateDonation newId donorId data =>
      (run (DonationService.createDonation newId donorId data) flt s).2
  | UpdateDonationStatus donationId status details =>
      (run (DonationService.updateDonationStatus donationId status details) flt s).2
  | CreateWithdrawalRequest newId organizerId data =>
      (run (WithdrawalService.createWithdrawalRequest newId organizerId data) flt s).2
  | ApproveWithdrawal withdrawalId adminId =>
      (run (WithdrawalService.approveWithdrawal withdrawalId adminId) flt s).2
  | RejectWithdrawal withdrawalId adminId message =>
      (run (WithdrawalService.rejectWithdrawal withdrawalId adminId message) flt s).2
  | MarkAsPaid now withdrawalId adminId paymentReference =>
      (run (WithdrawalService.markAsPaid now withdrawalId adminId paymentReference) flt s).2
  end.

(** A history of requests, each with its own fault plan. *)
Fixpoint execAll (trace : list (Op * list bool)) (s : Store) : Store :=
  match trace with
  | [] => s
  | (op, flt) :: rest => execAll rest (exec op flt s)
  end.

(** ** Error taxonomy *)

Inductive ErrorKind :=
| ValidationError | NotFoundError | AuthorizationError | StateError | ConflictError
| SystemFailure.

(** The error kinds of the specification. The source throws plain [Error]
    objects that differ by message only; this table gives each message of
    the four services the kind that the specification's error-handling
    section gives to its cause. *)
Definition kindOfMessage : list (string * ErrorKind) :=
  [ ("Organization name and description are required", ValidationError);
    ("Organization name must be at least 3 characters", ValidationError);
    ("Description must be at least 20 characters", ValidationError);
    ("Invalid user ID", ValidationError);
    ("Invalid application ID", ValidationError);
    ("Invalid admin ID", ValidationError);
    ("Invalid organizer ID", ValidationError);
    ("Invalid campaign ID", ValidationError);
    ("Invalid donor ID", ValidationError);
    ("Invalid donation ID", ValidationError);
    ("Invalid withdrawal ID", ValidationError);
    ("Revocation reason must be at least 10 characters", ValidationError);
    ("Title and target amount are required", ValidationError);
    ("Target amount must be greater than 0", ValidationError);
    ("Title must be a non-empty string", ValidationError);
    ("Target must be a positive number", ValidationError);
    ("Campaign, amount, method, and donor email are required", ValidationError);
    ("Amount must be at least 0.01", ValidationError);
    ("Invalid email format", ValidationError);
    ("Campaign, amount requested, and payout method are required", ValidationError);
    ("Amount requested must be a positive number", ValidationError);
    ("Application not found", NotFoundError);
    ("User not found", NotFoundError);
    ("Campaign not found", NotFoundError);
    ("Donation not found", NotFoundError);
    ("Withdrawal request not found", NotFoundError);
    ("You don't have permission to perform this action", AuthorizationError);
    ("Only approved organizers can create campaigns", AuthorizationError);
    ("You don't own this campaign", AuthorizationError);
    ("Only pending applications can be approved", StateError);
    ("Only pending applications can be rejected", StateError);
    ("User is not an organizer", StateError);
    ("Organizer is already revoked", StateError);
    ("Organizer is not revoked", StateError);
    ("Campaign is already closed", StateError);
    ("Campaign is not approved for donations", StateError);
    ("Campaign is closed and no longer accepting donations", StateError);
    ("Campaign must be approved before requesting withdrawal", StateError);
    ("Only pending requests can be approved", StateError);
    ("Only pending requests can be rejected", StateError);
    ("Only approved requests can be marked as paid", StateError);
    ("You already have a pending or approved application", ConflictError);
    ("You already have a pending or approved withdrawal request for this campaign",
     ConflictError);
    ("Cannot delete campaign with existing donations", ConflictError) ].

Fixpoint assoc (m : string) (table : list (string * ErrorKind)) : ErrorKind :=
  match table with
  | [] => SystemFailure
  | (m', k) :: rest => if String.eqb m m' then k else assoc m rest
  end.

Definition errorKind (e : Error) : ErrorKind :=
  match e with
  | Msg m => assoc m kindOfMessage
  | AmountExceeds _ _ => ValidationError
  | SchemaValidation _ => ValidationError
  | DuplicateKey | TypeError | StorageError => SystemFailure
  end.

(** One of the first [n] storage calls of a run fails. *)
Definition faultWithin (n : nat) (flt : list bool) : bool :=
  existsb (fun b => b) (take n flt).

(** ** Derived quantities and invariants *)

(** The sum of the amounts of the donations of a campaign whose status is
    completed. *)
Definition completedSum (campaignId : Id) (ds : gmap string Donation) : Q :=
  map_fold
    (fun _ d acc =>
       if String.eqb (don_campaign d) campaignId && bool_decide (don_status d = D_COMPLETED)
       then (amount d + acc)%Q else acc)
    0%Q ds.

(** [raised] of the campaign equals the completed-donation sum. *)
Definition raisedIsCompletedSum (campaignId : Id) (s : Store) : Prop :=
  exists c, campaigns s !! campaignId = Some c
            /\ (raised c == completedSum campaignId (donations s))%Q.

(** No campaign of the collection has a negative [raised]. *)
Definition nonneg (m : gmap string Campaign) : Prop :=
  forall id c, m !! id = Some c -> (0 <= raised c)%Q.

(** No donation of the collection has a negative amount. *)
Definition amountsOk (m : gmap string Donation) : Prop :=
  forall id d, m !! id = Some d -> (0 <= amount d)%Q.

Definition raisedNonneg (s : Store) : Prop := nonneg (campaigns s).

Definition amountsNonneg (s : Store) : Prop := amountsOk (donations s).

(** The owner of every campaign is a user of the store. *)
Definition ownersExist (s : Store) : Prop :=
  forall id c, campaigns s !! id = Some c -> is_Some (users s !! owner c).

(** Every id of the first collection is an id of the second. *)
Definition keepsKeys (um um' : gmap string User) : Prop :=
  forall k, is_Some (um !! k) -> is_Some (um' !! k).

(** Every campaign of the second collection has the owner of a campaign of
    the first, or a user as owner. *)
Definition keepsOwners (um : gmap string User) (cm cm' : gmap string Campaign) : Prop :=
  forall id c', cm' !! id = Some c' ->
                (exists id0 c, cm !! id0 = Some c /\ owner c' = owner c)
                \/ is_Some (um !! owner c').

(** What a donation adds to the completed-donation sum of a campaign. *)
Definition contribution (campaignId : Id) (d : Donation) : Q :=
  if String.eqb (don_campaign d) campaignId && bool_decide (don_status d = D_COMPLETED)
  then amount d else 0%Q.

(** The request that [createWithdrawalRequest] writes. *)
Definition newRequest (organizerId : Id) (data : WithdrawalService.CreateWithdrawalDTO)
  (pm : PayoutMethod) : WithdrawalRequest :=
  mkWithdrawal organizerId (WithdrawalService.cw_campaign data)
    (WithdrawalService.cw_amountRequested data) pm
    (WithdrawalService.cw_bankDetails data) (WithdrawalService.cw_paypalEmail data)
    (WithdrawalService.cw_cryptoDetails data) (WithdrawalService.cw_reason data)
    W_PENDING None None None None.

(** The donation that [createDonation] writes. *)
Definition newDonation (donorId : Id) (data : DonationService.CreateDonationDTO) : Donation :=
  mkDonation (DonationService.cd_campaign data) donorId
    (JS.trim (JS.toLowerCase (DonationService.cd_donorEmail data)))
    (DonationService.cd_amount data) (DonationService.cd_method data) D_PENDING
    (DonationService.cd_transactionId data) (DonationService.cd_payerEmail data)
    (DonationService.cd_payerName data) (DonationService.cd_payerCountry data) None
    (DonationService.cd_cryptoCurrency data) (DonationService.cd_transactionHash data)
    (DonationService.cd_networkName data).

(** At most one request per campaign is pending or approved. *)
Definition oneOutstanding (s : Store) : Prop :=
  forall i j w1 w2,
    withdrawals s !! i = Some w1 -> withdrawals s !! j = Some w2 ->
    wr_campaign w1 = wr_campaign w2 ->
    WithdrawalService.outstanding w1 = true -> WithdrawalService.outstanding w2 = true ->
    i = j.

(** No request for the campaign is pending or approved. *)
Definition noneOutstandingFor (campaignId : Id) (s : Store) : Prop :=
  forall i w, withdrawals s !! i = Some w -> wr_campaign w = campaignId ->
              WithdrawalService.outstanding w = false.

(** Repeated [updateDonationStatus(id, COMPLETED, details)] calls, one per
    entry of [calls]. *)
Fixpoint completeRepeatedly (donationId : Id)
  (calls : list (option DonationService.UpdateDonationPaymentDetails * list bool))
  (s : Store) : Store :=
  match calls with
  | [] => s
  | (details, flt) :: rest =>
      completeRepeatedly donationId rest
        (run (DonationService.updateDonationStatus donationId D_COMPLETED details) flt s).2
  end.

(** Donation processing never raises [raised] of a campaign that is
    unapproved or closed. *)
Definition creditOnlyWhileOpen : Prop :=
  forall (op : Op) (flt : list bool) (s : Store) (id : Id) (c c' : Campaign),
    match op with CreateDonation _ _ _ | UpdateDonationStatus _ _ _ => True | _ => False end ->
    campaigns s !! id = Some c ->
    isApproved c = false \/ isClosed c = true ->
    campaigns (exec op flt s) !! id = Some c' ->
    (raised c' <= raised c)%Q.

(** Every donation whose campaign is in the store is a donation to an
    approved campaign. *)
Definition donationsPointApproved (s : Store) : Prop :=
  forall i d c,
    donations s !! i = Some d -> campaigns s !! don_campaign d = Some c ->
    isApproved c = true.

(** The store gives a created document an [_id] that was never used: no
    donation refers to the id that a [createCampaign] request is given. *)
Definition freshCampaignId (op : Op) (s : Store) : Prop :=
  match op with
  | CreateCampaign newId _ _ =>
      forall i d, donations s !! i = Some d -> don_campaign d <> newId
  | _ => True
  end.

Fixpoint freshCampaignIds (trace : list (Op * list bool)) (s : Store) : Prop :=
  match trace with
  | [] => True
  | (op, flt) :: rest => freshCampaignId op s /\ freshCampaignIds rest (exec op flt s)
  end.

(** Every donation of the second collection was a donation of the first to
    the same campaign, or is a donation to an approved campaign of [cm]. *)
Definition donationsFrom (cm : gmap string Campaign) (dm dm' : gmap string Donation) : Prop :=
  forall i d', dm' !! i = Some d' ->
               (exists d, dm !! i = Some d /\ don_campaign d = don_campaign d')
               \/ (exists c, cm !! don_campaign d' = Some c /\ isApproved c = true).

(** Every campaign of the second collection was a campaign of the first
    under the same id and is approved if that one was, or has an id that no
    donation of [dm] refers to. *)
Definition approvalsFrom (dm : gmap string Donation) (cm cm' : gmap string Campaign) : Prop :=
  forall id c', cm' !! id = Some c' ->
                (exists c, cm !! id = Some c /\ (isApproved c = true -> isApproved c' = true))
                \/ (forall i d, dm !! i = Some d -> don_campaign d <> id).

(** On success, [markAsPaid] has debited the campaign of the request it
    marks as paid. *)
Definition paidOnlyWithDebit (s : Store) : Prop :=
  forall now withdrawalId adminId ref flt w' s',
    run (WithdrawalService.markAsPaid now withdrawalId adminId ref) flt s = (Ok w', s') ->
    exists c, campaigns s !! wr_campaign w' = Some c
              /\ campaigns s' !! wr_campaign w'
                 = Some (setRaised (JS.Math_max 0 (raised c - amountRequested w')) c).

(** ** Sample data *)

Module Sample.

Definition admin : Id := "a00000000000000000000000".
Definition alice : Id := "a00000000000000000000001".
Definition bob : Id := "a00000000000000000000002".
Definition well : Id := "c00000000000000000000001".
Definition school : Id := "c00000000000000000000002".
Definition gift : Id := "d00000000000000000000001".
Definition payout : Id := "e00000000000000000000001".
Definition payout2 : Id := "e00000000000000000000002".
Definition form : Id := "f00000000000000000000001".
Definition nowhere : Id := "c000000000000000000000ff".

Definition aliceDoc : User :=
  mkUser "Alice" "alice@example.org" ORGANIZER true false None None None.
Definition bobDoc : User :=
  mkUser "Bob" "bob@example.org" DONOR false false None None None.
Definition adminDoc : User :=
  mkUser "Root" "root@example.org" ADMIN false false None None None.

Definition wellDoc : Campaign :=
  mkCampaign "Village well" None [] 1000 100 alice true false None.
Definition schoolDoc : Campaign :=
  mkCampaign "School roof" None [] 500 0 alice false false None.

Definition giftDoc (status : DonationStatus) : Donation :=
  mkDonation well bob "bob@example.org" 100 DM_PAYPAL status
    None None None None None None None None.

Definition payoutDoc (status : WithdrawalStatus) : WithdrawalRequest :=
  mkWithdrawal alice well 100 PM_BANK None None None None status None None None None.

Definition formDoc : OrganizerApplication :=
  mkApplication bob "Helpers Inc" "We help people in need daily" None None None OTHER
    A_PENDING None None None.

Definition people : gmap string User :=
  <[admin := adminDoc]> (<[alice := aliceDoc]> (<[bob := bobDoc]> ∅)).

(** Alice's approved campaign holds Bob's completed donation of 100; her
    second campaign awaits approval; Bob has applied to become an organizer;
    Alice has asked for a payout of 100. *)
Definition store (gs : DonationStatus) (ps : WithdrawalStatus) : Store :=
  mkStore people
    (<[form := formDoc]> ∅)
    (<[well := wellDoc]> (<[school := schoolDoc]> ∅))
    (<[gift := giftDoc gs]> ∅)
    (<[payout := payoutDoc ps]> ∅).

(** The same with the well campaign closed, empty, and the donation pending. *)
Definition closedStore : Store :=
  mkStore people ∅
    (<[well := mkCampaign "Village well" None [] 1000 0 alice true true None]> ∅)
    (<[gift := giftDoc D_PENDING]> ∅)
    ∅.

(** Alice revoked by the admin, her campaign closed by the cascade. *)
Definition revokedStore : Store :=
  mkStore
    (<[alice := mkUser "Alice" "alice@example.org" ORGANIZER true true (Some 7%Z)
                  (Some admin) (Some "fraudulent campaign")]> people)
    ∅
    (<[well := mkCampaign "Village well" None [] 1000 100 alice true true
                 (Some "Organizer account revoked")]> ∅)
    ∅
    (<[payout := payoutDoc W_REJECTED]> ∅).

Definition request (amount : Q) : WithdrawalService.CreateWithdrawalDTO :=
  WithdrawalService.mkCreateWithdrawalDTO well amount "bank" None None None None.

Definition pledge (campaignId : Id) : DonationService.CreateDonationDTO :=
  DonationService.mkCreateDonationDTO campaignId 25 DM_PAYPAL "Bob@Example.org"
    None None None None None None None.

(** The payout scenario of the specification: a campaign is created,
    approved, funded by one completed donation, and paid out in full. *)
Definition scenario : list (Op * list bool) :=
  [ (CreateCampaign nowhere alice
       (CampaignService.mkCreateCampaignDTO "Flood relief" None None 1000), []);
    (ApproveCampaign nowhere, []);
    (CreateDonation form bob (pledge nowhere), []);
    (UpdateDonationStatus form D_COMPLETED None, []);
    (CreateWithdrawalRequest payout2 alice
       (WithdrawalService.mkCreateWithdrawalDTO nowhere 25 "bank" None None None None), []);
    (ApproveWithdrawal payout2 admin, []);
    (MarkAsPaid 9 payout2 admin None, []) ].

End Sample.

(** ** The outcome of a request *)

(** The error of a result, if it is one. *)
Definition failure {A} (r : Result A) : option Error :=
  match r with Ok _ => None | Err e => Some e end.

(** One request with its outcome: the error it fails with, if any, and
    the committed store it leaves, which is the store of [exec]. *)
Definition attempt (op : Op) (flt : list bool) (s : Store) : option Error * Store :=
  match op with
  | SubmitApplication newId userId data =>
      let (r, s') := run (OrganizerService.submitApplication newId userId data) flt s in
      (failure r, s')
  | ApproveApplication now applicationId adminId =>
      let (r, s') := run (OrganizerService.approveApplication now applicationId adminId) flt s in
      (failure r, s')
  | RejectApplication now applicationId adminId why =>
      let (r, s') :=
        run (OrganizerService.rejectApplication now applicationId adminId why) flt s in
      (failure r, s')
  | RevokeOrganizer now organizerId adminId why =>
      let (r, s') := run (OrganizerService.revokeOrganizer now organizerId adminId why) flt s in
      (failure r, s')
  | ReinstateOrganizer organizerId adminId =>
      let (r, s') := run (OrganizerService.reinstateOrganizer organizerId adminId) flt s in
      (failure r, s')
  | CreateCampaign newId organizerId data =>
      let (r, s') := run (CampaignService.createCampaign newId organizerId data) flt s in
      (failure r, s')
  | UpdateCampaign campaignId userId userRole updates =>
      let (r, s') :=
        run (CampaignService.updateCampaign campaignId userId userRole updates) flt s in
      (failure r, s')
  | ApproveCampaign campaignId =>
      let (r, s') := run (CampaignService.approveCampaign campaignId) flt s in
      (failure r, s')
  | CloseCampaign campaignId userId userRole =>
      let (r, s') := run (CampaignService.closeCampaign campaignId userId userRole) flt s in
      (failure r, s')
  | DeleteCampaign campaignId userId userRole =>
      let (r, s') := run (CampaignService.deleteCampaign campaignId userId userRole) flt s in
      (failure r, s')
  | CreateDonation newId donorId data =>
      let (r, s') := run (DonationService.createDonation newId donorId data) flt s in
      (failure r, s')
  | UpdateDonationStatus donationId status details =>
      let (r, s') :=
        run (DonationService.updateDonationStatus donationId status details) flt s in
      (failure r, s')
  | CreateWithdrawalRequest newId organizerId data =>
      let (r, s') :=
        run (WithdrawalService.createWithdrawalRequest newId organizerId data) flt s in
      (failure r, s')
  | ApproveWithdrawal withdrawalId adminId =>
      let (r, s') := run (WithdrawalService.approveWithdrawal withdrawalId adminId) flt s in
      (failure r, s')
  | RejectWithdrawal withdrawalId adminId message =>
      let (r, s') :=
        run (WithdrawalService.rejectWithdrawal withdrawalId adminId message) flt s in
      (failure r, s')
  | MarkAsPaid now withdrawalId adminId paymentReference =>
      let (r, s') :=
        run (WithdrawalService.markAsPaid now withdrawalId adminId paymentReference) flt s in
      (failure r, s')
  end.

(** ** Life cycles of the documents *)

(** Every document of the first collection is still in the second, related
    by [R] to what it was. *)
Definition evolves {D} (R : D -> D -> Prop) (m m' : gmap string D) : Prop :=
  forall id d, m !! id = Some d -> exists d', m' !! id = Some d' /\ R d d'.


(** The second request asks for what the first asked for: organizer,
    campaign, amount, payout details and reason are the same. *)
Definition sameRequest (w w' : WithdrawalRequest) : Prop :=
  organizer w' = organizer w /\ wr_campaign w' = wr_campaign w
  /\ amountRequested w' = amountRequested w /\ payoutMethod w' = payoutMethod w
  /\ bankDetails w' = bankDetails w /\ paypalEmail w' = paypalEmail w
  /\ cryptoDetails w' = cryptoDetails w /\ reason w' = reason w.

(** One request handled: the status stays, or moves from pending to approved
    or rejected, or from approved to paid. *)
Definition withdrawalStep (w w' : WithdrawalRequest) : Prop :=
  sameRequest w w'
  /\ (w' = w
      \/ wr_status w = W_PENDING /\ (wr_status w' = W_APPROVED \/ wr_status w' = W_REJECTED)
      \/ wr_status w = W_APPROVED /\ wr_status w' = W_PAID).

(** Any number of requests handled. *)
Definition withdrawalPath (w w' : WithdrawalRequest) : Prop :=
  sameRequest w w'
  /\ (w' = w
      \/ wr_status w = W_PENDING
      \/ wr_status w = W_APPROVED /\ wr_status w' = W_PAID).


(** The second application has the applicant and the texts of the first. *)
Definition sameApplication (a a' : OrganizerApplication) : Prop :=
  app_user a' = app_user a /\ organizationName a' = organizationName a
  /\ app_description a' = app_description a /\ contactEmail a' = contactEmail a
  /\ app_phoneNumber a' = app_phoneNumber a /\ website a' = website a
  /\ organizationType a' = organizationType a.

(** One request handled: the application stays as it is, or moves from
    pending to approved or rejected. *)
Definition applicationStep (a a' : OrganizerApplication) : Prop :=
  sameApplication a a'
  /\ (a' = a
      \/ app_status a = A_PENDING /\ (app_status a' = A_APPROVED \/ app_status a' = A_REJECTED)).

(** What no operation changes in a campaign that stays in the store. *)
Definition campaignStep (c c' : Campaign) : Prop :=
  owner c' = owner c
  /\ (isApproved c = true -> isApproved c' = true)
  /\ (isClosed c = true -> isClosed c' = true /\ closedReason c' = closedReason c).

(** What no operation changes in a user. *)
Definition userStep (u u' : User) : Prop :=
  name u' = name u /\ email u' = email u
  /\ (role u' = role u /\ isOrganizerApproved u' = isOrganizerApproved u
      \/ role u' = ORGANIZER /\ isOrganizerApproved u' = true).

(** What no operation changes in a donation: everything but the status and
    the payment details, and a payment detail once recorded is never
    erased. *)
Definition donationStep (d d' : Donation) : Prop :=
  don_campaign d' = don_campaign d /\ donor d' = donor d
  /\ donorEmail d' = donorEmail d /\ amount d' = amount d /\ method d' = method d
  /\ cryptoCurrency d' = cryptoCurrency d /\ network d' = network d
  /\ (is_Some (transactionId d) -> is_Some (transactionId d'))
  /\ (is_Some (payerEmail d) -> is_Some (payerEmail d'))
  /\ (is_Some (payerName d) -> is_Some (payerName d'))
  /\ (is_Some (payerCountry d) -> is_Some (payerCountry d'))
  /\ (is_Some (captureDetails d) -> is_Some (captureDetails d'))
  /\ (is_Some (transactionHash d) -> is_Some (transactionHash d')).

(** The operations that move money. *)
Definition movesMoney (op : Op) : bool :=
  match op with
  | UpdateDonationStatus _ _ _ | MarkAsPaid _ _ _ _ => true
  | _ => false
  end.

(** The operation that removes a document. *)
Definition isDelete (op : Op) : bool :=
  match op with DeleteCampaign _ _ _ => true | _ => false end.


(** An application that is pending or approved. *)
Definition live (a : OrganizerApplication) : bool :=
  bool_decide (app_status a = A_PENDING) || bool_decide (app_status a = A_APPROVED).

(** At most one application per user is pending or approved. *)
Definition oneLiveApplication (s : Store) : Prop :=
  forall i j a1 a2,
    applications s !! i = Some a1 -> applications s !! j = Some a2 ->
    app_user a1 = app_user a2 -> live a1 = true -> live a2 = true -> i = j.

(** No application of the user is pending or approved. *)
Definition noneLiveFor (userId : Id) (s : Store) : Prop :=
  forall i a, applications s !! i = Some a -> app_user a = userId -> live a = false.

(** Every document of the second collection was in the first, with the same
    key [key], and is not [on] unless it already was. *)
Definition nothingTurnedOn {D} (key : D -> Id) (on : D -> bool) (m m' : gmap string D)
  : Prop :=
  forall id d', m' !! id = Some d' ->
                exists d, m !! id = Some d /\ key d = key d' /\ (on d' = true -> on d = true).

(** At most one document per key is [on]. *)
Definition oneOn {D} (key : D -> Id) (on : D -> bool) (m : gmap string D) : Prop :=
  forall i j d1 d2, m !! i = Some d1 -> m !! j = Some d2 -> key d1 = key d2 ->
                    on d1 = true -> on d2 = true -> i = j.

(** Any number of requests handled: an application that has been decided
    is never changed again. *)
Definition applicationPath (a a' : OrganizerApplication) : Prop :=
  sameApplication a a' /\ (a' = a \/ app_status a = A_PENDING).

(** What becomes of the documents of the first collection: a document that
    is still in the second is related by [R] to what it was, and one that is
    not satisfied [gone]. *)
Definition fate {D} (R : D -> D -> Prop) (gone : D -> Prop) (m m' : gmap string D) : Prop :=
  forall id d, m !! id = Some d ->
               match m' !! id with Some d' => R d d' | None => gone d end.

(** One request as a campaign sees it: owner, approval and closure as in
    [campaignStep], and [raised] as it was unless the request moves money. *)
Definition campaignKept (op : Op) (c c' : Campaign) : Prop :=
  campaignStep c c' /\ (movesMoney op = false -> raised c' = raised c).

(** A campaign disappears only in a [deleteCampaign] and with nothing raised. *)
Definition campaignGone (op : Op) (c : Campaign) : Prop :=
  isDelete op = true /\ (raised c <= 0)%Q.

(** ** The documents that the creating operations write *)

(** The application that [submitApplication] writes. *)
Definition newApplication (userId : Id) (data : OrganizerService.SubmitApplicationDTO)
  : OrganizerApplication :=
  mkApplication userId
    (JS.trim (OrganizerService.dto_organizationName data))
    (JS.trim (OrganizerService.dto_description data))
    (JS.optTrim (OrganizerService.dto_contactEmail data))
    (JS.optTrim (OrganizerService.dto_phoneNumber data))
    (JS.optTrim (OrganizerService.dto_website data))
    (default OTHER (OrganizerService.dto_organizationType data))
    A_PENDING None None None.

(** The campaign that [createCampaign] writes. *)
Definition newCampaign (organizerId : Id) (data : CampaignService.CreateCampaignDTO)
  : Campaign :=
  mkCampaign (JS.trim (CampaignService.cc_title data))
    (JS.optTrim (CampaignService.cc_description data))
    (default [] (CampaignService.cc_images data))
    (CampaignService.cc_target data) 0 organizerId false false None.



(** The caller may act on the campaign: an admin, or its owner. *)
Definition mayManage (userId : Id) (userRole : Role) (c : Campaign) : Prop :=
  userRole = ADMIN \/ owner c = userId.

(** ** The donor email *)

(** Number of ["@"] characters of a string. *)
Fixpoint countAt (s : string) : nat :=
  match s with
  | EmptyString => 0
  | String c s' => (if Ascii.eqb c "@"%char then 1 else 0) + countAt s'
  end.

(** [donorEmail.toLowerCase().trim()], what [createDonation] stores. *)
Definition normalizeEmail (e : string) : string := JS.trim (JS.toLowerCase e).

(** ** Pagination (the list functions of the four services)

    [page] and [limit] arrive as whole numbers or not at all; a value that
    [Number()] turns into [NaN] behaves as an absent one, since [NaN || d]
    is [d]. Fractions and infinities are left out. *)

Module Paging.

(** [Number(x) || d]: [undefined], [NaN] and [0] give the default. *)
Definition orDefault (x : option Z) (d : Z) : Z :=
  match x with
  | Some n => if Z.eqb n 0 then d else n
  | None => d
  end.

(** [Math.max(1, Number(filters.page) || 1)] *)
Definition page (x : option Z) : Z := Z.max 1 (orDefault x 1).

(** [Math.min(100, Math.max(1, Number(filters.limit) || d))] *)
Definition limit (d : Z) (x : option Z) : Z := Z.min 100 (Z.max 1 (orDefault x d)).

(** [(page - 1) * limit] *)
Definition skip (p l : Z) : Z := (p - 1) * l.

(** [Math.ceil(total / limit)] *)
Definition pages (total : nat) (l : Z) : Z :=
  Qceiling (inject_Z (Z.of_nat total) / inject_Z l).

(** [.skip(skip).limit(limit)] on the sorted matches *)
Definition window {D} (p l : Z) (docs : list D) : list D :=
  take (Z.to_nat l) (drop (Z.to_nat (skip p l)) docs).

Record Pagination := mkPagination {
  pg_page : Z;
  pg_limit : Z;
  pg_total : nat;
  pg_pages : Z
}.

(** The documents of the requested page and the [pagination] object, from
    the sorted list of the documents that match the query. *)
Definition paginate {D} (d : Z) (xpage xlimit : option Z) (docs : list D)
  : list D * Pagination :=
  let p := page xpage in
  let l := limit d xlimit in
  (window p l docs, mkPagination p l (length docs) (pages (length docs) l)).

End Paging.

(** ** Read operations (the list and lookup functions of the services)

    They read the committed store and write nothing. Two things are not in
    the source and stay parameters: what MongoDB's [$text] search on the
    title index matches, and the order of [createdAt], a time stamp that
    the documents of this model do not carry. *)

Section Queries.

Variable textMatch : string -> Campaign -> bool.

(** [.sort({ createdAt: -1 })] on the documents of a collection *)
Variable newestFirst : forall D : Type, list (Id * D) -> list (Id * D).

(** The filter object that [getCampaigns] builds. *)
Record CampaignQuery := mkCampaignQuery {
  q_owner : option Id;
  q_isApproved : option bool;
  q_isClosed : option bool;
  q_text : option string
}.

Record CampaignFilters := mkCampaignFilters {
  f_owner : option string;
  f_isApproved : option bool;
  f_isClosed : option bool;
  f_search : option string;
  f_page : option Z;
  f_limit : option Z
}.

(** [filters.owner && filters.owner === userId] *)
Definition viewsOwn (filters : CampaignFilters) (userId : option Id) : bool :=
  match f_owner filters, userId with
  | Some o, Some u => JS.truthy o && String.eqb o u
  | _, _ => false
  end.

(** The search term of the query: [filters.search.trim()] when that is
    not empty. *)
Definition searchTerm (filters : CampaignFilters) : option string :=
  match f_search filters with
  | Some t => if JS.truthy t && JS.truthy (JS.trim t) then Some (JS.trim t) else None
  | None => None
  end.

Definition campaignQuery (filters : CampaignFilters) (userId : option Id)
  (userRole : option Role) : CampaignQuery :=
  let own := CampaignService.notAdmin userRole && viewsOwn filters userId in
  let public := CampaignService.notAdmin userRole && negb (viewsOwn filters userId) in
  mkCampaignQuery
    (if own then userId else None)
    (if JS.defined (f_isApproved filters) && negb (CampaignService.notAdmin userRole)
     then f_isApproved filters
     else if public then Some true else None)
    (f_isClosed filters)
    (searchTerm filters).

Definition matchesField {A} (eqb : A -> A -> bool) (wanted : option A) (actual : A) : bool :=
  match wanted with Some v => eqb actual v | None => true end.

(** A campaign matches the filter object. *)
Definition matchesCampaign (q : CampaignQuery) (c : Campaign) : bool :=
  matchesField String.eqb (q_owner q) (owner c)
  && matchesField Bool.eqb (q_isApproved q) (isApproved c)
  && matchesField Bool.eqb (q_isClosed q) (isClosed c)
  && match q_text q with Some t => textMatch t c | None => true end.

(** [Model.find(query).sort({ createdAt: -1 })] *)
Definition find {D} (coll : gmap string D) (query : D -> bool) : list (Id * D) :=
  filter (fun d => query d.2 = true) (newestFirst D (map_to_list coll)).

Record CampaignPage := mkCampaignPage {
  cp_campaigns : list (Id * Campaign * option User);
  cp_pagination : Paging.Pagination
}.

(** [new mongoose.Types.ObjectId(userId)] throws on a malformed id; the
    other reads of the function cannot fail. Each campaign comes with its
    [owner] populated. *)
Definition getCampaigns (filters : CampaignFilters) (userId : option Id)
  (userRole : option Role) : M CampaignPage :=
  throwIf (CampaignService.notAdmin userRole && viewsOwn filters userId
           && negb (ObjectId_isValid (default "" userId)))
          TypeError ;;
  s <- view false ;;
  let query := campaignQuery filters userId userRole in
  let (docs, pagination) :=
    Paging.paginate 10 (f_page filters) (f_limit filters)
      (find (campaigns s) (matchesCampaign query)) in
  ret (mkCampaignPage ((fun d => (d.1, d.2, users s !! owner d.2)) <$> docs) pagination).

(** The filter object that [getAllOrganizers] builds: the role, and the
    flags that the status asks for. *)
Definition organizerQuery (status : option string) (u : User) : bool :=
  bool_decide (role u = ORGANIZER)
  && match status with
     | Some st =>
         if String.eqb st "active"
         then isOrganizerApproved u && negb (isOrganizerRevoked u)
         else if String.eqb st "revoked" then isOrganizerRevoked u
         else if String.eqb st "pending"
         then negb (isOrganizerApproved u) && negb (isOrganizerRevoked u)
         else true
     | None => true
     end.

Record OrganizerPage := mkOrganizerPage {
  op_organizers : list (Id * User * option User);
  op_pagination : Paging.Pagination
}.

(** Each organizer comes with [revokedBy] populated. *)
Definition getAllOrganizers (status : option string) (xpage xlimit : option Z)
  : M OrganizerPage :=
  s <- view false ;;
  let (docs, pagination) :=
    Paging.paginate 20 xpage xlimit (find (users s) (organizerQuery status)) in
  ret (mkOrganizerPage
         ((fun d => (d.1, d.2, revokedBy d.2 ≫= fun a => users s !! a)) <$> docs)
         pagination).

End Queries.

(** The request with [organizer], [campaign] and [reviewedBy] populated. *)
Record WithdrawalView := mkWithdrawalView {
  wv_request : WithdrawalRequest;
  wv_organizer : option User;
  wv_campaign : option Campaign;
  wv_reviewedBy : option User
}.

(** [withdrawal.organizer._id] is read only when the caller is not an
    admin; on a request whose organizer is no user of the store the read
    throws. *)
Definition getWithdrawalById (withdrawalId userId : Id) (userRole : Role)
  : M WithdrawalView :=
  throwIf (negb (ObjectId_isValid withdrawalId)) (Msg "Invalid withdrawal ID") ;;
  throwIf (negb (ObjectId_isValid userId)) (Msg "Invalid user ID") ;;
  found <- findById withdrawals false withdrawalId ;;
  match found with
  | None => throw (Msg "Withdrawal request not found")
  | Some withdrawal =>
      organizer' <- findById users false (organizer withdrawal) ;;
      campaign' <- findById campaigns false (wr_campaign withdrawal) ;;
      s <- view false ;;
      let reviewedBy' := wr_reviewedBy withdrawal ≫= fun a => users s !! a in
      (if CampaignService.notAdmin (Some userRole) then
         match organizer' with
         | None => throw TypeError
         | Some _ =>
             throwIf (negb (String.eqb (organizer withdrawal) userId)) (Msg "Access denied")
         end
       else ret tt) ;;
      ret (mkWithdrawalView withdrawal organizer' campaign' reviewedBy')
  end.

Record DonationStats := mkDonationStats {
  totalAmount : Q;
  totalDonations : nat;
  avgDonation : Q;
  maxDonation : Q;
  minDonation : Q
}.

(** [{ status: COMPLETED }], with [campaign] added when an id is given *)
Definition statsMatch (campaignId : option Id) (d : Donation) : bool :=
  bool_decide (don_status d = D_COMPLETED)
  && match campaignId with
     | Some id => if JS.truthy id then String.eqb (don_campaign d) id else true
     | None => true
     end.

(** [$max] and [$min] of a group that starts with [a] *)
Definition maxOf (a : Q) (amounts : list Q) : Q := foldr (fun x m => JS.Math_max m x) a amounts.
Definition minOf (a : Q) (amounts : list Q) : Q :=
  foldr (fun x m => if Qle_bool m x then m else x) a amounts.

Section Statistics.

(** [$sum] and [$avg] of the store over the amounts of a group. The amounts
    are doubles and the store adds them in floating point, in an order of
    its own: the two results are parameters, and nothing is assumed about
    them. *)
Variable floatSum : list Q -> Q.
Variable floatAvg : list Q -> Q.

(** The [$group] stage over the matched amounts; without a match the
    aggregation gives no group and the function its zero object. *)
Definition groupStats (amounts : list Q) : DonationStats :=
  match amounts with
  | [] => mkDonationStats 0 0 0 0 0
  | a :: rest =>
      mkDonationStats (floatSum amounts) (length amounts) (floatAvg amounts)
        (maxOf a rest) (minOf a rest)
  end.

Definition getDonationStats (campaignId : option Id) : M DonationStats :=
  throwIf (match campaignId with
           | Some id => JS.truthy id && negb (ObjectId_isValid id)
           | None => false
           end)
          (Msg "Invalid campaign ID") ;;
  s <- view false ;;
  ret (groupStats ((fun d => amount d.2)
                     <$> filter (fun d => statsMatch campaignId d.2 = true)
                           (map_to_list (donations s)))).

End Statistics.

(** Every organizer of the store is approved. *)
Definition organizersApproved (s : Store) : Prop :=
  forall id u, users s !! id = Some u -> role u = ORGANIZER -> isOrganizerApproved u = true.

(** ** Request guards (auth.middleware.ts), controllers and routes *)

Record AuthRequest := mkRequest {
  authorization : option string;
  req_user : option (Id * User)
}.

(** What a guard does with a request: [next()], or a response that ends
    it. Of the JSON body of such a response only [message] is kept. *)
Inductive Step :=
| Next (req : AuthRequest)
| Respond (status : nat) (message : string).

Definition Middleware : Type := AuthRequest -> Step.

(** What a controller answers. *)
Inductive Reply (A : Type) :=
| Sent (status : nat) (message : string)   (* res.status(n).json({ message }) *)
| Failed (status : nat) (e : Error)        (* res.status(n).json({ message: error.message }) *)
| Done (status : nat) (data : A).          (* res.status(n).json({ ..., data }) *)
Arguments Sent {A} status message.
Arguments Failed {A} status e.
Arguments Done {A} status data.




Section Routes.

(** [jwt.verify(token, process.env.JWT_SECRET)] and the [userId] of the
    payload; [None] when the call throws. *)
Variable jwt_verify : string -> option Id.




(** The guards of a route, in order. *)
Fixpoint chain (guards : list Middleware) (req : AuthRequest) : Step :=
  match guards with
  | [] => Next req
  | guard :: rest =>
      match guard req with
      | Next req' => chain rest req'
      | Respond status message => Respond status message
      end
  end.

(** A request as it arrives: no guard has set [req.user] yet. *)
Definition incoming (header : option string) : AuthRequest := mkRequest header None.



(** [CampaignController.getcampaignById] *)
Definition getcampaignById (campaignId : Id) (flt : list bool) (s : Store)
  (req : AuthRequest) : Reply (Campaign * option User) * Store :=
  match run (CampaignService.getCampaignById campaignId
               (fst <$> req_user req) ((fun u => role u.2) <$> req_user req)) flt s with
  | (Ok result, s') => (Done 200 result, s')
  | (Err error, s') => (Failed 404 error, s')
  end.

(** A route: its guards, then its controller. *)
Definition route {A} (guards : list Middleware)
  (controller : AuthRequest -> Reply A * Store) (s : Store) (header : option string)
  : Reply A * Store :=
  match chain guards (incoming header) with
  | Next req => controller req
  | Respond status message => (Sent status message, s)
  end.



Definition getCampaign (campaignId : Id) (flt : list bool) (s : Store) :=
  route [] (getcampaignById campaignId flt s) s.

End Routes.

(** * Properties *)

(** Unfolding of the monad and of the model calls. *)
Ltac unfold_js :=
  cbv [run bind ret throw throwIf tryCatch tryFinally storageCall view write
       startTransaction commitTransaction abortTransaction endSession
       findById exists_ save create updateMany findByIdAndUpdate findByIdAndDelete
       populate
       db session faults negb andb orb fst snd].

(** Case analysis on the fault plan, four storage calls deep. *)
Ltac fault_cases flt :=
  destruct flt as [|[] [|[] [|[] [|[] ?]]]].

(** Runs the storage calls of an unfolded operation one by one: each one
    either finds no flag left, or fails, or goes through. *)
Ltac step_storage tac :=
  repeat (unfold_js; tac;
          match goal with
          | |- context [match ?f with [] => _ | _ :: _ => _ end] =>
              is_var f; let f' := fresh f in destruct f as [|[] f']
          end);
  unfold_js; tac.

Ltac store_simpl :=
  cbn [users applications campaigns donations withdrawals
       set_users set_applications set_campaigns set_donations set_withdrawals
       OrganizerService.markApproved app_status app_reviewedBy reviewedAt app_user] in *.

(** ** The payout scenario *)

(** The campaign starts unapproved with nothing raised; the completed
    donation of 25 is credited once; a second withdrawal request while the
    first is pending is refused with the conflict error; after the payout
    nothing is left. *)
Example scenario_payout :
  let s0 := Sample.store D_COMPLETED W_PENDING in
  let at_ n := execAll (take n Sample.scenario) s0 in
  (exists c, campaigns (at_ 1) !! Sample.nowhere = Some c
             /\ isApproved c = false /\ raised c = 0%Q)
  /\ (exists c, campaigns (at_ 4) !! Sample.nowhere = Some c /\ (raised c == 25)%Q)
  /\ (run (WithdrawalService.createWithdrawalRequest Sample.gift Sample.alice
            (WithdrawalService.mkCreateWithdrawalDTO Sample.nowhere 25 "bank"
               None None None None)) [] (at_ 5)).1
     = Err (Msg "You already have a pending or approved withdrawal request for this campaign")
  /\ (exists c, campaigns (at_ 7) !! Sample.nowhere = Some c /\ (raised c == 0)%Q)
  /\ (exists w, withdrawals (at_ 7) !! Sample.payout2 = Some w /\ wr_status w = W_PAID).
Proof.
  cbv zeta. repeat split; try (eexists; split; [vm_compute; reflexivity|]);
    vm_compute; try reflexivity; auto.
Qed.

(** ** Approval of an organizer application *)

Lemma approveApplication_run now applicationId adminId flt s a :
  applications s !! applicationId = Some a ->
  ObjectId_isValid applicationId = true ->
  ObjectId_isValid adminId = true ->
  run (OrganizerService.approveApplication now applicationId adminId) flt s =
  if negb (bool_decide (app_status a = A_PENDING))
  then (Err (Msg "Only pending applications can be approved"), s)
  else if faultWithin 3 flt then (Err StorageError, s)
  else (Ok (OrganizerService.markApproved now adminId a),
        set_users (alter OrganizerService.promote (app_user a))
          (set_applications (insert applicationId (OrganizerService.markApproved now adminId a))
             s)).
Proof.
  intros Ha Hv1 Hv2.
  unfold OrganizerService.approveApplication. unfold_js.
  rewrite Hv1, Hv2, Ha.
  destruct (bool_decide (app_status a = A_PENDING)); [|reflexivity].
  fault_cases flt; reflexivity.
Qed.

(** C6. For an application in the store, [approveApplication] fails with
    the state error and changes nothing unless the application is pending;
    for a pending one it succeeds whenever the store does not fail, and then
    the application is approved, with the admin and the review time
    recorded, and its user (when the store has one) is an approved
    organizer; every failure leaves the store as it was, so the two writes
    are seen together or not at all. *)
Theorem approveApplication_atomic now applicationId adminId flt s a :
  applications s !! applicationId = Some a ->
  ObjectId_isValid applicationId = true ->
  ObjectId_isValid adminId = true ->
  match run (OrganizerService.approveApplication now applicationId adminId) flt s with
  | (Ok a', s') =>
      app_status a = A_PENDING
      /\ applications s' !! applicationId = Some a'
      /\ app_status a' = A_APPROVED
      /\ app_reviewedBy a' = Some adminId /\ reviewedAt a' = Some now
      /\ app_user a' = app_user a
      /\ (forall u, users s !! app_user a = Some u ->
            exists u', users s' !! app_user a = Some u'
                       /\ role u' = ORGANIZER /\ isOrganizerApproved u' = true)
      /\ (forall i, i <> applicationId -> applications s' !! i = applications s !! i)
      /\ (forall i, i <> app_user a -> users s' !! i = users s !! i)
      /\ campaigns s' = campaigns s /\ donations s' = donations s
      /\ withdrawals s' = withdrawals s
  | (Err e, s') =>
      s' = s
      /\ (app_status a <> A_PENDING ->
            e = Msg "Only pending applications can be approved" /\ errorKind e = StateError)
      /\ (app_status a = A_PENDING -> faultWithin 3 flt = true)
  end.
Proof.
  intros Ha Hv1 Hv2. rewrite (approveApplication_run _ _ _ _ _ a) by done.
  case_bool_decide as Hp; cbn [negb].
  - destruct (faultWithin 3 flt) eqn:Hf; store_simpl.
    + split; [done|]. split; [done|]. done.
    + split; [done|]. split; [apply lookup_insert_eq|].
      do 4 (split; [done|]).
      split.
      { intros u Hu. exists (OrganizerService.promote u). split; [|done].
        rewrite lookup_alter_eq, Hu. done. }
      split. { intros i Hi. by rewrite lookup_insert_ne. }
      split. { intros i Hi. by rewrite lookup_alter_ne. }
      done.
  - split; [done|]. split; [done|]. done.
Qed.

Lemma approveApplication_atomic_witness :
  applications (Sample.store D_COMPLETED W_PENDING) !! Sample.form = Some Sample.formDoc
  /\ ObjectId_isValid Sample.form = true
  /\ ObjectId_isValid Sample.admin = true
  /\ match run (OrganizerService.approveApplication 9 Sample.form Sample.admin) []
             (Sample.store D_COMPLETED W_PENDING) with
     | (Ok a', s') =>
         app_status a' = A_APPROVED
         /\ (exists u', users s' !! Sample.bob = Some u'
                        /\ role u' = ORGANIZER /\ isOrganizerApproved u' = true)
     | (Err _, _) => False
     end.
Proof.
  pose proof (approveApplication_atomic 9 Sample.form Sample.admin []
                (Sample.store D_COMPLETED W_PENDING) Sample.formDoc
                eq_refl eq_refl eq_refl) as H.
  split; [reflexivity|]. split; [reflexivity|]. split; [reflexivity|].
  destruct (run _ _ _) as [[a'|e] s'].
  - destruct H as (_ & _ & Hs & _ & _ & _ & Hu & _). split; [exact Hs|].
    apply (Hu Sample.bobDoc). reflexivity.
  - destruct H as (_ & _ & Hf). discriminate (Hf eq_refl).
Defined.


(** ** Payout of a withdrawal request *)

Lemma Math_max_floor x : Qle_bool 0 (JS.Math_max 0 x) = true.
Proof. unfold JS.Math_max. destruct (Qle_bool 0 x) eqn:E; [exact E | reflexivity]. Qed.

Lemma Math_max_nonneg x : (0 <= JS.Math_max 0 x)%Q.
Proof. apply Qle_bool_iff, Math_max_floor. Qed.

Lemma raised_floor_valid x c :
  firstError (Schema.Campaign_raised (setRaised (JS.Math_max 0 x) c)) = None.
Proof. cbn. by rewrite Math_max_floor. Qed.

Lemma markAsPaid_run now withdrawalId adminId ref flt s w :
  withdrawals s !! withdrawalId = Some w ->
  ObjectId_isValid withdrawalId = true ->
  ObjectId_isValid adminId = true ->
  run (WithdrawalService.markAsPaid now withdrawalId adminId ref) flt s =
  let w' := WithdrawalService.markPaid now adminId ref w in
  if negb (bool_decide (wr_status w = W_APPROVED))
  then (Err (Msg "Only approved requests can be marked as paid"), s)
  else match campaigns s !! wr_campaign w with
       | Some c =>
           if faultWithin 3 flt then (Err StorageError, s)
           else (Ok w',
                 set_campaigns
                   (insert (wr_campaign w)
                      (setRaised (JS.Math_max 0 (raised c - amountRequested w)) c))
                   (set_withdrawals (insert withdrawalId w') s))
       | None =>
           if faultWithin 2 flt then (Err StorageError, s)
           else (Ok w', set_withdrawals (insert withdrawalId w') s)
       end.
Proof.
  intros Hw Hv1 Hv2.
  unfold WithdrawalService.markAsPaid. unfold_js.
  rewrite Hv1, Hv2, Hw.
  destruct (bool_decide (wr_status w = W_APPROVED)); [|reflexivity].
  destruct (campaigns s !! wr_campaign w) as [c|] eqn:Hc;
    step_storage ltac:(cbn [WithdrawalService.markPaid wr_campaign amountRequested];
                       rewrite ?Hc, ?raised_floor_valid);
    reflexivity.
Qed.

(** C2, as stated, fails: a request is approved, the completed donation of
    its campaign then fails, which brings [raised] to 0, and the owner
    deletes the campaign; [markAsPaid] then marks the request as paid and
    debits nothing, the campaign being gone. *)
Lemma paid_without_debit :
  ~ paidOnlyWithDebit
      (execAll [ (ApproveWithdrawal Sample.payout Sample.admin, []);
                 (UpdateDonationStatus Sample.gift D_FAILED None, []);
                 (DeleteCampaign Sample.well Sample.alice ORGANIZER, []) ]
         (Sample.store D_COMPLETED W_PENDING)).
Proof.
  intros H.
  set (s := execAll _ _) in H.
  assert (exists w' s',
            run (WithdrawalService.markAsPaid 9 Sample.payout Sample.admin None) [] s
            = (Ok w', s')
            /\ wr_status w' = W_PAID
            /\ campaigns s !! wr_campaign w' = None) as (w' & s' & Hrun & _ & Hgone).
  { vm_compute. do 2 eexists. split; [reflexivity|]. split; reflexivity. }
  destruct (H _ _ _ _ _ _ _ Hrun) as (c & Hc & _). congruence.
Qed.

(** C2, amended. For a request in the store, [markAsPaid] fails with the
    state error and changes nothing unless the request is approved; for an
    approved one it succeeds whenever the store does not fail, and then the
    request is paid, with payment time, reference and admin recorded. When
    the store still has the campaign of the request, the same commit lowers
    its [raised] by the requested amount, floored at 0; when the campaign
    has been deleted, the request is paid and no campaign changes. Every
    failure leaves the store as it was. *)
Theorem markAsPaid_atomic now withdrawalId adminId ref flt s w :
  withdrawals s !! withdrawalId = Some w ->
  ObjectId_isValid withdrawalId = true ->
  ObjectId_isValid adminId = true ->
  match run (WithdrawalService.markAsPaid now withdrawalId adminId ref) flt s with
  | (Ok w', s') =>
      wr_status w = W_APPROVED
      /\ withdrawals s' = <[withdrawalId := w']> (withdrawals s)
      /\ wr_status w' = W_PAID /\ paidAt w' = Some now
      /\ paymentReference w' = JS.optTrim ref /\ wr_reviewedBy w' = Some adminId
      /\ wr_campaign w' = wr_campaign w /\ amountRequested w' = amountRequested w
      /\ match campaigns s !! wr_campaign w with
         | Some c =>
             campaigns s' =
             <[wr_campaign w :=
                 setRaised (JS.Math_max 0 (raised c - amountRequested w)) c]> (campaigns s)
         | None => campaigns s' = campaigns s
         end
      /\ users s' = users s /\ applications s' = applications s
      /\ donations s' = donations s
  | (Err e, s') =>
      s' = s
      /\ (wr_status w <> W_APPROVED ->
            e = Msg "Only approved requests can be marked as paid"
            /\ errorKind e = StateError)
      /\ (wr_status w = W_APPROVED -> faultWithin 3 flt = true)
  end.
Proof.
  intros Hw Hv1 Hv2. rewrite (markAsPaid_run _ _ _ _ _ _ w) by done. cbv zeta.
  case_bool_decide as Hp; cbn [negb]; [|done].
  destruct (campaigns s !! wr_campaign w) as [c|] eqn:Hc.
  - destruct (faultWithin 3 flt) eqn:Hf; done.
  - destruct (faultWithin 2 flt) eqn:Hf.
    + split; [done|]. split; [done|]. intros _.
      revert Hf. clear. unfold faultWithin. fault_cases flt; cbn; try done.
    + done.
Qed.

Lemma markAsPaid_atomic_witness :
  withdrawals (Sample.store D_COMPLETED W_APPROVED) !! Sample.payout
  = Some (Sample.payoutDoc W_APPROVED)
  /\ ObjectId_isValid Sample.payout = true
  /\ ObjectId_isValid Sample.admin = true
  /\ match run (WithdrawalService.markAsPaid 9 Sample.payout Sample.admin (Some " tx-1 ")) []
             (Sample.store D_COMPLETED W_APPROVED) with
     | (Ok w', s') =>
         wr_status w' = W_PAID
         /\ campaigns s' !! Sample.well
            = Some (setRaised (JS.Math_max 0 (100 - 100)) Sample.wellDoc)
     | (Err _, _) => False
     end.
Proof.
  pose proof (markAsPaid_atomic 9 Sample.payout Sample.admin (Some " tx-1 ") []
                (Sample.store D_COMPLETED W_APPROVED) (Sample.payoutDoc W_APPROVED)
                eq_refl eq_refl eq_refl) as H.
  split; [reflexivity|]. split; [reflexivity|]. split; [reflexivity|].
  destruct (run _ _ _) as [[w'|e] s'].
  - destruct H as (_ & _ & Hs & _ & _ & _ & _ & _ & Hc & _). split; [exact Hs|].
    change (campaigns (Sample.store D_COMPLETED W_APPROVED)
              !! wr_campaign (Sample.payoutDoc W_APPROVED))
      with (Some Sample.wellDoc) in Hc.
    rewrite Hc. apply lookup_insert_eq.
  - destruct H as (_ & _ & Hf). discriminate (Hf eq_refl).
Defined.


(** ** Revocation and reinstatement of an organizer *)

Lemma trim_nonempty (r : string) n : S n <= String.length (JS.trim r) -> JS.truthy r = true.
Proof. destruct r; cbn; [lia | done]. Qed.

Lemma revokeOrganizer_run now organizerId adminId why flt s u :
  users s !! organizerId = Some u ->
  role u = ORGANIZER ->
  isOrganizerRevoked u = false ->
  10 <= String.length (JS.trim why) ->
  run (OrganizerService.revokeOrganizer now organizerId adminId why) flt s =
  let u' := OrganizerService.markRevoked now adminId (JS.trim why) u in
  if negb (ObjectId_isValid organizerId) then (Err (Msg "Invalid organizer ID"), s)
  else if negb (ObjectId_isValid adminId) then (Err (Msg "Invalid admin ID"), s)
  else if negb (Schema.maxLength 500 (JS.trim why))
       then (Err (SchemaValidation "revocationReason"), s)
  else if faultWithin 4 flt then (Err StorageError, s)
  else (Ok (OrganizerService.mkRevokeResult u'
              "Organizer privileges revoked successfully" true true),
        set_withdrawals
          (fmap (fun w => if OrganizerService.pendingWithdrawalOf organizerId w
                          then OrganizerService.rejectForRevocation adminId w else w))
          (set_campaigns
             (fmap (fun c => if OrganizerService.openCampaignOf organizerId c
                             then OrganizerService.closeForRevocation c else c))
             (set_users (insert organizerId u') s))).
Proof.
  intros Hu Hr Hn Hlen.
  unfold OrganizerService.revokeOrganizer. unfold_js.
  destruct (ObjectId_isValid organizerId); [|reflexivity].
  destruct (ObjectId_isValid adminId); [|reflexivity].
  rewrite (trim_nonempty why 9) by lia.
  destruct (Nat.ltb_spec (String.length (JS.trim why)) 10) as [?|_]; [lia|].
  rewrite Hu, Hr, Hn. rewrite bool_decide_eq_true_2 by done.
  unfold Schema.User_revocation.
  cbn [OrganizerService.markRevoked revocationReason Schema.optMaxLength firstError].
  destruct (Schema.maxLength 500 (JS.trim why)); [|reflexivity].
  step_storage idtac; reflexivity.
Qed.

(** C1. For an organizer who is not revoked and a reason of trimmed length
    at least 10, a successful [revokeOrganizer] leaves the user revoked with
    time, admin and reason recorded, every campaign of the organizer that
    was open closed with reason "Organizer account revoked", and every
    pending withdrawal of the organizer rejected with the message "Organizer
    account has been revoked" and the admin in [reviewedBy], nothing else being
    touched; a failed one leaves the store as it was. It succeeds whenever
    the ids are well-formed, the reason fits the schema and the store does
    not fail. *)
Theorem revokeOrganizer_cascade now organizerId adminId why flt s u :
  users s !! organizerId = Some u ->
  role u = ORGANIZER ->
  isOrganizerRevoked u = false ->
  10 <= String.length (JS.trim why) ->
  match run (OrganizerService.revokeOrganizer now organizerId adminId why) flt s with
  | (Ok res, s') =>
      (exists u', users s' !! organizerId = Some u'
                  /\ OrganizerService.rr_user res = u'
                  /\ isOrganizerRevoked u' = true /\ revokedAt u' = Some now
                  /\ revokedBy u' = Some adminId
                  /\ revocationReason u' = Some (JS.trim why))
      /\ (forall id c, campaigns s !! id = Some c ->
            if String.eqb (owner c) organizerId && negb (isClosed c)
            then exists c', campaigns s' !! id = Some c'
                            /\ isClosed c' = true
                            /\ closedReason c' = Some "Organizer account revoked"
                            /\ c' = OrganizerService.closeForRevocation c
            else campaigns s' !! id = Some c)
      /\ (forall id w, withdrawals s !! id = Some w ->
            if String.eqb (organizer w) organizerId && bool_decide (wr_status w = W_PENDING)
            then exists w', withdrawals s' !! id = Some w'
                            /\ wr_status w' = W_REJECTED
                            /\ adminMessage w' = Some "Organizer account has been revoked"
                            /\ wr_reviewedBy w' = Some adminId
                            /\ w' = OrganizerService.rejectForRevocation adminId w
            else withdrawals s' !! id = Some w)
      /\ (forall i, i <> organizerId -> users s' !! i = users s !! i)
      /\ applications s' = applications s /\ donations s' = donations s
  | (Err e, s') =>
      s' = s
      /\ (ObjectId_isValid organizerId = true -> ObjectId_isValid adminId = true ->
          String.length (JS.trim why) <= 500 -> faultWithin 4 flt = true)
  end.
Proof.
  intros Hu Hr Hn Hlen. rewrite (revokeOrganizer_run _ _ _ _ _ _ u) by done. cbv zeta.
  destruct (ObjectId_isValid organizerId); cbn [negb]; [|done].
  destruct (ObjectId_isValid adminId); cbn [negb]; [|done].
  destruct (Schema.maxLength 500 (JS.trim why)) eqn:Hmax; cbn [negb].
  2:{ split; [done|]. intros _ _ Hle. apply Nat.leb_le in Hle.
      unfold Schema.maxLength in Hmax. congruence. }
  destruct (faultWithin 4 flt); [done|].
  store_simpl. split.
  { eexists. split; [apply lookup_insert_eq|]. done. }
  split.
  { intros id c Hc. rewrite lookup_fmap, Hc. cbn.
    unfold OrganizerService.openCampaignOf.
    destruct (String.eqb (owner c) organizerId && negb (isClosed c)); eauto. }
  split.
  { intros id w Hw. rewrite lookup_fmap, Hw. cbn.
    unfold OrganizerService.pendingWithdrawalOf.
    destruct (String.eqb (organizer w) organizerId && bool_decide (wr_status w = W_PENDING));
      eauto 10. }
  split; [|done]. intros i Hi. by rewrite lookup_insert_ne.
Qed.

Lemma revokeOrganizer_cascade_witness :
  users (Sample.store D_COMPLETED W_PENDING) !! Sample.alice = Some Sample.aliceDoc
  /\ role Sample.aliceDoc = ORGANIZER
  /\ isOrganizerRevoked Sample.aliceDoc = false
  /\ 10 <= String.length (JS.trim "  fraudulent campaign ")
  /\ match run (OrganizerService.revokeOrganizer 7 Sample.alice Sample.admin
                  "  fraudulent campaign ") []
             (Sample.store D_COMPLETED W_PENDING) with
     | (Ok _, s') =>
         (exists c', campaigns s' !! Sample.well = Some c' /\ isClosed c' = true)
         /\ (exists w', withdrawals s' !! Sample.payout = Some w'
                        /\ wr_status w' = W_REJECTED)
     | (Err _, _) => False
     end.
Proof.
  assert (10 <= String.length (JS.trim "  fraudulent campaign ")) as Hlen
    by (vm_compute; lia).
  pose proof (revokeOrganizer_cascade 7 Sample.alice Sample.admin
                "  fraudulent campaign " []
                (Sample.store D_COMPLETED W_PENDING) Sample.aliceDoc
                eq_refl eq_refl eq_refl Hlen) as H.
  split; [reflexivity|]. split; [reflexivity|]. split; [reflexivity|].
  split; [exact Hlen|].
  destruct (run _ _ _) as [[res|e] s'].
  - destruct H as (_ & Hc & Hw & _). split.
    + destruct (Hc Sample.well Sample.wellDoc eq_refl) as (c' & ? & ? & _). eauto.
    + destruct (Hw Sample.payout (Sample.payoutDoc W_PENDING) eq_refl) as (w' & ? & ? & _).
      eauto.
  - destruct H as (_ & Hf).
    assert (String.length (JS.trim "  fraudulent campaign ") <= 500) as Hle
      by (vm_compute; lia).
    discriminate (Hf eq_refl eq_refl Hle).
Defined.

Lemma reinstateOrganizer_run organizerId adminId flt s :
  run (OrganizerService.reinstateOrganizer organizerId adminId) flt s =
  if negb (ObjectId_isValid organizerId) then (Err (Msg "Invalid organizer ID"), s)
  else if negb (ObjectId_isValid adminId) then (Err (Msg "Invalid admin ID"), s)
  else match users s !! organizerId with
       | None => (Err (Msg "User not found"), s)
       | Some u =>
           if negb (bool_decide (role u = ORGANIZER))
           then (Err (Msg "User is not an organizer"), s)
           else if negb (isOrganizerRevoked u) then (Err (Msg "Organizer is not revoked"), s)
           else if faultWithin 1 flt then (Err StorageError, s)
           else (Ok (OrganizerService.mkReinstateResult (OrganizerService.clearRevocation u)
                       "Organizer privileges reinstated successfully"
                       "Previously closed campaigns remain closed. Organizer can create new campaigns."),
                 set_users (insert organizerId (OrganizerService.clearRevocation u)) s)
       end.
Proof.
  unfold OrganizerService.reinstateOrganizer. unfold_js.
  destruct (ObjectId_isValid organizerId); [|reflexivity].
  destruct (ObjectId_isValid adminId); [|reflexivity].
  destruct (users s !! organizerId) as [u|]; [|reflexivity].
  destruct (bool_decide (role u = ORGANIZER)); [|reflexivity].
  destruct (isOrganizerRevoked u); [|reflexivity].
  cbn. step_storage idtac; reflexivity.
Qed.

(** C9. A successful [reinstateOrganizer] on a revoked organizer clears the
    four revocation fields of that user and changes nothing else: the other
    fields of the user, the other users, every campaign (so a closed campaign
    stays closed with its reason), every withdrawal request, donation and
    application are as before; a failed one changes nothing at all. It
    succeeds whenever the ids are well-formed and the store does not fail. *)
Theorem reinstateOrganizer_frame organizerId adminId flt s u :
  users s !! organizerId = Some u ->
  role u = ORGANIZER ->
  isOrganizerRevoked u = true ->
  match run (OrganizerService.reinstateOrganizer organizerId adminId) flt s with
  | (Ok res, s') =>
      (exists u', users s' !! organizerId = Some u'
                  /\ OrganizerService.ri_user res = u'
                  /\ isOrganizerRevoked u' = false /\ revokedAt u' = None
                  /\ revokedBy u' = None /\ revocationReason u' = None
                  /\ name u' = name u /\ email u' = email u /\ role u' = role u
                  /\ isOrganizerApproved u' = isOrganizerApproved u)
      /\ (forall i, i <> organizerId -> users s' !! i = users s !! i)
      /\ campaigns s' = campaigns s
      /\ (forall id c, campaigns s !! id = Some c -> isClosed c = true ->
            exists c', campaigns s' !! id = Some c' /\ isClosed c' = true
                       /\ closedReason c' = closedReason c)
      /\ withdrawals s' = withdrawals s
      /\ donations s' = donations s /\ applications s' = applications s
  | (Err e, s') =>
      s' = s
      /\ (ObjectId_isValid organizerId = true -> ObjectId_isValid adminId = true ->
          faultWithin 1 flt = true)
  end.
Proof.
  intros Hu Hr Hn. rewrite reinstateOrganizer_run, Hu, Hr, Hn.
  rewrite bool_decide_eq_true_2 by done. cbn [negb].
  destruct (ObjectId_isValid organizerId); cbn [negb]; [|done].
  destruct (ObjectId_isValid adminId); cbn [negb]; [|done].
  destruct (faultWithin 1 flt); [done|].
  store_simpl. split.
  { eexists. split; [apply lookup_insert_eq|]. done. }
  split. { intros i Hi. by rewrite lookup_insert_ne. }
  split; [done|]. split; [|done]. eauto.
Qed.

Lemma reinstateOrganizer_frame_witness :
  users Sample.revokedStore !! Sample.alice
  = Some (mkUser "Alice" "alice@example.org" ORGANIZER true true (Some 7%Z)
            (Some Sample.admin) (Some "fraudulent campaign"))
  /\ match run (OrganizerService.reinstateOrganizer Sample.alice Sample.admin) []
             Sample.revokedStore with
     | (Ok _, s') =>
         (exists u', users s' !! Sample.alice = Some u' /\ isOrganizerRevoked u' = false)
         /\ (exists c', campaigns s' !! Sample.well = Some c' /\ isClosed c' = true
                        /\ closedReason c' = Some "Organizer account revoked")
     | (Err _, _) => False
     end.
Proof.
  pose proof (reinstateOrganizer_frame Sample.alice Sample.admin [] Sample.revokedStore
                _ eq_refl eq_refl eq_refl) as H.
  split; [reflexivity|].
  destruct (run _ _ _) as [[res|e] s'].
  - destruct H as ((u' & ? & _ & ? & _) & _ & _ & Hc & _). split; [eauto|].
    destruct (Hc Sample.well _ eq_refl eq_refl) as (c' & ? & ? & Hr). eauto.
  - destruct H as (_ & Hf). discriminate (Hf eq_refl eq_refl).
Defined.


(** ** Visibility of unapproved campaigns *)

Lemma getCampaignById_run campaignId userId userRole flt s :
  run (CampaignService.getCampaignById campaignId userId userRole) flt s =
  (if negb (ObjectId_isValid campaignId) then Err (Msg "Invalid campaign ID")
   else match campaigns s !! campaignId with
        | None => Err (Msg "Campaign not found")
        | Some c =>
            if negb (isApproved c) && CampaignService.notAdmin userRole
            then match userId with
                 | None => Err (Msg "Campaign not found")
                 | Some caller =>
                     if negb (JS.truthy caller) then Err (Msg "Campaign not found")
                     else match users s !! owner c with
                          | None => Err TypeError
                          | Some o =>
                              if negb (String.eqb (owner c) caller)
                              then Err (Msg "Campaign not found")
                              else Ok (c, Some o)
                          end
                 end
            else Ok (c, users s !! owner c)
        end,
   s).
Proof.
  unfold CampaignService.getCampaignById. unfold_js.
  destruct (ObjectId_isValid campaignId); [|reflexivity].
  destruct (campaigns s !! campaignId) as [c|]; [|reflexivity].
  destruct (isApproved c); [reflexivity|].
  destruct (CampaignService.notAdmin userRole); [|reflexivity].
  destruct userId as [caller|]; [|reflexivity].
  destruct (JS.truthy caller); [|reflexivity].
  destruct (users s !! owner c); [|reflexivity].
  destruct (String.eqb (owner c) caller); reflexivity.
Qed.

(** C10. For an unapproved campaign whose owner is a user of the store, a
    caller who is neither an admin nor the owner gets from [getCampaignById]
    exactly what the same caller gets for a well-formed id that matches no
    campaign: the error "Campaign not found", a not-found error, with the
    store untouched. *)
Theorem getCampaignById_hides_unapproved campaignId ghostId userId userRole flt s c :
  campaigns s !! campaignId = Some c ->
  ObjectId_isValid campaignId = true ->
  isApproved c = false ->
  is_Some (users s !! owner c) ->
  userRole <> Some ADMIN ->
  userId <> Some (owner c) ->
  ObjectId_isValid ghostId = true ->
  campaigns s !! ghostId = None ->
  run (CampaignService.getCampaignById campaignId userId userRole) flt s
  = (Err (Msg "Campaign not found"), s)
  /\ run (CampaignService.getCampaignById ghostId userId userRole) flt s
     = (Err (Msg "Campaign not found"), s)
  /\ errorKind (Msg "Campaign not found") = NotFoundError.
Proof.
  intros Hc Hv Ha [o Ho] Hadm Hown Hg Hnone.
  rewrite !getCampaignById_run, Hv, Hg, Hc, Hnone, Ha, Ho. cbn [negb andb].
  unfold CampaignService.notAdmin. rewrite bool_decide_eq_false_2 by done. cbn [negb].
  split; [|done].
  destruct userId as [caller|]; [|done].
  destruct (JS.truthy caller); cbn [negb]; [|done].
  destruct (String.eqb_spec (owner c) caller) as [Heq|_]; [congruence|done].
Qed.

Lemma getCampaignById_hides_unapproved_witness :
  campaigns (Sample.store D_COMPLETED W_PENDING) !! Sample.school = Some Sample.schoolDoc
  /\ ObjectId_isValid Sample.school = true
  /\ isApproved Sample.schoolDoc = false
  /\ is_Some (users (Sample.store D_COMPLETED W_PENDING) !! owner Sample.schoolDoc)
  /\ Some DONOR <> Some ADMIN
  /\ Some Sample.bob <> Some (owner Sample.schoolDoc)
  /\ ObjectId_isValid Sample.nowhere = true
  /\ campaigns (Sample.store D_COMPLETED W_PENDING) !! Sample.nowhere = None
  /\ run (CampaignService.getCampaignById Sample.school (Some Sample.bob) (Some DONOR)) []
         (Sample.store D_COMPLETED W_PENDING)
     = run (CampaignService.getCampaignById Sample.nowhere (Some Sample.bob) (Some DONOR)) []
           (Sample.store D_COMPLETED W_PENDING).
Proof.
  assert (is_Some (users (Sample.store D_COMPLETED W_PENDING) !! owner Sample.schoolDoc))
    as Ho by (exists Sample.aliceDoc; reflexivity).
  assert (Some DONOR <> Some ADMIN) as Hr by discriminate.
  assert (Some Sample.bob <> Some (owner Sample.schoolDoc)) as Hb by discriminate.
  destruct (getCampaignById_hides_unapproved Sample.school Sample.nowhere
              (Some Sample.bob) (Some DONOR) [] (Sample.store D_COMPLETED W_PENDING)
              Sample.schoolDoc eq_refl eq_refl eq_refl Ho Hr Hb eq_refl eq_refl)
    as (H1 & H2 & _).
  repeat (split; [first [reflexivity | assumption]|]).
  rewrite H1, H2. reflexivity.
Defined.


(** ** Creation of a withdrawal request *)

Lemma exists_false {D} (p : D -> bool) (m : gmap string D) :
  bool_decide (map_Exists (fun _ d => p d = true) m) = false
  <-> forall i d, m !! i = Some d -> p d = false.
Proof.
  rewrite bool_decide_eq_false. split.
  - intros Hn i d Hi. destruct (p d) eqn:Hp; [|done].
    exfalso. apply Hn. by exists i, d.
  - intros Hall (i & d & Hi & Hp). rewrite (Hall i d Hi) in Hp. done.
Qed.

Lemma noneOutstandingFor_iff campaignId s :
  bool_decide (map_Exists (fun _ d => WithdrawalService.outstandingFor campaignId d = true)
                 (withdrawals s)) = false
  <-> noneOutstandingFor campaignId s.
Proof.
  rewrite exists_false. unfold noneOutstandingFor, WithdrawalService.outstandingFor.
  split.
  - intros H i w Hi Hc. specialize (H i w Hi). subst campaignId.
    by rewrite String.eqb_refl in H.
  - intros H i w Hi. destruct (String.eqb_spec (wr_campaign w) campaignId) as [Hc|_]; [|done].
    cbn. eauto.
Qed.

Lemma createWithdrawalRequest_run newId organizerId data flt s :
  run (WithdrawalService.createWithdrawalRequest newId organizerId data) flt s =
  let amount := WithdrawalService.cw_amountRequested data in
  let campaignId := WithdrawalService.cw_campaign data in
  (if negb (JS.truthy campaignId) || Qeq_bool amount 0
      || negb (JS.truthy (WithdrawalService.cw_payoutMethod data))
   then (Err (Msg "Campaign, amount requested, and payout method are required"), s)
   else if Qle_bool amount 0
   then (Err (Msg "Amount requested must be a positive number"), s)
   else if negb (ObjectId_isValid organizerId) then (Err (Msg "Invalid organizer ID"), s)
   else if negb (ObjectId_isValid campaignId) then (Err (Msg "Invalid campaign ID"), s)
   else match campaigns s !! campaignId with
        | None => (Err (Msg "Campaign not found"), s)
        | Some c =>
            if negb (String.eqb (owner c) organizerId)
            then (Err (Msg "You don't own this campaign"), s)
            else if negb (isApproved c)
            then (Err (Msg "Campaign must be approved before requesting withdrawal"), s)
            else if negb (Qle_bool amount (raised c))
            then (Err (AmountExceeds amount (raised c)), s)
            else if bool_decide
                      (map_Exists
                         (fun _ d => WithdrawalService.outstandingFor campaignId d = true)
                         (withdrawals s))
            then (Err (Msg "You already have a pending or approved withdrawal request for this campaign"), s)
            else match parsePayoutMethod (WithdrawalService.cw_payoutMethod data) with
                 | None => (Err (SchemaValidation "payoutMethod"), s)
                 | Some pm =>
                     if negb (Qle_bool (1 # 100) amount)
                     then (Err (SchemaValidation "amountRequested"), s)
                     else match withdrawals s !! newId with
                          | Some _ => (Err DuplicateKey, s)
                          | None =>
                              if faultWithin 1 flt then (Err StorageError, s)
                              else (Ok (newRequest organizerId data pm),
                                    set_withdrawals
                                      (insert newId (newRequest organizerId data pm)) s)
                          end
                 end
        end).
Proof.
  unfold WithdrawalService.createWithdrawalRequest. unfold_js. cbv zeta.
  destruct (JS.truthy (WithdrawalService.cw_campaign data)); [|reflexivity].
  destruct (Qeq_bool (WithdrawalService.cw_amountRequested data) 0); [reflexivity|].
  destruct (JS.truthy (WithdrawalService.cw_payoutMethod data)); [|reflexivity].
  destruct (Qle_bool (WithdrawalService.cw_amountRequested data) 0); [reflexivity|].
  destruct (ObjectId_isValid organizerId); [|reflexivity].
  destruct (ObjectId_isValid (WithdrawalService.cw_campaign data)); [|reflexivity].
  destruct (campaigns s !! WithdrawalService.cw_campaign data) as [c|]; [|reflexivity].
  destruct (String.eqb (owner c) organizerId); [|reflexivity].
  destruct (isApproved c); [|reflexivity].
  destruct (Qle_bool (WithdrawalService.cw_amountRequested data) (raised c)); [|reflexivity].
  destruct (bool_decide _); [reflexivity|].
  destruct (parsePayoutMethod _) as [pm|]; [|reflexivity].
  unfold Schema.Withdrawal_new. cbn [amountRequested firstError].
  destruct (Qle_bool (1 # 100) (WithdrawalService.cw_amountRequested data)); [|reflexivity].
  unfold_js.
  destruct (withdrawals s !! newId); [reflexivity|].
  step_storage idtac; reflexivity.
Qed.

Lemma oneOutstanding_insert newId w s :
  withdrawals s !! newId = None ->
  noneOutstandingFor (wr_campaign w) s ->
  oneOutstanding s ->
  oneOutstanding (set_withdrawals (insert newId w) s).
Proof.
  intros Hfresh Hnone Hone i j w1 w2. cbn.
  destruct (decide (i = newId)) as [->|Hi], (decide (j = newId)) as [->|Hj];
    rewrite ?lookup_insert_eq, ?lookup_insert_ne by done; try done.
  - intros [= ->] Hj2 Hc _ Ho. rewrite (Hnone j w2 Hj2) in Ho; done.
  - intros Hi1 [= ->] Hc Ho _. rewrite (Hnone i w1 Hi1) in Ho; done.
  - apply Hone.
Qed.

(** C8. [createWithdrawalRequest] succeeds only if the caller owns the
    campaign, the campaign is approved, the amount is positive and at most
    [raised], and no request for the campaign is pending or approved; the
    created request is pending, and the invariant of at most one
    outstanding request per campaign is kept. If a request for the campaign
    is pending or approved and the checks before that one pass, the failure
    is the conflict error. When every check of the operation passes (fields
    present, ids well-formed, ownership, approval, amount within the
    schema's minimum 0.01 and [raised], no outstanding request, payout
    method known, fresh id, working store) the request is created. Failures
    change nothing. *)
Theorem createWithdrawalRequest_guarded newId organizerId data flt s :
  let campaignId := WithdrawalService.cw_campaign data in
  let amount := WithdrawalService.cw_amountRequested data in
  match run (WithdrawalService.createWithdrawalRequest newId organizerId data) flt s with
  | (Ok w, s') =>
      (exists c, campaigns s !! campaignId = Some c
                 /\ owner c = organizerId /\ isApproved c = true
                 /\ (0 < amount)%Q /\ (amount <= raised c)%Q)
      /\ noneOutstandingFor campaignId s
      /\ wr_status w = W_PENDING /\ organizer w = organizerId
      /\ wr_campaign w = campaignId /\ amountRequested w = amount
      /\ withdrawals s !! newId = None
      /\ withdrawals s' = <[newId := w]> (withdrawals s)
      /\ campaigns s' = campaigns s /\ users s' = users s
      /\ donations s' = donations s /\ applications s' = applications s
      /\ (oneOutstanding s -> oneOutstanding s')
  | (Err e, s') =>
      s' = s
      /\ (forall c,
            JS.truthy campaignId = true ->
            JS.truthy (WithdrawalService.cw_payoutMethod data) = true ->
            ObjectId_isValid organizerId = true -> ObjectId_isValid campaignId = true ->
            campaigns s !! campaignId = Some c ->
            owner c = organizerId -> isApproved c = true ->
            (0 < amount)%Q -> (amount <= raised c)%Q ->
            (~ noneOutstandingFor campaignId s ->
               e = Msg "You already have a pending or approved withdrawal request for this campaign"
               /\ errorKind e = ConflictError)
            /\ (noneOutstandingFor campaignId s ->
                is_Some (parsePayoutMethod (WithdrawalService.cw_payoutMethod data)) ->
                (1 # 100 <= amount)%Q ->
                withdrawals s !! newId = None ->
                faultWithin 1 flt = true))
  end.
Proof.
  intros campaignId amount. rewrite createWithdrawalRequest_run. cbv zeta.
  fold campaignId amount.
  destruct (JS.truthy campaignId) eqn:Hcid; cbn [negb orb].
  2:{ split; [done|]. intros; done. }
  destruct (Qeq_bool amount 0) eqn:Hz; cbn [orb].
  { split; [done|]. intros c _ _ _ _ _ _ _ Hpos _.
    apply Qeq_bool_iff in Hz. rewrite Hz in Hpos. by apply Qlt_irrefl in Hpos. }
  destruct (JS.truthy (WithdrawalService.cw_payoutMethod data)) eqn:Hpm; cbn [negb].
  2:{ split; [done|]. intros; done. }
  destruct (Qle_bool amount 0) eqn:Hle0.
  { split; [done|]. intros c _ _ _ _ _ _ _ Hpos _.
    apply Qle_bool_iff in Hle0. exfalso. apply (Qlt_not_le _ _ Hpos Hle0). }
  destruct (ObjectId_isValid organizerId) eqn:Hvo; cbn [negb].
  2:{ split; [done|]. intros; done. }
  destruct (ObjectId_isValid campaignId) eqn:Hvc; cbn [negb].
  2:{ split; [done|]. intros; done. }
  destruct (campaigns s !! campaignId) as [c|] eqn:Hc.
  2:{ split; [done|]. intros; done. }
  destruct (String.eqb_spec (owner c) organizerId) as [Hown|Hown]; cbn [negb].
  2:{ split; [done|]. intros c0 _ _ _ _ [= <-]. done. }
  destruct (isApproved c) eqn:Happ; cbn [negb].
  2:{ split; [done|]. intros c0 _ _ _ _ [= <-] _ Ha. congruence. }
  destruct (Qle_bool amount (raised c)) eqn:Hle; cbn [negb].
  2:{ split; [done|]. intros c0 _ _ _ _ [= <-] _ _ _ Hr.
      apply Qle_bool_iff in Hr. congruence. }
  apply Qle_bool_iff in Hle.
  assert (0 < amount)%Q as Hpos.
  { apply Qnot_le_lt. intros H. apply Qle_bool_iff in H. congruence. }
  destruct (bool_decide (map_Exists _ _)) eqn:Hex.
  { split; [done|]. intros c0 _ _ _ _ _ _ _ _ _. split; [done|].
    intros Hnone. apply noneOutstandingFor_iff in Hnone. congruence. }
  apply noneOutstandingFor_iff in Hex.
  destruct (parsePayoutMethod _) as [pm|] eqn:Hparse.
  2:{ split; [done|]. intros c0 _ _ _ _ _ _ _ _ _. split; [done|].
      intros _ [? ?]. done. }
  destruct (Qle_bool (1 # 100) amount) eqn:Hmin; cbn [negb].
  2:{ split; [done|]. intros c0 _ _ _ _ _ _ _ _ _. split; [done|].
      intros _ _ Hm. apply Qle_bool_iff in Hm. congruence. }
  destruct (withdrawals s !! newId) eqn:Hfresh.
  { split; [done|]. intros c0 _ _ _ _ _ _ _ _ _. split; [done|]. intros; done. }
  destruct (faultWithin 1 flt).
  { split; [done|]. intros c0 _ _ _ _ _ _ _ _ _. split; [done|]. intros; done. }
  split; [by exists c|]. do 6 (split; [done|]).
  do 5 (split; [done|]).
  intros Hone. by apply oneOutstanding_insert.
Qed.


Lemma sample_open : noneOutstandingFor Sample.well (Sample.store D_COMPLETED W_REJECTED).
Proof. apply noneOutstandingFor_iff. vm_compute. reflexivity. Qed.

Lemma sample_taken : ~ noneOutstandingFor Sample.well (Sample.store D_COMPLETED W_PENDING).
Proof.
  intros Hnone. apply noneOutstandingFor_iff in Hnone. vm_compute in Hnone.
  discriminate Hnone.
Qed.

Lemma createWithdrawalRequest_guarded_witness :
  match run (WithdrawalService.createWithdrawalRequest Sample.payout2 Sample.alice
               (Sample.request 100)) [] (Sample.store D_COMPLETED W_REJECTED) with
  | (Ok w, s') => wr_status w = W_PENDING /\ withdrawals s' !! Sample.payout2 = Some w
  | (Err _, _) => False
  end
  /\ match run (WithdrawalService.createWithdrawalRequest Sample.payout2 Sample.alice
                  (Sample.request 50)) [] (Sample.store D_COMPLETED W_PENDING) with
     | (Ok _, _) => False
     | (Err e, s') =>
         e = Msg "You already have a pending or approved withdrawal request for this campaign"
         /\ s' = Sample.store D_COMPLETED W_PENDING
     end.
Proof.
  assert (0 < 100)%Q as Hpos100 by reflexivity.
  assert (100 <= 100)%Q as Hle100 by discriminate.
  assert (0 < 50)%Q as Hpos50 by reflexivity.
  assert (50 <= 100)%Q as Hle50 by discriminate.
  assert (1 # 100 <= 100)%Q as Hmin by discriminate.
  assert (is_Some (parsePayoutMethod "bank")) as Hpm by (exists PM_BANK; reflexivity).
  split.
  - pose proof (createWithdrawalRequest_guarded Sample.payout2 Sample.alice
                  (Sample.request 100) [] (Sample.store D_COMPLETED W_REJECTED)) as H.
    cbv zeta in H. destruct (run _ _ _) as [[w|e] s'].
    + destruct H as (_ & _ & Hs & _ & _ & _ & _ & Hw & _). split; [exact Hs|].
      rewrite Hw. apply lookup_insert_eq.
    + destruct H as (_ & H).
      destruct (H Sample.wellDoc eq_refl eq_refl eq_refl eq_refl eq_refl eq_refl eq_refl
                  Hpos100 Hle100) as (_ & Hok).
      discriminate (Hok sample_open Hpm Hmin eq_refl).
  - pose proof (createWithdrawalRequest_guarded Sample.payout2 Sample.alice
                  (Sample.request 50) [] (Sample.store D_COMPLETED W_PENDING)) as H.
    cbv zeta in H. destruct (run _ _ _) as [[w|e] s'].
    + destruct H as (_ & Hnone & _). exact (sample_taken Hnone).
    + destruct H as (Hs & H). split; [|exact Hs].
      destruct (H Sample.wellDoc eq_refl eq_refl eq_refl eq_refl eq_refl eq_refl eq_refl
                  Hpos50 Hle50) as (Hconf & _).
      apply Hconf. exact sample_taken.
Defined.

(** ** Donation status and the campaign balance *)

Lemma applyStatus_facts status details d :
  don_status (DonationService.applyStatus status details d) = status
  /\ amount (DonationService.applyStatus status details d) = amount d
  /\ don_campaign (DonationService.applyStatus status details d) = don_campaign d.
Proof. destruct details; done. Qed.

Lemma updateDonationStatus_run donationId status details flt s :
  run (DonationService.updateDonationStatus donationId status details) flt s =
  if negb (ObjectId_isValid donationId) then (Err (Msg "Invalid donation ID"), s)
  else match donations s !! donationId with
       | None => (Err (Msg "Donation not found"), s)
       | Some d =>
           let d' := DonationService.applyStatus status details d in
           let s1 := set_donations (insert donationId d') s in
           if bool_decide (status = D_COMPLETED)
              && negb (bool_decide (don_status d = D_COMPLETED))
           then if faultWithin 3 flt then (Err StorageError, s)
                else (Ok d',
                      set_campaigns
                        (alter (DonationService.credit (amount d)) (don_campaign d)) s1)
           else if bool_decide (status = D_FAILED)
                   && bool_decide (don_status d = D_COMPLETED)
           then match campaigns s !! don_campaign d with
                | Some c =>
                    if faultWithin 3 flt then (Err StorageError, s)
                    else (Ok d',
                          set_campaigns
                            (insert (don_campaign d) (DonationService.debit (amount d) c)) s1)
                | None =>
                    if faultWithin 2 flt then (Err StorageError, s) else (Ok d', s1)
                end
           else if faultWithin 2 flt then (Err StorageError, s) else (Ok d', s1)
       end.
Proof.
  unfold DonationService.updateDonationStatus. unfold_js.
  destruct (ObjectId_isValid donationId); [|reflexivity].
  destruct (donations s !! donationId) as [d|]; [|reflexivity].
  destruct (applyStatus_facts status details d) as (_ & Ha & Hc).
  cbv zeta. rewrite Ha, Hc.
  destruct (bool_decide (status = D_COMPLETED)) eqn:E1;
    destruct (bool_decide (don_status d = D_COMPLETED)) eqn:E2;
    destruct (bool_decide (status = D_FAILED)) eqn:E3;
    try (destruct (campaigns s !! don_campaign d) as [c|] eqn:Hcamp);
    step_storage ltac:(cbn [campaigns set_donations];
                       rewrite ?Hcamp; unfold DonationService.debit;
                       rewrite ?raised_floor_valid);
    reflexivity.
Qed.

Lemma createDonation_run newId donorId data flt s :
  run (DonationService.createDonation newId donorId data) flt s =
  let campaignId := DonationService.cd_campaign data in
  let amt := DonationService.cd_amount data in
  if negb (JS.truthy campaignId) || Qeq_bool amt 0
     || negb (JS.truthy (DonationService.cd_donorEmail data))
  then (Err (Msg "Campaign, amount, method, and donor email are required"), s)
  else if negb (Qle_bool (1 # 100) amt) then (Err (Msg "Amount must be at least 0.01"), s)
  else if negb (DonationService.emailRegex_test (DonationService.cd_donorEmail data))
  then (Err (Msg "Invalid email format"), s)
  else if negb (ObjectId_isValid donorId) then (Err (Msg "Invalid donor ID"), s)
  else if negb (ObjectId_isValid campaignId) then (Err (Msg "Invalid campaign ID"), s)
  else match campaigns s !! campaignId with
       | None => (Err (Msg "Campaign not found"), s)
       | Some c =>
           if negb (isApproved c) then (Err (Msg "Campaign is not approved for donations"), s)
           else if isClosed c
           then (Err (Msg "Campaign is closed and no longer accepting donations"), s)
           else match Schema.Donation_new (newDonation donorId data) with
                | Some e => (Err e, s)
                | None =>
                    match donations s !! newId with
                    | Some _ => (Err DuplicateKey, s)
                    | None =>
                        if faultWithin 1 flt then (Err StorageError, s)
                        else (Ok (newDonation donorId data),
                              set_donations (insert newId (newDonation donorId data)) s)
                    end
                end
       end.
Proof.
  unfold DonationService.createDonation, newDonation. unfold_js. cbv zeta.
  destruct (JS.truthy (DonationService.cd_campaign data)); [|reflexivity].
  destruct (Qeq_bool (DonationService.cd_amount data) 0); [reflexivity|].
  destruct (JS.truthy (DonationService.cd_donorEmail data)); [|reflexivity].
  destruct (Qle_bool (1 # 100) (DonationService.cd_amount data)); [|reflexivity].
  destruct (DonationService.emailRegex_test _); [|reflexivity].
  destruct (ObjectId_isValid donorId); [|reflexivity].
  destruct (ObjectId_isValid (DonationService.cd_campaign data)); [|reflexivity].
  destruct (campaigns s !! DonationService.cd_campaign data) as [c|]; [|reflexivity].
  destruct (isApproved c); [|reflexivity].
  destruct (isClosed c); [reflexivity|].
  destruct (Schema.Donation_new _); [reflexivity|].
  destruct (donations s !! newId); [reflexivity|].
  step_storage idtac; reflexivity.
Qed.


Lemma complete_again donationId details flt s d :
  donations s !! donationId = Some d ->
  don_status d = D_COMPLETED ->
  let s' := (run (DonationService.updateDonationStatus donationId D_COMPLETED details) flt s).2 in
  campaigns s' = campaigns s
  /\ exists d', donations s' !! donationId = Some d' /\ don_status d' = D_COMPLETED.
Proof.
  intros Hd Hp. rewrite updateDonationStatus_run, Hd. cbv zeta.
  rewrite (bool_decide_eq_true_2 _ Hp). cbn [negb andb].
  destruct (ObjectId_isValid donationId); cbn [negb]; [|by eauto].
  destruct (faultWithin 2 flt); cbn; [by eauto|].
  split; [done|]. eexists. split; [apply lookup_insert_eq|].
  apply applyStatus_facts.
Qed.

Lemma completeRepeatedly_completed donationId calls : forall s d,
  donations s !! donationId = Some d ->
  don_status d = D_COMPLETED ->
  campaigns (completeRepeatedly donationId calls s) = campaigns s.
Proof.
  induction calls as [|[details flt] calls IH]; intros s d Hd Hp; [done|].
  cbn [completeRepeatedly].
  destruct (complete_again donationId details flt s d Hd Hp) as (Hc & d' & Hd' & Hp').
  rewrite (IH _ d' Hd' Hp'). exact Hc.
Qed.

(** C4. For a donation that is already completed, any number of
    [updateDonationStatus(id, COMPLETED)] calls, failing or not, leave every
    campaign as it was. For a donation that is not yet completed, a first
    such call that goes through credits its campaign with the amount, and
    any number of further calls leave that single credit in place. *)
Theorem completed_credit_idempotent donationId calls s d :
  donations s !! donationId = Some d ->
  (don_status d = D_COMPLETED ->
   campaigns (completeRepeatedly donationId calls s) = campaigns s)
  /\ (forall details flt,
        don_status d <> D_COMPLETED ->
        ObjectId_isValid donationId = true ->
        faultWithin 3 flt = false ->
        campaigns (completeRepeatedly donationId ((details, flt) :: calls) s)
        = alter (DonationService.credit (amount d)) (don_campaign d) (campaigns s)
        /\ forall c, campaigns s !! don_campaign d = Some c ->
             exists c', campaigns (completeRepeatedly donationId ((details, flt) :: calls) s)
                        !! don_campaign d = Some c'
                        /\ raised c' = (raised c + amount d)%Q).
Proof.
  intros Hd. split.
  - intros Hp. by apply (completeRepeatedly_completed _ _ _ d).
  - intros details flt Hp Hv Hf.
    assert (campaigns (completeRepeatedly donationId ((details, flt) :: calls) s)
            = alter (DonationService.credit (amount d)) (don_campaign d) (campaigns s)) as Heq.
    { cbn [completeRepeatedly].
      rewrite updateDonationStatus_run, Hv, Hd. cbn [negb]. cbv zeta.
      rewrite (bool_decide_eq_false_2 _ Hp). rewrite bool_decide_eq_true_2 by done.
      cbn [andb negb]. rewrite Hf. cbn [snd].
      erewrite completeRepeatedly_completed; [done| |].
      - cbn. apply lookup_insert_eq.
      - apply applyStatus_facts. }
    split; [exact Heq|].
    intros c Hc. rewrite Heq, lookup_alter_eq, Hc. cbn. eauto.
Qed.

Lemma completed_credit_idempotent_witness :
  donations (Sample.store D_COMPLETED W_PENDING) !! Sample.gift
  = Some (Sample.giftDoc D_COMPLETED)
  /\ campaigns (completeRepeatedly Sample.gift [(None, []); (None, [false; true]); (None, [])]
                  (Sample.store D_COMPLETED W_PENDING)) !! Sample.well
     = Some Sample.wellDoc
  /\ exists c', campaigns (completeRepeatedly Sample.gift [(None, []); (None, []); (None, [])]
                             (Sample.store D_PENDING W_PENDING)) !! Sample.well = Some c'
                /\ raised c' = (100 + 100)%Q.
Proof.
  split; [reflexivity|]. split.
  - rewrite (proj1 (completed_credit_idempotent Sample.gift
                      [(None, []); (None, [false; true]); (None, [])]
                      (Sample.store D_COMPLETED W_PENDING) (Sample.giftDoc D_COMPLETED)
                      eq_refl) eq_refl).
    reflexivity.
  - assert (don_status (Sample.giftDoc D_PENDING) <> D_COMPLETED) as Hp by discriminate.
    exact (proj2 (proj2 (completed_credit_idempotent Sample.gift [(None, []); (None, [])]
                           (Sample.store D_PENDING W_PENDING) (Sample.giftDoc D_PENDING)
                           eq_refl) None [] Hp eq_refl eq_refl)
             Sample.wellDoc eq_refl).
Defined.

(** ** The completed-donation sum *)

Lemma completedSum_insert campaignId i d (m : gmap string Donation) :
  m !! i = None ->
  (completedSum campaignId (<[i := d]> m) == contribution campaignId d + completedSum campaignId m)%Q.
Proof.
  intros Hi. unfold completedSum.
  rewrite (map_fold_insert Qeq); [| |  | exact Hi].
  - unfold contribution. destruct (_ && _); ring.
  - intros j z x y Hxy. destruct (_ && _); [by rewrite Hxy | done].
  - intros j1 j2 z1 z2 y _ _ _.
    destruct (String.eqb (don_campaign z1) campaignId && _),
             (String.eqb (don_campaign z2) campaignId && _); ring.
Qed.

Lemma completedSum_update campaignId i d d' (m : gmap string Donation) :
  m !! i = Some d ->
  (completedSum campaignId (<[i := d']> m)
   == completedSum campaignId m - contribution campaignId d + contribution campaignId d')%Q.
Proof.
  intros Hi.
  rewrite <- (insert_delete_eq m i d') .
  rewrite completedSum_insert by apply lookup_delete_eq.
  rewrite <- (insert_id m i d Hi) at 2.
  rewrite <- (insert_delete_eq m i d).
  rewrite (completedSum_insert campaignId i d) by apply lookup_delete_eq.
  ring.
Qed.

Lemma completedSum_nonneg campaignId (m : gmap string Donation) :
  (forall i d, m !! i = Some d -> (0 <= amount d)%Q) ->
  (0 <= completedSum campaignId m)%Q.
Proof.
  induction m as [|i d m Hi Hfold IH] using map_first_key_ind.
  - intros _. unfold completedSum. rewrite map_fold_empty. apply Qle_refl.
  - intros Hall. rewrite completedSum_insert by done.
    assert (0 <= contribution campaignId d)%Q.
    { unfold contribution. destruct (_ && _); [|apply Qle_refl].
      apply (Hall i). apply lookup_insert_eq. }
    assert (0 <= completedSum campaignId m)%Q.
    { apply IH. intros j d0 Hj. apply (Hall j).
      rewrite lookup_insert_ne; [done|]. intros ->. congruence. }
    lra.
Qed.


Lemma sum_covers_contribution campaignId i d (m : gmap string Donation) :
  m !! i = Some d ->
  (forall j x, m !! j = Some x -> (0 <= amount x)%Q) ->
  (contribution campaignId d <= completedSum campaignId m)%Q.
Proof.
  intros Hi Hall.
  rewrite <- (insert_id m i d Hi) at 1. rewrite <- (insert_delete_eq m i d).
  rewrite completedSum_insert by apply lookup_delete_eq.
  assert (0 <= completedSum campaignId (delete i m))%Q.
  { apply completedSum_nonneg. intros j x Hj. apply (Hall j).
    apply lookup_delete_Some in Hj. tauto. }
  lra.
Qed.

Lemma Math_max_id x : (0 <= x)%Q -> JS.Math_max 0 x = x.
Proof. intros H. unfold JS.Math_max. apply Qle_bool_iff in H. by rewrite H. Qed.

(** Every transition that [updateDonationStatus] accepts, except the one
    from completed to pending, keeps [raised] equal to the completed-donation
    sum of the donation's campaign. *)
Lemma updateDonationStatus_keeps_sum donationId status details flt s d :
  donations s !! donationId = Some d ->
  amountsNonneg s ->
  raisedIsCompletedSum (don_campaign d) s ->
  ~ (don_status d = D_COMPLETED /\ status = D_PENDING) ->
  raisedIsCompletedSum (don_campaign d)
    (run (DonationService.updateDonationStatus donationId status details) flt s).2.
Proof.
  intros Hd Hamt (c & Hc & Hsum) Hexcl.
  rewrite updateDonationStatus_run, Hd. cbv zeta.
  destruct (ObjectId_isValid donationId); cbn [negb]; [|by exists c].
  destruct (applyStatus_facts status details d) as (Hs' & Ha' & Hc').
  pose proof (completedSum_update (don_campaign d) donationId d
                (DonationService.applyStatus status details d) (donations s) Hd) as Hupd.
  pose proof (sum_covers_contribution (don_campaign d) donationId d (donations s) Hd Hamt)
    as Hcov.
  unfold contribution in Hupd, Hcov. rewrite Hs', Ha', Hc' in Hupd.
  rewrite String.eqb_refl in Hupd, Hcov. cbn [andb] in Hupd, Hcov.
  destruct (bool_decide_reflect (status = D_COMPLETED)) as [Hs|Hs];
    destruct (bool_decide_reflect (don_status d = D_COMPLETED)) as [Hp|Hp];
    cbn [andb negb].
  - subst status. rewrite bool_decide_eq_false_2 by done. cbn [andb].
    destruct (faultWithin 2 flt); [by exists c|].
    exists c. split; [done|]. cbn. rewrite Hupd, Hsum. ring.
  - destruct (faultWithin 3 flt); [by exists c|].
    exists (DonationService.credit (amount d) c). split.
    + cbn. by rewrite lookup_alter_eq, Hc.
    + cbn. rewrite Hupd, Hsum. ring.
  - destruct (bool_decide_reflect (status = D_FAILED)) as [Hf|Hf]; cbn [andb].
    2:{ destruct status; try done. exfalso. by apply Hexcl. }
    rewrite Hc. destruct (faultWithin 3 flt); [by exists c|].
    exists (DonationService.debit (amount d) c). split.
    + cbn. by rewrite lookup_insert_eq.
    + cbn. rewrite Math_max_id by lra. rewrite Hupd, Hsum. ring.
  - destruct (bool_decide (status = D_FAILED)); cbn [andb];
      (destruct (faultWithin 2 flt); [by exists c|]);
      exists c; (split; [done|]); cbn; rewrite Hupd, Hsum; ring.
Qed.

(** C3 at the failing input: a completed donation of 100 set back to
    pending. The call succeeds, the donation no longer counts as
    completed, and [raised] still holds its 100. *)
Theorem completed_to_pending_keeps_credit :
  raisedIsCompletedSum Sample.well (Sample.store D_COMPLETED W_PENDING)
  /\ match run (DonationService.updateDonationStatus Sample.gift D_PENDING None) []
             (Sample.store D_COMPLETED W_PENDING) with
     | (Ok d', s') =>
         don_status d' = D_PENDING
         /\ (exists c', campaigns s' !! Sample.well = Some c' /\ raised c' = 100%Q)
         /\ (completedSum Sample.well (donations s') == 0)%Q
         /\ ~ raisedIsCompletedSum Sample.well s'
     | (Err _, _) => False
     end.
Proof.
  split.
  - exists Sample.wellDoc. split; [reflexivity|]. vm_compute. reflexivity.
  - vm_compute. split; [reflexivity|]. split; [eauto|]. split; [reflexivity|].
    intros (c & Hc & Hsum). injection Hc as <-. revert Hsum. vm_compute. discriminate.
Qed.


(** ** [raised] never goes below 0 *)

Lemma nonneg_insert m k v : nonneg m -> (0 <= raised v)%Q -> nonneg (<[k := v]> m).
Proof.
  intros Hm Hv id c. destruct (decide (k = id)) as [->|Hne].
  - rewrite lookup_insert_eq. by intros [= <-].
  - rewrite lookup_insert_ne by done. apply Hm.
Qed.

Lemma nonneg_alter m k f :
  nonneg m -> (forall c, m !! k = Some c -> (0 <= raised (f c))%Q) -> nonneg (alter f k m).
Proof.
  intros Hm Hf id c. destruct (decide (k = id)) as [->|Hne].
  - rewrite lookup_alter_eq. destruct (m !! id) as [c0|] eqn:E; [|done].
    intros [= <-]. by apply Hf.
  - rewrite lookup_alter_ne by done. apply Hm.
Qed.

Lemma nonneg_fmap m (f : Campaign -> Campaign) :
  nonneg m -> (forall c, raised (f c) = raised c) -> nonneg (f <$> m).
Proof.
  intros Hm Hf id c. rewrite lookup_fmap.
  destruct (m !! id) as [c0|] eqn:E; [|done]. intros [= <-]. rewrite Hf. by apply (Hm id).
Qed.

Lemma nonneg_delete m k : nonneg m -> nonneg (delete k m).
Proof. intros Hm id c Hc. apply lookup_delete_Some in Hc. apply (Hm id). tauto. Qed.

Lemma amountsOk_insert m k v : amountsOk m -> (0 <= amount v)%Q -> amountsOk (<[k := v]> m).
Proof.
  intros Hm Hv id c. destruct (decide (k = id)) as [->|Hne].
  - rewrite lookup_insert_eq. by intros [= <-].
  - rewrite lookup_insert_ne by done. apply Hm.
Qed.

(** Case analysis on every test an unfolded operation performs, innermost
    first. *)
Ltac crunch :=
  unfold_js;
  repeat (match goal with
          | |- context [match ?x with _ => _ end] =>
              lazymatch x with
              | context [match _ with _ => _ end] => fail
              | _ => first [ is_var x; destruct x | destruct x eqn:? ]
              end
          end; unfold_js).

Lemma applyStatus_amount status details d :
  amount (DonationService.applyStatus status details d) = amount d.
Proof. apply applyStatus_facts. Qed.

Lemma applyStatus_campaign status details d :
  don_campaign (DonationService.applyStatus status details d) = don_campaign d.
Proof. apply applyStatus_facts. Qed.

Ltac unfold_ops :=
  unfold OrganizerService.submitApplication, OrganizerService.approveApplication,
    OrganizerService.rejectApplication, OrganizerService.revokeOrganizer,
    OrganizerService.reinstateOrganizer, CampaignService.createCampaign,
    CampaignService.updateCampaign, CampaignService.approveCampaign,
    CampaignService.closeCampaign, CampaignService.deleteCampaign,
    CampaignService.verifyCampaignOwnership,
    DonationService.createDonation, DonationService.updateDonationStatus,
    WithdrawalService.createWithdrawalRequest, WithdrawalService.approveWithdrawal,
    WithdrawalService.rejectWithdrawal, WithdrawalService.markAsPaid.

Ltac side_nonneg Hc Hd :=
  rewrite ?applyStatus_amount;
  cbn [raised amount setRaised DonationService.credit DonationService.debit
       CampaignService.assign CampaignService.approve CampaignService.close
       OrganizerService.closeForRevocation];
  first
    [ apply Math_max_nonneg
    | apply Qle_refl
    | eapply Hc; eassumption
    | eapply Hd; eassumption
    | match goal with
      | |- (0 <= raised ?c + amount ?d)%Q =>
          assert (0 <= raised c)%Q by (eapply Hc; eassumption);
          assert (0 <= amount d)%Q by (eapply Hd; eassumption); lra
      end
    | match goal with
      | H : Qle_bool (1 # 100) ?a = true |- (0 <= ?a)%Q =>
          apply Qle_bool_iff in H; revert H; clear; intros H; lra
      end ].

Ltac finish_nonneg Hc Hd :=
  cbn [campaigns donations set_users set_applications set_campaigns set_donations
       set_withdrawals];
  split;
  first
    [ assumption
    | apply nonneg_delete; assumption
    | apply nonneg_fmap;
      [assumption | intros c0; destruct (OrganizerService.openCampaignOf _ c0); reflexivity]
    | apply nonneg_insert; [assumption | side_nonneg Hc Hd]
    | apply nonneg_alter; [assumption | intros c0 Hc0; side_nonneg Hc Hd]
    | apply amountsOk_insert; [assumption | side_nonneg Hc Hd] ].

Lemma exec_keeps_nonneg op flt s :
  nonneg (campaigns s) -> amountsOk (donations s) ->
  nonneg (campaigns (exec op flt s)) /\ amountsOk (donations (exec op flt s)).
Proof.
  intros Hc Hd. destruct op; cbn [exec]; unfold_ops; crunch.
  all: finish_nonneg Hc Hd.
Qed.


Lemma execAll_keeps_nonneg trace : forall s,
  nonneg (campaigns s) -> amountsOk (donations s) ->
  nonneg (campaigns (execAll trace s)) /\ amountsOk (donations (execAll trace s)).
Proof.
  induction trace as [|[op flt] trace IH]; intros s Hc Hd; [done|].
  cbn [execAll]. destruct (exec_keeps_nonneg op flt s Hc Hd). by apply IH.
Qed.

Lemma markAsPaid_floor now withdrawalId adminId ref flt s :
  match run (WithdrawalService.markAsPaid now withdrawalId adminId ref) flt s with
  | (Ok w', s') =>
      forall c', campaigns s' !! wr_campaign w' = Some c' ->
                 exists c, campaigns s !! wr_campaign w' = Some c
                           /\ raised c' = JS.Math_max 0 (raised c - amountRequested w')
                           /\ (0 <= raised c')%Q
  | (Err _, _) => True
  end.
Proof.
  unfold WithdrawalService.markAsPaid. crunch; try exact I.
  all: cbn [campaigns set_campaigns set_withdrawals WithdrawalService.markPaid wr_campaign
            amountRequested] in *.
  all: intros c'; rewrite ?lookup_insert_eq; intros Hc'.
  all: try congruence.
  all: injection Hc' as <-; eexists; split; [eassumption|]; split; [reflexivity|].
  all: apply Math_max_nonneg.
Qed.

Lemma failed_after_completed_floor donationId details flt s :
  match run (DonationService.updateDonationStatus donationId D_FAILED details) flt s with
  | (Ok d', s') =>
      forall d c', donations s !! donationId = Some d -> don_status d = D_COMPLETED ->
                   campaigns s' !! don_campaign d' = Some c' ->
                   exists c, campaigns s !! don_campaign d' = Some c
                             /\ raised c' = JS.Math_max 0 (raised c - amount d')
                             /\ (0 <= raised c')%Q
  | (Err _, _) => True
  end.
Proof.
  rewrite updateDonationStatus_run.
  destruct (ObjectId_isValid donationId); cbn [negb]; [|exact I].
  destruct (donations s !! donationId) as [d0|] eqn:Hd0; [|exact I].
  cbv zeta. rewrite (bool_decide_eq_false_2 (D_FAILED = D_COMPLETED)) by done.
  rewrite (bool_decide_eq_true_2 (D_FAILED = D_FAILED)) by done. cbn [andb].
  destruct (applyStatus_facts D_FAILED details d0) as (_ & Ha & Hc).
  destruct (bool_decide_reflect (don_status d0 = D_COMPLETED)) as [Hp|Hp].
  - destruct (campaigns s !! don_campaign d0) as [c|] eqn:Hcamp.
    + destruct (faultWithin 3 flt); [exact I|].
      intros d c' _ _. rewrite Hc, Ha. cbn. rewrite lookup_insert_eq. intros [= <-].
      exists c. split; [done|]. split; [done|]. apply Math_max_nonneg.
    + destruct (faultWithin 2 flt); [exact I|].
      intros d c' _ _. rewrite Hc. cbn. congruence.
  - destruct (faultWithin 2 flt); [exact I|]. intros d c' [= <-] Hp'. done.
Qed.

(** C5. Along every history of workflow requests, whatever their fault
    plans, from a store in which no campaign has a negative [raised] and no
    donation a negative amount, no campaign ever has a negative [raised].
    In particular the debit of a successful [markAsPaid] is
    [max(0, raised - amountRequested)] and the debit of a completed donation
    that fails is [max(0, raised - amount)], both at least 0 whatever the
    amounts. *)
Theorem raised_never_negative trace s :
  (raisedNonneg s -> amountsNonneg s -> raisedNonneg (execAll trace s))
  /\ (forall now withdrawalId adminId ref flt,
        match run (WithdrawalService.markAsPaid now withdrawalId adminId ref) flt s with
        | (Ok w', s') =>
            forall c', campaigns s' !! wr_campaign w' = Some c' ->
                       exists c, campaigns s !! wr_campaign w' = Some c
                                 /\ raised c' = JS.Math_max 0 (raised c - amountRequested w')
                                 /\ (0 <= raised c')%Q
        | (Err _, _) => True
        end)
  /\ (forall donationId details flt,
        match run (DonationService.updateDonationStatus donationId D_FAILED details) flt s
        with
        | (Ok d', s') =>
            forall d c', donations s !! donationId = Some d -> don_status d = D_COMPLETED ->
                         campaigns s' !! don_campaign d' = Some c' ->
                         exists c, campaigns s !! don_campaign d' = Some c
                                   /\ raised c' = JS.Math_max 0 (raised c - amount d')
                                   /\ (0 <= raised c')%Q
        | (Err _, _) => True
        end).
Proof.
  split; [|split].
  - intros Hc Hd. by apply execAll_keeps_nonneg.
  - intros. apply markAsPaid_floor.
  - intros. apply failed_after_completed_floor.
Qed.

Lemma sample_nonneg gs ps : raisedNonneg (Sample.store gs ps).
Proof.
  apply nonneg_insert; [apply nonneg_insert|]; [done| |]; cbn; unfold Qle; cbn; lia.
Qed.

Lemma sample_amounts gs ps : amountsNonneg (Sample.store gs ps).
Proof. apply amountsOk_insert; [done|]. cbn. unfold Qle; cbn; lia. Qed.

Lemma raised_never_negative_witness :
  raisedNonneg (Sample.store D_COMPLETED W_PENDING)
  /\ amountsNonneg (Sample.store D_COMPLETED W_PENDING)
  /\ raisedNonneg
       (execAll [ (UpdateDonationStatus Sample.gift D_FAILED None, []);
                  (ApproveWithdrawal Sample.payout Sample.admin, [true]);
                  (ApproveWithdrawal Sample.payout Sample.admin, []);
                  (MarkAsPaid 9 Sample.payout Sample.admin None, []) ]
          (Sample.store D_COMPLETED W_PENDING)).
Proof.
  split; [apply sample_nonneg|]. split; [apply sample_amounts|].
  apply (raised_never_negative _ (Sample.store D_COMPLETED W_PENDING));
    [apply sample_nonneg | apply sample_amounts].
Defined.


(** ** Campaign owners are users of the store *)

Lemma ownersExist_step s s' :
  ownersExist s -> keepsKeys (users s) (users s') ->
  keepsOwners (users s) (campaigns s) (campaigns s') ->
  ownersExist s'.
Proof.
  intros Ho Hk Hc id c' Hc'. apply Hk.
  destruct (Hc id c' Hc') as [(id0 & c & Hc0 & ->)|H]; [|done]. by apply (Ho id0).
Qed.

Lemma keepsKeys_refl um : keepsKeys um um.
Proof. by intros k. Qed.

Lemma keepsKeys_insert um k u : keepsKeys um (<[k := u]> um).
Proof.
  intros j Hj. destruct (decide (k = j)) as [->|Hne].
  - rewrite lookup_insert_eq. eauto.
  - by rewrite lookup_insert_ne.
Qed.

Lemma keepsKeys_alter um k f : keepsKeys um (alter f k um).
Proof.
  intros j [u Hj]. destruct (decide (k = j)) as [->|Hne].
  - rewrite lookup_alter_eq, Hj. cbn. eauto.
  - rewrite lookup_alter_ne by done. eauto.
Qed.

Lemma keepsOwners_refl um cm : keepsOwners um cm cm.
Proof. intros id c Hc. left. eauto. Qed.

Lemma keepsOwners_insert um cm k c' :
  (exists id0 c, cm !! id0 = Some c /\ owner c' = owner c) \/ is_Some (um !! owner c') ->
  keepsOwners um cm (<[k := c']> cm).
Proof.
  intros H id c. destruct (decide (k = id)) as [->|Hne].
  - rewrite lookup_insert_eq. by intros [= <-].
  - rewrite lookup_insert_ne by done. intros Hc. left. eauto.
Qed.

Lemma keepsOwners_alter um cm k f :
  (forall c, owner (f c) = owner c) -> keepsOwners um cm (alter f k cm).
Proof.
  intros Hf id c'. destruct (decide (k = id)) as [->|Hne].
  - rewrite lookup_alter_eq. destruct (cm !! id) as [c|] eqn:E; [|done].
    intros [= <-]. left. exists id, c. eauto.
  - rewrite lookup_alter_ne by done. intros Hc. left. eauto.
Qed.

Lemma keepsOwners_fmap um cm (f : Campaign -> Campaign) :
  (forall c, owner (f c) = owner c) -> keepsOwners um cm (f <$> cm).
Proof.
  intros Hf id c'. rewrite lookup_fmap. destruct (cm !! id) as [c|] eqn:E; [|done].
  intros [= <-]. left. exists id, c. eauto.
Qed.

Lemma keepsOwners_delete um cm k : keepsOwners um cm (delete k cm).
Proof. intros id c Hc. apply lookup_delete_Some in Hc. left. exists id, c. tauto. Qed.

(** No workflow operation removes a user or changes the owner of a
    campaign, and a campaign is only created for a user of the store: the
    owner of every campaign stays a user of the store. *)
Lemma exec_keeps_owners op flt s : ownersExist s -> ownersExist (exec op flt s).
Proof.
  intros Ho. apply (ownersExist_step s); [exact Ho| |];
    destruct op; cbn [exec]; unfold_ops; crunch.
  all: cbn [users campaigns set_users set_applications set_campaigns set_donations
            set_withdrawals].
  all: first
         [ apply keepsKeys_refl | apply keepsKeys_insert | apply keepsKeys_alter
         | apply keepsOwners_refl
         | apply keepsOwners_delete
         | apply keepsOwners_fmap; intros c0;
           destruct (OrganizerService.openCampaignOf _ c0); reflexivity
         | apply keepsOwners_alter; intros c0; reflexivity
         | apply keepsOwners_insert; left; do 2 eexists; split; [eassumption | reflexivity]
         | apply keepsOwners_insert; right; cbn [owner]; eauto ].
Qed.

(** ** Donation processing and the state of the campaign *)

Lemma pointApproved_step s s' :
  donationsPointApproved s ->
  donationsFrom (campaigns s) (donations s) (donations s') ->
  approvalsFrom (donations s') (campaigns s) (campaigns s') ->
  donationsPointApproved s'.
Proof.
  intros Hs Hd Hc i d' c' Hd' Hc'.
  destruct (Hc _ _ Hc') as [(c & Hc0 & Hkeep)|Hfresh].
  2:{ by destruct (Hfresh _ _ Hd'). }
  apply Hkeep.
  destruct (Hd _ _ Hd') as [(d & Hd0 & Heq)|(c0 & Hc1 & Ha)].
  - apply (Hs i d c); [done|]. by rewrite Heq.
  - congruence.
Qed.

Lemma donationsFrom_refl cm dm : donationsFrom cm dm dm.
Proof. intros i d Hd. left. eauto. Qed.

Lemma donationsFrom_insert_old cm dm k d0 v :
  dm !! k = Some d0 -> don_campaign v = don_campaign d0 ->
  donationsFrom cm dm (<[k := v]> dm).
Proof.
  intros Hk Hv i d'. destruct (decide (k = i)) as [->|Hne].
  - rewrite lookup_insert_eq. intros [= <-]. left. eauto.
  - rewrite lookup_insert_ne by done. intros Hd. left. eauto.
Qed.

Lemma donationsFrom_insert_new cm dm k v c :
  cm !! don_campaign v = Some c -> isApproved c = true ->
  donationsFrom cm dm (<[k := v]> dm).
Proof.
  intros Hc Ha i d'. destruct (decide (k = i)) as [->|Hne].
  - rewrite lookup_insert_eq. intros [= <-]. right. eauto.
  - rewrite lookup_insert_ne by done. intros Hd. left. eauto.
Qed.

Lemma approvalsFrom_refl dm cm : approvalsFrom dm cm cm.
Proof. intros id c Hc. left. eauto. Qed.

Lemma approvalsFrom_insert_old dm cm k c0 v :
  cm !! k = Some c0 -> (isApproved c0 = true -> isApproved v = true) ->
  approvalsFrom dm cm (<[k := v]> cm).
Proof.
  intros Hk Hv id c'. destruct (decide (k = id)) as [->|Hne].
  - rewrite lookup_insert_eq. intros [= <-]. left. eauto.
  - rewrite lookup_insert_ne by done. intros Hc. left. eauto.
Qed.

Lemma approvalsFrom_insert_new dm cm k v :
  (forall i d, dm !! i = Some d -> don_campaign d <> k) ->
  approvalsFrom dm cm (<[k := v]> cm).
Proof.
  intros Hfresh id c'. destruct (decide (k = id)) as [->|Hne].
  - intros _. by right.
  - rewrite lookup_insert_ne by done. intros Hc. left. eauto.
Qed.

Lemma approvalsFrom_alter dm cm k f :
  (forall c, isApproved c = true -> isApproved (f c) = true) ->
  approvalsFrom dm cm (alter f k cm).
Proof.
  intros Hf id c'. destruct (decide (k = id)) as [->|Hne].
  - rewrite lookup_alter_eq. destruct (cm !! id) as [c|] eqn:E; [|done].
    intros [= <-]. left. eauto.
  - rewrite lookup_alter_ne by done. intros Hc. left. eauto.
Qed.

Lemma approvalsFrom_fmap dm cm (f : Campaign -> Campaign) :
  (forall c, isApproved (f c) = isApproved c) -> approvalsFrom dm cm (f <$> cm).
Proof.
  intros Hf id c'. rewrite lookup_fmap. destruct (cm !! id) as [c|] eqn:E; [|done].
  intros [= <-]. left. exists c. rewrite Hf. eauto.
Qed.

Lemma approvalsFrom_delete dm cm k : approvalsFrom dm cm (delete k cm).
Proof. intros id c Hc. apply lookup_delete_Some in Hc. left. exists c. tauto. Qed.

(** No workflow operation withdraws an approval or moves a donation to
    another campaign; a donation is only created for an approved campaign,
    and a campaign is created under an id without donations. *)
Lemma exec_keeps_pointApproved op flt s :
  donationsPointApproved s -> freshCampaignId op s ->
  donationsPointApproved (exec op flt s).
Proof.
  intros Hs Hfresh. apply (pointApproved_step s); [exact Hs| |];
    destruct op; cbn [exec freshCampaignId] in *; unfold_ops; crunch.
  all: cbn [campaigns donations set_users set_applications set_campaigns set_donations
            set_withdrawals].
  all: first
         [ apply donationsFrom_refl
         | apply approvalsFrom_refl
         | apply approvalsFrom_delete
         | apply approvalsFrom_fmap; intros c0;
           destruct (OrganizerService.openCampaignOf _ c0); reflexivity
         | apply approvalsFrom_alter; intros c0 Hc0; done
         | eapply approvalsFrom_insert_old; [eassumption | intros Hc0; done]
         | apply approvalsFrom_insert_new; exact Hfresh
         | eapply donationsFrom_insert_old;
           [eassumption | by rewrite ?applyStatus_campaign]
         | eapply donationsFrom_insert_new; [eassumption | by destruct (isApproved _)] ].
Qed.

(** C7, as stated, fails: a donation made while the campaign was open is
    credited by [updateDonationStatus] after the campaign has been closed. *)
Lemma credit_after_close : ~ creditOnlyWhileOpen.
Proof.
  intros H.
  specialize (H (UpdateDonationStatus Sample.gift D_COMPLETED None) [] Sample.closedStore
                Sample.well
                (mkCampaign "Village well" None [] 1000 0 Sample.alice true true None)
                (mkCampaign "Village well" None [] 1000 (0 + 100) Sample.alice true true None)
                I eq_refl (or_intror eq_refl) eq_refl).
  revert H. cbn [raised]. unfold Qle. cbn. lia.
Qed.

Lemma execAll_keeps_pointApproved trace : forall s,
  donationsPointApproved s -> freshCampaignIds trace s ->
  donationsPointApproved (execAll trace s).
Proof.
  induction trace as [|[op flt] trace IH]; intros s Hinv Hfresh; [exact Hinv|].
  destruct Hfresh as [Hop Hrest]. cbn [execAll]. apply IH; [|exact Hrest].
  by apply exec_keeps_pointApproved.
Qed.

Lemma createDonation_campaigns newId donorId data flt s :
  campaigns (exec (CreateDonation newId donorId data) flt s) = campaigns s.
Proof.
  cbn [exec]. rewrite createDonation_run. cbv zeta.
  repeat match goal with
         | |- context [if ?b then _ else _] => destruct b
         | |- context [match ?o with Some _ => _ | None => _ end] => destruct o
         end; reflexivity.
Qed.

Lemma createDonation_refuses newId donorId data flt s c :
  campaigns s !! DonationService.cd_campaign data = Some c ->
  isApproved c = false \/ isClosed c = true ->
  exists e, run (DonationService.createDonation newId donorId data) flt s = (Err e, s).
Proof.
  intros Hc Hshut. rewrite createDonation_run. cbv zeta. rewrite Hc.
  destruct (isApproved c), (isClosed c);
    try (destruct Hshut; discriminate); cbn [negb];
    repeat match goal with
           | |- context [if ?b then _ else _] => destruct b
           end; eauto.
Qed.

Lemma updateDonationStatus_campaigns donationId status details flt s id c c' :
  donationsPointApproved s ->
  campaigns s !! id = Some c ->
  campaigns (exec (UpdateDonationStatus donationId status details) flt s) !! id = Some c' ->
  c' = c
  \/ isApproved c = true
     /\ exists d, donations s !! donationId = Some d /\ don_campaign d = id
                  /\ (status = D_COMPLETED /\ don_status d <> D_COMPLETED
                      /\ c' = DonationService.credit (amount d) c
                      \/ status = D_FAILED /\ don_status d = D_COMPLETED
                         /\ c' = DonationService.debit (amount d) c).
Proof.
  intros Hinv Hc Hc'. cbn [exec] in Hc'.
  rewrite updateDonationStatus_run in Hc'.
  assert (forall r : Result Donation, campaigns (r, s).2 !! id = Some c' -> c' = c) as Hsame.
  { intros r. cbn. rewrite Hc. congruence. }
  destruct (ObjectId_isValid donationId); cbn [negb] in Hc'; [|eauto].
  destruct (donations s !! donationId) as [d|] eqn:Hd; [|eauto].
  cbv zeta in Hc'.
  assert (don_campaign d = id -> isApproved c = true) as Happ.
  { intros <-. by apply (Hinv donationId d c). }
  destruct (bool_decide_reflect (status = D_COMPLETED)) as [Hs|Hs];
    destruct (bool_decide_reflect (don_status d = D_COMPLETED)) as [Hp|Hp];
    cbn [andb negb] in Hc'.
  - subst status. rewrite bool_decide_eq_false_2 in Hc' by done. cbn [andb] in Hc'.
    destruct (faultWithin 2 flt); [eauto|].
    left. cbn in Hc'. congruence.
  - destruct (faultWithin 3 flt); [eauto|]. cbn in Hc'.
    destruct (decide (don_campaign d = id)) as [Heq|Hne].
    { specialize (Happ Heq). subst id.
      rewrite lookup_alter_eq, Hc in Hc'. injection Hc' as <-.
      right. split; [done|]. exists d. split; [done|]. split; [done|]. left. done. }
    rewrite lookup_alter_ne, Hc in Hc' by done. left. congruence.
  - destruct (bool_decide_reflect (status = D_FAILED)) as [Hf|Hf]; cbn [andb] in Hc'.
    2:{ destruct (faultWithin 2 flt); [eauto|]. left. cbn in Hc'. congruence. }
    destruct (campaigns s !! don_campaign d) as [c0|] eqn:Hc0.
    2:{ destruct (faultWithin 2 flt); [eauto|]. left. cbn in Hc'. congruence. }
    destruct (faultWithin 3 flt); [eauto|]. cbn in Hc'.
    destruct (decide (don_campaign d = id)) as [Heq|Hne].
    2:{ rewrite lookup_insert_ne, Hc in Hc' by done. left. congruence. }
    specialize (Happ Heq). subst id.
    rewrite lookup_insert_eq in Hc'. injection Hc' as <-.
    rewrite Hc in Hc0. injection Hc0 as <-.
    right. split; [done|]. exists d. split; [done|]. split; [done|]. right. done.
  - destruct (bool_decide (status = D_FAILED)); cbn [andb] in Hc';
      (destruct (faultWithin 2 flt); [eauto|]); left; cbn in Hc'; congruence.
Qed.

Lemma updateDonationStatus_moves donationId details flt s d c :
  ObjectId_isValid donationId = true ->
  donations s !! donationId = Some d ->
  campaigns s !! don_campaign d = Some c ->
  faultWithin 3 flt = false ->
  (don_status d <> D_COMPLETED ->
   campaigns (exec (UpdateDonationStatus donationId D_COMPLETED details) flt s)
     !! don_campaign d
   = Some (DonationService.credit (amount d) c))
  /\ (don_status d = D_COMPLETED ->
      campaigns (exec (UpdateDonationStatus donationId D_FAILED details) flt s)
        !! don_campaign d
      = Some (DonationService.debit (amount d) c)).
Proof.
  intros Hv Hd Hc Hf. cbn [exec].
  rewrite !updateDonationStatus_run, Hv, Hd. cbn [negb]. cbv zeta. split.
  - intros Hp. rewrite bool_decide_eq_true_2 by done.
    rewrite (bool_decide_eq_false_2 _ Hp). cbn [andb negb]. rewrite Hf.
    cbn. rewrite lookup_alter_eq, Hc. done.
  - intros Hp. rewrite (bool_decide_eq_false_2 (D_FAILED = D_COMPLETED)) by done.
    rewrite (bool_decide_eq_true_2 (D_FAILED = D_FAILED)) by done.
    rewrite (bool_decide_eq_true_2 _ Hp). cbn [andb negb]. rewrite Hc, Hf.
    cbn. by rewrite lookup_insert_eq.
Qed.

(** C7, amended. Donation processing never changes [raised] of an
    unapproved campaign, but it does credit a closed one. From a store in
    which every donation belongs to an approved campaign, along every
    history of workflow requests that gives created campaigns fresh ids:
    - every donation still belongs to an approved campaign, and neither
      [createDonation] nor [updateDonationStatus] changes a campaign that
      is unapproved;
    - [createDonation] never changes a campaign, and fails for a campaign
      that is unapproved or closed;
    - [updateDonationStatus] leaves every campaign as it was, except that
      it credits the campaign of the donation, which is approved, with
      the amount on a transition into completed from another status, or
      debits it (floored at 0) on a transition from completed to failed;
    - both happen whenever the store does not fail, whatever [isClosed] of
      the campaign is at that time: closure is tested when the donation is
      created, not when it is credited. *)
Theorem credit_only_for_approved (trace : list (Op * list bool)) (s0 : Store) :
  donationsPointApproved s0 ->
  freshCampaignIds trace s0 ->
  let s := execAll trace s0 in
  donationsPointApproved s
  /\ (forall op flt id c c',
        match op with
        | CreateDonation _ _ _ | UpdateDonationStatus _ _ _ => True
        | _ => False
        end ->
        campaigns s !! id = Some c ->
        isApproved c = false ->
        campaigns (exec op flt s) !! id = Some c' ->
        c' = c)
  /\ (forall newId donorId data flt,
        campaigns (exec (CreateDonation newId donorId data) flt s) = campaigns s
        /\ forall c, campaigns s !! DonationService.cd_campaign data = Some c ->
             isApproved c = false \/ isClosed c = true ->
             exists e, run (DonationService.createDonation newId donorId data) flt s
                       = (Err e, s))
  /\ (forall donationId status details flt id c c',
        campaigns s !! id = Some c ->
        campaigns (exec (UpdateDonationStatus donationId status details) flt s) !! id = Some c' ->
        c' = c
        \/ isApproved c = true
           /\ exists d, donations s !! donationId = Some d /\ don_campaign d = id
                        /\ (status = D_COMPLETED /\ don_status d <> D_COMPLETED
                            /\ c' = DonationService.credit (amount d) c
                            \/ status = D_FAILED /\ don_status d = D_COMPLETED
                               /\ c' = DonationService.debit (amount d) c))
  /\ (forall donationId details flt d c,
        ObjectId_isValid donationId = true ->
        donations s !! donationId = Some d ->
        campaigns s !! don_campaign d = Some c ->
        faultWithin 3 flt = false ->
        (don_status d <> D_COMPLETED ->
         campaigns (exec (UpdateDonationStatus donationId D_COMPLETED details) flt s)
           !! don_campaign d
         = Some (DonationService.credit (amount d) c))
        /\ (don_status d = D_COMPLETED ->
            campaigns (exec (UpdateDonationStatus donationId D_FAILED details) flt s)
              !! don_campaign d
            = Some (DonationService.debit (amount d) c))).
Proof.
  intros Hinv0 Hfresh s.
  assert (donationsPointApproved s) as Hinv by (by apply execAll_keeps_pointApproved).
  split; [exact Hinv|]. split; [|split; [|split]].
  - intros op flt id c c' Hop Hc Hun Hc'. destruct op; try done.
    + rewrite createDonation_campaigns in Hc'. congruence.
    + destruct (updateDonationStatus_campaigns _ _ _ _ _ _ _ _ Hinv Hc Hc')
        as [?|[Happ _]]; [done|congruence].
  - intros newId donorId data flt. split; [apply createDonation_campaigns|].
    intros c. apply createDonation_refuses.
  - intros donationId status details flt id c c'.
    by apply updateDonationStatus_campaigns.
  - intros donationId details flt d c. apply updateDonationStatus_moves.
Qed.

Lemma closedStore_pointApproved : donationsPointApproved Sample.closedStore.
Proof.
  intros i d c Hd Hc. cbn in Hd. apply lookup_insert_Some in Hd.
  destruct Hd as [[_ <-]|[_ Hd]]; [|by rewrite lookup_empty in Hd].
  cbn in Hc. rewrite lookup_insert_eq in Hc. by injection Hc as <-.
Qed.

Lemma scenario_fresh : freshCampaignIds Sample.scenario Sample.closedStore.
Proof.
  split; [|repeat split].
  intros i d Hd. cbn in Hd. apply lookup_insert_Some in Hd.
  destruct Hd as [[_ <-]|[_ Hd]]; [done|by rewrite lookup_empty in Hd].
Qed.

Lemma credit_only_for_approved_witness :
  donationsPointApproved Sample.closedStore
  /\ freshCampaignIds Sample.scenario Sample.closedStore
  /\ donationsPointApproved (execAll Sample.scenario Sample.closedStore)
  /\ (exists e, run (DonationService.createDonation Sample.payout Sample.bob
                       (Sample.pledge Sample.well)) [] Sample.closedStore
                = (Err e, Sample.closedStore))
  /\ campaigns (exec (UpdateDonationStatus Sample.gift D_COMPLETED None) []
                  Sample.closedStore) !! Sample.well
     = Some (DonationService.credit 100
               (mkCampaign "Village well" None [] 1000 0 Sample.alice true true None)).
Proof.
  split; [exact closedStore_pointApproved|].
  split; [exact scenario_fresh|].
  split.
  { exact (proj1 (credit_only_for_approved Sample.scenario Sample.closedStore
                    closedStore_pointApproved scenario_fresh)). }
  pose proof (credit_only_for_approved [] Sample.closedStore closedStore_pointApproved I)
    as (_ & _ & Hcreate & _ & Hcredit).
  split.
  - exact (proj2 (Hcreate Sample.payout Sample.bob (Sample.pledge Sample.well) [])
             _ eq_refl (or_intror eq_refl)).
  - assert (don_status (Sample.giftDoc D_PENDING) <> D_COMPLETED) as Hp by discriminate.
    exact (proj1 (Hcredit Sample.gift None [] (Sample.giftDoc D_PENDING) _
                    eq_refl eq_refl eq_refl eq_refl) Hp).
Defined.

(** * Further properties *)

(** ** What a failed request leaves behind *)

Lemma attempt_exec op flt s : (attempt op flt s).2 = exec op flt s.
Proof. destruct op; cbn [attempt exec]; by destruct (run _ _ _). Qed.

Lemma alter_as_insert {D} (f : D -> D) k (m : gmap string D) :
  alter f k m = match m !! k with Some d => <[k := f d]> m | None => m end.
Proof.
  apply map_eq. intros i. destruct (decide (k = i)) as [<-|Hne].
  - rewrite lookup_alter_eq. destruct (m !! k) eqn:E; cbn.
    + by rewrite lookup_insert_eq.
    + by rewrite E.
  - rewrite lookup_alter_ne by done. destruct (m !! k); [|done].
    by rewrite lookup_insert_ne.
Qed.

(** The second storage call of [approveCampaign] is the populate of the
    owner: when it fails, the approval is already written. *)
Lemma approveCampaign_run campaignId flt s :
  ObjectId_isValid campaignId = true ->
  run (CampaignService.approveCampaign campaignId) flt s =
  if faultWithin 1 flt then (Err StorageError, s)
  else match campaigns s !! campaignId with
       | Some c =>
           (if faultWithin 2 flt then Err StorageError else Ok (CampaignService.approve c),
            set_campaigns (insert campaignId (CampaignService.approve c)) s)
       | None => (Err (Msg "Campaign not found"), s)
       end.
Proof.
  intros Hv. unfold CampaignService.approveCampaign. unfold_js. rewrite Hv.
  assert (forall t : Store, set_campaigns (fun m => m) t = t) as Hid
    by (by intros []).
  destruct flt as [|[] [|[] flt]]; unfold_js; cbn [campaigns set_campaigns];
    rewrite ?lookup_alter_eq; destruct (campaigns s !! campaignId) as [c|] eqn:E;
    cbn; unfold set_campaigns; rewrite ?alter_as_insert, ?E; cbn;
    try reflexivity; by destruct s.
Qed.

(** X1. Whichever of the sixteen operations a request runs, with whatever
    arguments and whichever storage calls failing: when the request fails,
    the committed store is the store before the request, with one
    exception. [approveCampaign] writes the approval outside a transaction
    and then populates the owner of the result: when that query fails the
    request fails with the storage error and the campaign is left approved.
    No other operation leaves a write behind its error, and a failed
    [approveCampaign] leaves nothing else. The exception occurs: for a
    valid id of an unapproved campaign, a run whose first storage call goes
    through and whose second fails ends in the storage error with the
    approval in the store. *)
Theorem failed_request_leaves_store (s : Store) :
  (forall op flt e,
     (attempt op flt s).1 = Some e ->
     match op with
     | ApproveCampaign campaignId =>
         exec op flt s = s
         \/ (e = StorageError
             /\ exists c, campaigns s !! campaignId = Some c
                          /\ exec op flt s
                             = set_campaigns (insert campaignId (CampaignService.approve c)) s)
     | _ => exec op flt s = s
     end)
  /\ (forall campaignId c rest,
        ObjectId_isValid campaignId = true ->
        campaigns s !! campaignId = Some c ->
        isApproved c = false ->
        attempt (ApproveCampaign campaignId) (false :: true :: rest) s
        = (Some StorageError,
           set_campaigns (insert campaignId (CampaignService.approve c)) s)
        /\ set_campaigns (insert campaignId (CampaignService.approve c)) s <> s).
Proof.
  split.
  - intros op flt e. rewrite <- attempt_exec.
    destruct op;
      try (cbn [attempt]; unfold_ops; crunch; cbn [failure fst snd];
           intros H; first [discriminate H | reflexivity]).
    cbn [attempt]. destruct (ObjectId_isValid campaignId) eqn:Hv.
    2:{ unfold CampaignService.approveCampaign. unfold_js. rewrite Hv. by left. }
    rewrite approveCampaign_run by done.
    destruct (faultWithin 1 flt); [by left|].
    destruct (campaigns s !! campaignId) as [c|] eqn:Hc; [|by left].
    destruct (faultWithin 2 flt); cbn [failure fst snd]; [|discriminate].
    intros [= <-]. right. eauto.
  - intros campaignId c rest Hv Hc Hn. split.
    + cbn [attempt]. rewrite approveCampaign_run, Hc by done. reflexivity.
    + intros Heq. apply (f_equal (fun t => campaigns t !! campaignId)) in Heq.
      cbn in Heq. rewrite lookup_insert_eq, Hc in Heq. injection Heq as Heq.
      rewrite <- Heq in Hn. discriminate.
Qed.

(** ** What one request does to each collection *)

Lemma evolves_refl {D} (R : D -> D -> Prop) m : (forall d, R d d) -> evolves R m m.
Proof. intros HR id d Hd. eauto. Qed.

Lemma evolves_insert_old {D} (R : D -> D -> Prop) (m : gmap string D) k d0 v :
  (forall d, R d d) -> m !! k = Some d0 -> R d0 v -> evolves R m (<[k := v]> m).
Proof.
  intros HR Hk Hv id d Hd. destruct (decide (k = id)) as [->|Hne].
  - rewrite lookup_insert_eq. exists v. split; [done|]. congruence.
  - rewrite lookup_insert_ne by done. eauto.
Qed.

Lemma evolves_insert_new {D} (R : D -> D -> Prop) (m : gmap string D) k v :
  (forall d, R d d) -> m !! k = None -> evolves R m (<[k := v]> m).
Proof.
  intros HR Hk id d Hd. rewrite lookup_insert_ne by congruence. eauto.
Qed.

Lemma evolves_alter {D} (R : D -> D -> Prop) (m : gmap string D) k f :
  (forall d, R d d) -> (forall d, m !! k = Some d -> R d (f d)) -> evolves R m (alter f k m).
Proof.
  intros HR Hf id d Hd. destruct (decide (k = id)) as [->|Hne].
  - rewrite lookup_alter_eq, Hd. cbn. eauto.
  - rewrite lookup_alter_ne by done. eauto.
Qed.

Lemma evolves_fmap {D} (R : D -> D -> Prop) (m : gmap string D) (f : D -> D) :
  (forall d, R d (f d)) -> evolves R m (f <$> m).
Proof. intros Hf id d Hd. rewrite lookup_fmap, Hd. cbn. eauto. Qed.

Lemma evolves_trans {D} (R : D -> D -> Prop) (m1 m2 m3 : gmap string D) :
  (forall a b c, R a b -> R b c -> R a c) ->
  evolves R m1 m2 -> evolves R m2 m3 -> evolves R m1 m3.
Proof.
  intros HR H12 H23 id d Hd. destruct (H12 id d Hd) as (d2 & Hd2 & R12).
  destruct (H23 id d2 Hd2) as (d3 & Hd3 & R23). eauto.
Qed.

Lemma evolves_weaken {D} (R R' : D -> D -> Prop) (m m' : gmap string D) :
  (forall a b, R a b -> R' a b) -> evolves R m m' -> evolves R' m m'.
Proof. intros HR H id d Hd. destruct (H id d Hd) as (d' & ? & ?). eauto. Qed.

Ltac decide_hyps :=
  repeat match goal with
         | H : bool_decide _ = true |- _ => apply bool_decide_eq_true in H
         | H : bool_decide _ = false |- _ => apply bool_decide_eq_false in H
         end.

Ltac collections :=
  cbn [users applications campaigns donations withdrawals
       set_users set_applications set_campaigns set_donations set_withdrawals].

Lemma sameRequest_refl w : sameRequest w w.
Proof. by repeat split. Qed.

Lemma withdrawalStep_refl w : withdrawalStep w w.
Proof. split; [apply sameRequest_refl | by left]. Qed.

Lemma withdrawalStep_path w w' : withdrawalStep w w' -> withdrawalPath w w'.
Proof.
  intros [Hs [->|[[Hp _]|Ha]]]; (split; [exact Hs|]); [by left | by right; left | by right; right].
Qed.

Lemma withdrawalPath_trans a b c :
  withdrawalPath a b -> withdrawalPath b c -> withdrawalPath a c.
Proof.
  intros [Hs1 H1] [Hs2 H2]. split.
  - unfold sameRequest in *. intuition congruence.
  - destruct H1 as [H1|[H1|[H1 H1']]], H2 as [H2|[H2|[H2 H2']]];
      first [ left; congruence | right; left; congruence
            | right; right; split; congruence | idtac ].
    all: try (rewrite H2 in H1'; discriminate).
    all: try (rewrite H1' in H2; discriminate).
Qed.

Lemma exec_withdrawalStep op flt s :
  evolves withdrawalStep (withdrawals s) (withdrawals (exec op flt s)).
Proof.
  destruct op; cbn [exec]; unfold_ops; crunch; collections; decide_hyps.
  all: first
         [ apply evolves_refl; apply withdrawalStep_refl
         | apply evolves_insert_new; [apply withdrawalStep_refl | assumption]
         | eapply evolves_insert_old; [apply withdrawalStep_refl | eassumption |];
           split; [by repeat split|]; cbn; auto
         | apply evolves_fmap; intros w;
           unfold OrganizerService.pendingWithdrawalOf;
           destruct (String.eqb _ _); cbn [andb]; [|apply withdrawalStep_refl];
           case_bool_decide; [|apply withdrawalStep_refl];
           split; [by repeat split|]; cbn; auto ].
Qed.


Lemma sameApplication_refl a : sameApplication a a.
Proof. by repeat split. Qed.

Lemma applicationStep_refl a : applicationStep a a.
Proof. split; [apply sameApplication_refl | by left]. Qed.

Lemma exec_applicationStep op flt s :
  evolves applicationStep (applications s) (applications (exec op flt s)).
Proof.
  destruct op; cbn [exec]; unfold_ops; crunch; collections; decide_hyps.
  all: first
         [ apply evolves_refl; apply applicationStep_refl
         | apply evolves_insert_new; [apply applicationStep_refl | assumption]
         | eapply evolves_insert_old; [apply applicationStep_refl | eassumption |];
           split; [by repeat split|]; cbn; auto ].
Qed.

Lemma campaignStep_refl c : campaignStep c c.
Proof. by repeat split. Qed.


Lemma orKeep_Some new old : is_Some old -> is_Some (DonationService.orKeep new old).
Proof.
  intros Ho. unfold DonationService.orKeep. destruct new as [v|]; [|done].
  destruct (JS.truthy v); eauto.
Qed.

Lemma donationStep_refl d : donationStep d d.
Proof. by repeat split. Qed.

Lemma donationStep_applyStatus status details d :
  donationStep d (DonationService.applyStatus status details d).
Proof.
  destruct details as [p|]; cbn; repeat split; try done; intros; by apply orKeep_Some.
Qed.

Lemma exec_donationStep op flt s :
  evolves donationStep (donations s) (donations (exec op flt s)).
Proof.
  destruct op; cbn [exec]; unfold_ops; crunch; collections; decide_hyps.
  all: first
         [ apply evolves_refl; apply donationStep_refl
         | apply evolves_insert_new; [apply donationStep_refl | assumption]
         | eapply evolves_insert_old; [apply donationStep_refl | eassumption |];
           apply donationStep_applyStatus ].
Qed.

Lemma userStep_refl u : userStep u u.
Proof. repeat split. by left. Qed.

Lemma exec_userStep op flt s :
  evolves userStep (users s) (users (exec op flt s)).
Proof.
  destruct op; cbn [exec]; unfold_ops; crunch; collections; decide_hyps.
  all: first
         [ apply evolves_refl; apply userStep_refl
         | eapply evolves_insert_old; [apply userStep_refl | eassumption |];
           repeat split; left; done
         | apply evolves_alter; [apply userStep_refl|]; intros ? _;
           repeat split; right; done ].
Qed.

Lemma exec_users_dom op flt s id :
  users (exec op flt s) !! id = None <-> users s !! id = None.
Proof.
  destruct op; cbn [exec]; unfold_ops; crunch; collections.
  all: first
         [ reflexivity
         | apply lookup_alter_None
         | destruct (decide (organizerId = id)) as [<-|Hne];
           [rewrite lookup_insert_eq; split; congruence
           | rewrite lookup_insert_ne by done; reflexivity] ].
Qed.


Section OneOn.
Context {D : Type} (key : D -> Id) (on : D -> bool).

Lemma oneOn_kept (m m' : gmap string D) :
  nothingTurnedOn key on m m' -> oneOn key on m -> oneOn key on m'.
Proof.
  intros Hn Hone i j d1 d2 Hi Hj Hk H1 H2.
  destruct (Hn i d1 Hi) as (e1 & He1 & Hk1 & Ho1).
  destruct (Hn j d2 Hj) as (e2 & He2 & Hk2 & Ho2).
  apply (Hone i j e1 e2); auto. congruence.
Qed.

Lemma nothingTurnedOn_refl (m : gmap string D) : nothingTurnedOn key on m m.
Proof. intros id d Hd. eauto. Qed.

Lemma nothingTurnedOn_insert (m : gmap string D) k d0 v :
  m !! k = Some d0 -> key d0 = key v -> (on v = true -> on d0 = true) ->
  nothingTurnedOn key on m (<[k := v]> m).
Proof.
  intros Hk Hkey Hon id d'. destruct (decide (k = id)) as [->|Hne].
  - rewrite lookup_insert_eq. intros [= <-]. eauto.
  - rewrite lookup_insert_ne by done. eauto.
Qed.

Lemma nothingTurnedOn_fmap (m : gmap string D) (f : D -> D) :
  (forall d, key d = key (f d) /\ (on (f d) = true -> on d = true)) ->
  nothingTurnedOn key on m (f <$> m).
Proof.
  intros Hf id d'. rewrite lookup_fmap. destruct (m !! id) as [d|] eqn:E; [|done].
  intros [= <-]. exists d. destruct (Hf d). eauto.
Qed.

Lemma oneOn_insert_new (m : gmap string D) k v :
  m !! k = None ->
  (forall i d, m !! i = Some d -> key d = key v -> on d = false) ->
  oneOn key on m -> oneOn key on (<[k := v]> m).
Proof.
  intros Hfresh Hnone Hone i j d1 d2.
  destruct (decide (i = k)) as [->|Hi], (decide (j = k)) as [->|Hj];
    rewrite ?lookup_insert_eq, ?lookup_insert_ne by done; try done.
  - intros [= <-] Hj2 Hc _ Ho. rewrite (Hnone j d2 Hj2) in Ho; done.
  - intros Hi1 [= <-] Hc Ho _. rewrite (Hnone i d1 Hi1) in Ho; done.
  - apply Hone.
Qed.

End OneOn.

Lemma noneLive_iff userId s :
  bool_decide (map_Exists (fun _ a => OrganizerService.isLive userId a = true)
                 (applications s)) = false
  <-> noneLiveFor userId s.
Proof.
  rewrite exists_false. unfold noneLiveFor, OrganizerService.isLive, live. split.
  - intros H i a Hi Hu. specialize (H i a Hi). subst userId.
    by rewrite String.eqb_refl in H.
  - intros H i a Hi. destruct (String.eqb_spec (app_user a) userId) as [Hu|_]; [|done].
    cbn. eauto.
Qed.

Lemma exec_oneOutstanding op flt s : oneOutstanding s -> oneOutstanding (exec op flt s).
Proof.
  intros Hone.
  change (oneOn wr_campaign WithdrawalService.outstanding (withdrawals s)) in Hone.
  change (oneOn wr_campaign WithdrawalService.outstanding (withdrawals (exec op flt s))).
  destruct op; cbn [exec]; unfold_ops; crunch; collections; decide_hyps.
  all: first
         [ assumption
         | apply oneOn_insert_new; [assumption | | assumption];
           match goal with
           | H : ~ map_Exists _ _ |- _ =>
               intros i d Hi Hc; destruct (WithdrawalService.outstanding d) eqn:Ho; [|done];
               exfalso; apply H; exists i, d; split; [done|];
               unfold WithdrawalService.outstandingFor; cbn in Hc; rewrite Hc, Ho;
               by rewrite String.eqb_refl
           end
         | eapply oneOn_kept; [|eassumption];
           first
             [ eapply nothingTurnedOn_insert; [eassumption | reflexivity |];
               unfold WithdrawalService.outstanding; cbn;
               match goal with H : wr_status _ = _ |- _ => rewrite H end; done
             | apply nothingTurnedOn_fmap; intros w;
               destruct (OrganizerService.pendingWithdrawalOf _ w); done ] ].
Qed.

Lemma exec_oneLive op flt s : oneLiveApplication s -> oneLiveApplication (exec op flt s).
Proof.
  intros Hone.
  change (oneOn app_user live (applications s)) in Hone.
  change (oneOn app_user live (applications (exec op flt s))).
  destruct op; cbn [exec]; unfold_ops; crunch; collections; decide_hyps.
  all: first
         [ assumption
         | apply oneOn_insert_new; [assumption | | assumption];
           match goal with
           | H : ~ map_Exists _ _ |- _ =>
               intros i d Hi Hc; destruct (live d) eqn:Ho; [|done];
               exfalso; apply H; exists i, d; split; [done|];
               unfold OrganizerService.isLive; cbn in Hc; rewrite Hc;
               rewrite String.eqb_refl; exact Ho
           end
         | eapply oneOn_kept; [|eassumption];
           eapply nothingTurnedOn_insert; [eassumption | reflexivity |];
           unfold live; cbn;
           match goal with H : app_status _ = _ |- _ => rewrite H end; done ].
Qed.

Lemma fate_refl {D} (R : D -> D -> Prop) gone (m : gmap string D) :
  (forall d, R d d) -> fate R gone m m.
Proof. intros HR id d Hd. by rewrite Hd. Qed.

Lemma fate_insert_old {D} (R : D -> D -> Prop) gone (m : gmap string D) k d0 v :
  (forall d, R d d) -> m !! k = Some d0 -> R d0 v -> fate R gone m (<[k := v]> m).
Proof.
  intros HR Hk Hv id d Hd. destruct (decide (k = id)) as [->|Hne].
  - rewrite lookup_insert_eq. congruence.
  - rewrite lookup_insert_ne, Hd by done. apply HR.
Qed.

Lemma fate_insert_new {D} (R : D -> D -> Prop) gone (m : gmap string D) k v :
  (forall d, R d d) -> m !! k = None -> fate R gone m (<[k := v]> m).
Proof.
  intros HR Hk id d Hd. rewrite lookup_insert_ne, Hd by congruence. apply HR.
Qed.

Lemma fate_alter {D} (R : D -> D -> Prop) gone (m : gmap string D) k f :
  (forall d, R d d) -> (forall d, R d (f d)) -> fate R gone m (alter f k m).
Proof.
  intros HR Hf id d Hd. destruct (decide (k = id)) as [->|Hne].
  - rewrite lookup_alter_eq, Hd. cbn. apply Hf.
  - rewrite lookup_alter_ne, Hd by done. apply HR.
Qed.

Lemma fate_fmap {D} (R : D -> D -> Prop) gone (m : gmap string D) (f : D -> D) :
  (forall d, R d (f d)) -> fate R gone m (f <$> m).
Proof. intros Hf id d Hd. rewrite lookup_fmap, Hd. cbn. apply Hf. Qed.

Lemma fate_delete {D} (R : D -> D -> Prop) (gone : D -> Prop) (m : gmap string D) k d0 :
  (forall d, R d d) -> m !! k = Some d0 -> gone d0 -> fate R gone m (delete k m).
Proof.
  intros HR Hk Hg id d Hd. destruct (decide (k = id)) as [->|Hne].
  - rewrite lookup_delete_eq. congruence.
  - rewrite lookup_delete_ne, Hd by done. apply HR.
Qed.

Lemma campaignKept_refl op c : campaignKept op c c.
Proof. split; [apply campaignStep_refl | done]. Qed.

Ltac campaign_kept :=
  unfold campaignKept, campaignStep;
  cbn [owner isApproved isClosed closedReason raised setRaised movesMoney
       CampaignService.assign CampaignService.approve CampaignService.close
       DonationService.credit DonationService.debit
       OrganizerService.closeForRevocation];
  intuition congruence.

Lemma exec_campaign_fate op flt s :
  fate (campaignKept op) (campaignGone op) (campaigns s) (campaigns (exec op flt s)).
Proof.
  destruct op; cbn [exec]; unfold_ops; crunch; collections; decide_hyps.
  all: first
         [ apply fate_refl; intros; apply campaignKept_refl
         | apply fate_insert_new; [intros; apply campaignKept_refl | assumption]
         | eapply fate_delete; [intros; apply campaignKept_refl | eassumption |];
           split; [reflexivity|]; by apply Qle_bool_iff
         | eapply fate_insert_old; [intros; apply campaignKept_refl | eassumption |];
           campaign_kept
         | apply fate_alter; [intros; apply campaignKept_refl|]; intros ?; campaign_kept
         | apply fate_fmap; intros c0;
           unfold OrganizerService.openCampaignOf;
           destruct (String.eqb _ _); cbn [andb]; [|apply campaignKept_refl];
           destruct (isClosed c0) eqn:E; cbn [negb]; [apply campaignKept_refl|];
           campaign_kept ].
Qed.

Lemma execAll_evolves {D} (coll : Store -> gmap string D) (R : D -> D -> Prop) :
  (forall d, R d d) -> (forall a b c, R a b -> R b c -> R a c) ->
  (forall op flt s, evolves R (coll s) (coll (exec op flt s))) ->
  forall trace s, evolves R (coll s) (coll (execAll trace s)).
Proof.
  intros Hrefl Htrans Hstep trace. induction trace as [|[op flt] rest IH]; intros s.
  - by apply evolves_refl.
  - cbn [execAll]. eapply evolves_trans; [exact Htrans | apply Hstep | apply IH].
Qed.

Lemma applicationStep_path a a' : applicationStep a a' -> applicationPath a a'.
Proof. intros [Hs [->|[Hp _]]]; (split; [exact Hs|]); [by left | by right]. Qed.

Lemma applicationPath_trans a b c :
  applicationPath a b -> applicationPath b c -> applicationPath a c.
Proof.
  intros [Hs1 H1] [Hs2 H2]. split.
  - unfold sameApplication in *. intuition congruence.
  - destruct H1 as [->|H1]; [exact H2 | by right].
Qed.

Lemma userStep_trans a b c : userStep a b -> userStep b c -> userStep a c.
Proof. unfold userStep. intuition congruence. Qed.

Lemma donationStep_trans a b c : donationStep a b -> donationStep b c -> donationStep a c.
Proof. unfold donationStep. intuition congruence. Qed.

Lemma execAll_users_dom trace : forall s id,
  users (execAll trace s) !! id = None <-> users s !! id = None.
Proof.
  induction trace as [|[op flt] rest IH]; intros s id; [done|].
  cbn [execAll]. rewrite IH. apply exec_users_dom.
Qed.

(** ** Life cycles along any history of requests *)

(** X2. A withdrawal request is never removed and its organizer, campaign,
    amount and payout details never change; its status only moves from
    pending to approved or rejected and from approved to paid, so a rejected
    or paid request is never changed again, whatever requests follow and
    whichever of them fail. *)
Theorem withdrawal_lifecycle trace s id w :
  withdrawals s !! id = Some w ->
  exists w', withdrawals (execAll trace s) !! id = Some w' /\ withdrawalPath w w'.
Proof.
  revert id w.
  apply (execAll_evolves withdrawals withdrawalPath).
  - intros d. apply withdrawalStep_path, withdrawalStep_refl.
  - apply withdrawalPath_trans.
  - intros op flt s0. eapply evolves_weaken; [apply withdrawalStep_path|].
    apply exec_withdrawalStep.
Qed.

Lemma withdrawal_lifecycle_witness :
  withdrawals (Sample.store D_COMPLETED W_PENDING) !! Sample.payout
  = Some (Sample.payoutDoc W_PENDING)
  /\ exists w',
       withdrawals
         (execAll [ (ApproveWithdrawal Sample.payout Sample.admin, []);
                    (RejectWithdrawal Sample.payout Sample.admin None, []);
                    (MarkAsPaid 9 Sample.payout Sample.admin None, []) ]
            (Sample.store D_COMPLETED W_PENDING)) !! Sample.payout = Some w'
       /\ withdrawalPath (Sample.payoutDoc W_PENDING) w'.
Proof.
  split; [reflexivity|]. by apply withdrawal_lifecycle.
Defined.

(** X3. An organizer application is never removed, its applicant and its texts
    never change, and once it has been approved or rejected it is never
    changed again: an approval is not undone by a revocation, and a rejected
    application is not reopened. *)
Theorem application_lifecycle trace s id a :
  applications s !! id = Some a ->
  exists a', applications (execAll trace s) !! id = Some a' /\ applicationPath a a'.
Proof.
  revert id a.
  apply (execAll_evolves applications applicationPath).
  - intros d. apply applicationStep_path, applicationStep_refl.
  - apply applicationPath_trans.
  - intros op flt s0. eapply evolves_weaken; [apply applicationStep_path|].
    apply exec_applicationStep.
Qed.

Lemma application_lifecycle_witness :
  applications (Sample.store D_COMPLETED W_PENDING) !! Sample.form = Some Sample.formDoc
  /\ exists a',
       applications
         (execAll [ (RejectApplication 3 Sample.form Sample.admin None, []);
                    (ApproveApplication 4 Sample.form Sample.admin, []) ]
            (Sample.store D_COMPLETED W_PENDING)) !! Sample.form = Some a'
       /\ applicationPath Sample.formDoc a'.
Proof.
  split; [reflexivity|]. by apply application_lifecycle.
Defined.

(** X4. No request creates or removes a user or changes a user's name or email;
    the role and the approval flag of a user change in one way only, to
    approved organizer. In particular a revocation leaves both as they
    are. *)
Theorem user_record_stable trace s id :
  (users (execAll trace s) !! id = None <-> users s !! id = None)
  /\ (forall u, users s !! id = Some u ->
                exists u', users (execAll trace s) !! id = Some u' /\ userStep u u').
Proof.
  split; [apply execAll_users_dom|]. revert id.
  apply (execAll_evolves users userStep).
  - apply userStep_refl.
  - apply userStep_trans.
  - apply exec_userStep.
Qed.

(** X5. A donation is never removed; its campaign, donor, donor email, amount,
    method, currency and network never change, and a payment detail that has
    been recorded is never erased: later requests only change the status and
    add or replace payment details. *)
Theorem donation_record_stable trace s id d :
  donations s !! id = Some d ->
  exists d', donations (execAll trace s) !! id = Some d' /\ donationStep d d'.
Proof.
  revert id d.
  apply (execAll_evolves donations donationStep).
  - apply donationStep_refl.
  - apply donationStep_trans.
  - apply exec_donationStep.
Qed.

Lemma donation_record_stable_witness :
  donations (Sample.store D_PENDING W_PENDING) !! Sample.gift = Some (Sample.giftDoc D_PENDING)
  /\ exists d',
       donations
         (execAll [ (UpdateDonationStatus Sample.gift D_COMPLETED None, []);
                    (UpdateDonationStatus Sample.gift D_FAILED None, [false; true]) ]
            (Sample.store D_PENDING W_PENDING)) !! Sample.gift = Some d'
       /\ donationStep (Sample.giftDoc D_PENDING) d'.
Proof.
  split; [reflexivity|]. by apply donation_record_stable.
Defined.

(** X6. One request, succeeding or failing, leaves every campaign with its
    owner; an approved campaign stays approved, a closed one stays closed
    with its reason; [raised] is only changed by [updateDonationStatus] and
    [markAsPaid]; and a campaign is only removed by [deleteCampaign], and
    then nothing was raised. *)
Theorem campaign_step op flt s id c :
  campaigns s !! id = Some c ->
  match campaigns (exec op flt s) !! id with
  | Some c' =>
      owner c' = owner c
      /\ (isApproved c = true -> isApproved c' = true)
      /\ (isClosed c = true -> isClosed c' = true /\ closedReason c' = closedReason c)
      /\ (movesMoney op = false -> raised c' = raised c)
  | None => isDelete op = true /\ (raised c <= 0)%Q
  end.
Proof.
  intros Hc. pose proof (exec_campaign_fate op flt s id c Hc) as H.
  destruct (campaigns (exec op flt s) !! id) as [c'|]; [|exact H].
  destruct H as [(Ho & Ha & Hcl) Hr]. auto.
Qed.

Lemma campaign_step_witness :
  campaigns Sample.closedStore !! Sample.well
  = Some (mkCampaign "Village well" None [] 1000 0 Sample.alice true true None)
  /\ campaigns (exec (DeleteCampaign Sample.well Sample.alice ORGANIZER) [] Sample.closedStore)
       !! Sample.well = None
  /\ isDelete (DeleteCampaign Sample.well Sample.alice ORGANIZER) = true.
Proof.
  split; [reflexivity|].
  pose proof (campaign_step (DeleteCampaign Sample.well Sample.alice ORGANIZER) []
                Sample.closedStore Sample.well _ eq_refl) as H.
  assert (campaigns (exec (DeleteCampaign Sample.well Sample.alice ORGANIZER) []
                       Sample.closedStore) !! Sample.well = None) as Hgone
    by (vm_compute; reflexivity).
  rewrite Hgone in H. split; [reflexivity | apply H].
Defined.

(** X7. At most one pending or approved withdrawal request per campaign: the
    property holds after any history of requests when it holds before. *)
Theorem one_outstanding_always trace s :
  oneOutstanding s -> oneOutstanding (execAll trace s).
Proof.
  revert s. induction trace as [|[op flt] rest IH]; intros s H; [done|].
  cbn [execAll]. by apply IH, exec_oneOutstanding.
Qed.

(** X8. At most one pending or approved organizer application per user: the
    property holds after any history of requests when it holds before. *)
Theorem one_live_application_always trace s :
  oneLiveApplication s -> oneLiveApplication (execAll trace s).
Proof.
  revert s. induction trace as [|[op flt] rest IH]; intros s H; [done|].
  cbn [execAll]. by apply IH, exec_oneLive.
Qed.

(** X9. The owner of every campaign is a user of the store after any history of
    requests when it is so before: no request removes a user or changes an
    owner, and [createCampaign] looks the owner up. *)
Theorem owners_always_exist trace s :
  ownersExist s -> ownersExist (execAll trace s).
Proof.
  revert s. induction trace as [|[op flt] rest IH]; intros s H; [done|].
  cbn [execAll]. by apply IH, exec_keeps_owners.
Qed.

Lemma failed_request_leaves_store_witness :
  ((attempt (ApproveWithdrawal Sample.payout Sample.admin) []
      (Sample.store D_COMPLETED W_PAID)).1
   = Some (Msg "Only pending requests can be approved")
   /\ exec (ApproveWithdrawal Sample.payout Sample.admin) []
        (Sample.store D_COMPLETED W_PAID)
      = Sample.store D_COMPLETED W_PAID)
  /\ (isApproved Sample.schoolDoc = false
      /\ attempt (ApproveCampaign Sample.school) [false; true]
           (Sample.store D_COMPLETED W_PENDING)
         = (Some StorageError,
            set_campaigns (insert Sample.school (CampaignService.approve Sample.schoolDoc))
              (Sample.store D_COMPLETED W_PENDING))).
Proof.
  split.
  - assert ((attempt (ApproveWithdrawal Sample.payout Sample.admin) []
               (Sample.store D_COMPLETED W_PAID)).1
            = Some (Msg "Only pending requests can be approved")) as H
      by (vm_compute; reflexivity).
    split; [exact H|].
    exact (proj1 (failed_request_leaves_store (Sample.store D_COMPLETED W_PAID)) _ _ _ H).
  - split; [reflexivity|].
    exact (proj1 (proj2 (failed_request_leaves_store (Sample.store D_COMPLETED W_PENDING))
                    Sample.school Sample.schoolDoc [] eq_refl eq_refl eq_refl)).
Defined.

Lemma oneOn_singleton {D} (key : D -> Id) (on : D -> bool) k (v : D) :
  oneOn key on (<[k := v]> ∅).
Proof.
  intros i j d1 d2 Hi Hj _ _ _.
  apply lookup_insert_Some in Hi as [[<- _]|[_ Hi]]; [|by rewrite lookup_empty in Hi].
  apply lookup_insert_Some in Hj as [[<- _]|[_ Hj]]; [|by rewrite lookup_empty in Hj].
  reflexivity.
Qed.

Lemma sample_oneOutstanding gs ps : oneOutstanding (Sample.store gs ps).
Proof. apply (oneOn_singleton wr_campaign WithdrawalService.outstanding). Qed.

Lemma sample_oneLive gs ps : oneLiveApplication (Sample.store gs ps).
Proof. apply (oneOn_singleton app_user live). Qed.

Lemma sample_owners gs ps : ownersExist (Sample.store gs ps).
Proof.
  intros id c Hc. cbn in Hc.
  apply lookup_insert_Some in Hc as [[_ <-]|[_ Hc]]; [by eexists|].
  apply lookup_insert_Some in Hc as [[_ <-]|[_ Hc]]; [by eexists|].
  by rewrite lookup_empty in Hc.
Qed.

Lemma one_outstanding_always_witness :
  oneOutstanding (Sample.store D_COMPLETED W_PENDING)
  /\ oneOutstanding (execAll Sample.scenario (Sample.store D_COMPLETED W_PENDING)).
Proof.
  split; [apply sample_oneOutstanding|].
  apply one_outstanding_always, sample_oneOutstanding.
Defined.

Lemma one_live_application_always_witness :
  oneLiveApplication (Sample.store D_COMPLETED W_PENDING)
  /\ oneLiveApplication
       (execAll [ (SubmitApplication Sample.payout2 Sample.bob
                     (OrganizerService.mkSubmitApplicationDTO "Helpers Inc"
                        "We help people in need daily" None None None None), []);
                  (RejectApplication 3 Sample.form Sample.admin None, []);
                  (SubmitApplication Sample.payout2 Sample.bob
                     (OrganizerService.mkSubmitApplicationDTO "Helpers Inc"
                        "We help people in need daily" None None None None), []) ]
          (Sample.store D_COMPLETED W_PENDING)).
Proof.
  split; [apply sample_oneLive|].
  apply one_live_application_always, sample_oneLive.
Defined.

Lemma owners_always_exist_witness :
  ownersExist (Sample.store D_COMPLETED W_PENDING)
  /\ ownersExist (execAll Sample.scenario (Sample.store D_COMPLETED W_PENDING)).
Proof.
  split; [apply sample_owners|].
  apply owners_always_exist, sample_owners.
Defined.

Lemma user_record_stable_witness :
  users (Sample.store D_COMPLETED W_PENDING) !! Sample.bob = Some Sample.bobDoc
  /\ exists u',
       users
         (execAll [ (ApproveApplication 4 Sample.form Sample.admin, []);
                    (RevokeOrganizer 7 Sample.bob Sample.admin "fraudulent campaign", []) ]
            (Sample.store D_COMPLETED W_PENDING)) !! Sample.bob = Some u'
       /\ userStep Sample.bobDoc u'.
Proof.
  split; [reflexivity|].
  apply (proj2 (user_record_stable _ (Sample.store D_COMPLETED W_PENDING) Sample.bob)).
  reflexivity.
Defined.

(** ** Submission of an organizer application *)

Lemma submitApplication_run newId userId data flt s :
  run (OrganizerService.submitApplication newId userId data) flt s =
  let name' := JS.trim (OrganizerService.dto_organizationName data) in
  let desc' := JS.trim (OrganizerService.dto_description data) in
  if negb (JS.truthy (OrganizerService.dto_organizationName data))
     || negb (JS.truthy (OrganizerService.dto_description data))
  then (Err (Msg "Organization name and description are required"), s)
  else if Nat.ltb (String.length name') 3
  then (Err (Msg "Organization name must be at least 3 characters"), s)
  else if Nat.ltb (String.length desc') 20
  then (Err (Msg "Description must be at least 20 characters"), s)
  else if negb (ObjectId_isValid userId) then (Err (Msg "Invalid user ID"), s)
  else if bool_decide
            (map_Exists (fun _ a => OrganizerService.isLive userId a = true)
               (applications s))
  then (Err (Msg "You already have a pending or approved application"), s)
  else if negb (Schema.maxLength 200 name')
  then (Err (SchemaValidation "organizationName"), s)
  else if negb (Schema.maxLength 2000 desc') then (Err (SchemaValidation "description"), s)
  else match applications s !! newId with
       | Some _ => (Err DuplicateKey, s)
       | None =>
           if faultWithin 1 flt then (Err StorageError, s)
           else (Ok (newApplication userId data),
                 set_applications (insert newId (newApplication userId data)) s)
       end.
Proof.
  unfold OrganizerService.submitApplication. unfold_js. cbv zeta.
  destruct (JS.truthy (OrganizerService.dto_organizationName data)); [|reflexivity].
  destruct (JS.truthy (OrganizerService.dto_description data)); [|reflexivity].
  destruct (Nat.ltb_spec (String.length (JS.trim (OrganizerService.dto_organizationName data))) 3)
    as [?|Hn]; [reflexivity|].
  destruct (Nat.ltb_spec (String.length (JS.trim (OrganizerService.dto_description data))) 20)
    as [?|Hd]; [reflexivity|].
  destruct (ObjectId_isValid userId); [|reflexivity].
  destruct (bool_decide _); [reflexivity|].
  unfold Schema.Application_new.
  cbn [organizationName app_description firstError].
  assert (JS.truthy (JS.trim (OrganizerService.dto_organizationName data)) = true) as ->.
  { destruct (JS.trim (OrganizerService.dto_organizationName data)); [cbn in Hn; lia | done]. }
  assert (JS.truthy (JS.trim (OrganizerService.dto_description data)) = true) as ->.
  { destruct (JS.trim (OrganizerService.dto_description data)); [cbn in Hd; lia | done]. }
  destruct (Schema.maxLength 200 _); [|reflexivity].
  destruct (Schema.maxLength 2000 _); [|reflexivity].
  unfold_js.
  destruct (applications s !! newId); [reflexivity|].
  step_storage idtac; reflexivity.
Qed.

(** X10. [submitApplication] succeeds only for a name of at least 3 and a
    description of at least 20 characters after trimming, and only when the
    user has no pending or approved application; it then stores a pending
    application with the trimmed texts and leaves the user as it is (no role
    changes before approval). When a pending or approved application
    exists and the checks before that one pass, the error is the conflict
    message. An error leaves the store as it was. *)
Theorem submitApplication_guarded newId userId data flt s :
  let name' := JS.trim (OrganizerService.dto_organizationName data) in
  let desc' := JS.trim (OrganizerService.dto_description data) in
  match run (OrganizerService.submitApplication newId userId data) flt s with
  | (Ok a, s') =>
      3 <= String.length name' /\ 20 <= String.length desc'
      /\ noneLiveFor userId s
      /\ app_user a = userId /\ app_status a = A_PENDING
      /\ organizationName a = name' /\ app_description a = desc'
      /\ app_reviewedBy a = None /\ rejectionReason a = None
      /\ applications s !! newId = None
      /\ applications s' = <[newId := a]> (applications s)
      /\ users s' = users s /\ campaigns s' = campaigns s
      /\ donations s' = donations s /\ withdrawals s' = withdrawals s
  | (Err e, s') =>
      s' = s
      /\ (3 <= String.length name' -> 20 <= String.length desc' ->
          ObjectId_isValid userId = true ->
          (~ noneLiveFor userId s ->
           e = Msg "You already have a pending or approved application")
          /\ (noneLiveFor userId s ->
              String.length name' <= 200 -> String.length desc' <= 2000 ->
              applications s !! newId = None ->
              faultWithin 1 flt = true))
  end.
Proof.
  intros name' desc'. rewrite submitApplication_run. cbv zeta. fold name' desc'.
  destruct (JS.truthy (OrganizerService.dto_organizationName data)) eqn:Hn0; cbn [negb orb].
  2:{ split; [done|]. intros Hn. apply trim_nonempty in Hn. congruence. }
  destruct (JS.truthy (OrganizerService.dto_description data)) eqn:Hd0; cbn [negb orb].
  2:{ split; [done|]. intros _ Hd. apply trim_nonempty in Hd. congruence. }
  destruct (Nat.ltb_spec (String.length name') 3) as [?|Hn].
  { split; [done|]. intros; lia. }
  destruct (Nat.ltb_spec (String.length desc') 20) as [?|Hd].
  { split; [done|]. intros; lia. }
  destruct (ObjectId_isValid userId); cbn [negb].
  2:{ split; [done|]. intros; done. }
  destruct (bool_decide (map_Exists _ _)) eqn:Hex.
  { split; [done|]. intros _ _ _. split; [done|].
    intros Hnone. apply noneLive_iff in Hnone. congruence. }
  apply noneLive_iff in Hex.
  unfold Schema.maxLength.
  destruct (Nat.leb_spec (String.length name') 200) as [?|?]; cbn [negb].
  2:{ split; [done|]. intros _ _ _. split; [done|]. intros; lia. }
  destruct (Nat.leb_spec (String.length desc') 2000) as [?|?]; cbn [negb].
  2:{ split; [done|]. intros _ _ _. split; [done|]. intros; lia. }
  destruct (applications s !! newId) eqn:Hfresh.
  { split; [done|]. intros _ _ _. split; [done|]. intros; done. }
  destruct (faultWithin 1 flt).
  { split; [done|]. intros _ _ _. split; [done|]. intros; done. }
  repeat split; done.
Qed.

(** ** Run equations of the remaining operations *)

Lemma rejectApplication_run now applicationId adminId why flt s a :
  applications s !! applicationId = Some a ->
  ObjectId_isValid applicationId = true ->
  ObjectId_isValid adminId = true ->
  run (OrganizerService.rejectApplication now applicationId adminId why) flt s =
  let a' :=
    OrganizerService.markRejected now adminId
      (JS.orElse (JS.optTrim why) "Application rejected by admin") a in
  if negb (bool_decide (app_status a = A_PENDING))
  then (Err (Msg "Only pending applications can be rejected"), s)
  else if faultWithin 1 flt then (Err StorageError, s)
  else (Ok a', set_applications (insert applicationId a') s).
Proof.
  intros Ha Hv1 Hv2. unfold OrganizerService.rejectApplication. unfold_js.
  rewrite Hv1, Hv2, Ha.
  destruct (bool_decide (app_status a = A_PENDING)); [|reflexivity].
  step_storage idtac; reflexivity.
Qed.

Lemma approveWithdrawal_run withdrawalId adminId flt s w :
  withdrawals s !! withdrawalId = Some w ->
  ObjectId_isValid withdrawalId = true ->
  ObjectId_isValid adminId = true ->
  run (WithdrawalService.approveWithdrawal withdrawalId adminId) flt s =
  let w' := WithdrawalService.review W_APPROVED adminId (adminMessage w) w in
  if negb (bool_decide (wr_status w = W_PENDING))
  then (Err (Msg "Only pending requests can be approved"), s)
  else if faultWithin 1 flt then (Err StorageError, s)
  else (Ok w', set_withdrawals (insert withdrawalId w') s).
Proof.
  intros Hw Hv1 Hv2. unfold WithdrawalService.approveWithdrawal. unfold_js.
  rewrite Hv1, Hv2, Hw.
  destruct (bool_decide (wr_status w = W_PENDING)); [|reflexivity].
  step_storage idtac; reflexivity.
Qed.

Lemma rejectWithdrawal_run withdrawalId adminId message flt s w :
  withdrawals s !! withdrawalId = Some w ->
  ObjectId_isValid withdrawalId = true ->
  ObjectId_isValid adminId = true ->
  run (WithdrawalService.rejectWithdrawal withdrawalId adminId message) flt s =
  let w' :=
    WithdrawalService.review W_REJECTED adminId
      (Some (JS.orElse (JS.optTrim message) "Withdrawal request rejected")) w in
  if negb (bool_decide (wr_status w = W_PENDING))
  then (Err (Msg "Only pending requests can be rejected"), s)
  else if faultWithin 1 flt then (Err StorageError, s)
  else (Ok w', set_withdrawals (insert withdrawalId w') s).
Proof.
  intros Hw Hv1 Hv2. unfold WithdrawalService.rejectWithdrawal. unfold_js.
  rewrite Hv1, Hv2, Hw.
  destruct (bool_decide (wr_status w = W_PENDING)); [|reflexivity].
  step_storage idtac; reflexivity.
Qed.

(** The owner-or-admin test of [verifyCampaignOwnership]. *)
Lemma closeCampaign_run campaignId userId userRole flt s c :
  campaigns s !! campaignId = Some c ->
  ObjectId_isValid campaignId = true ->
  run (CampaignService.closeCampaign campaignId userId userRole) flt s =
  if CampaignService.notAdmin (Some userRole) && negb (String.eqb (owner c) userId)
  then (Err (Msg "You don't have permission to perform this action"), s)
  else if isClosed c then (Err (Msg "Campaign is already closed"), s)
  else if faultWithin 1 flt then (Err StorageError, s)
  else (Ok (CampaignService.close c),
        set_campaigns (insert campaignId (CampaignService.close c)) s).
Proof.
  intros Hc Hv. unfold CampaignService.closeCampaign, CampaignService.verifyCampaignOwnership.
  unfold_js. rewrite Hv, Hc.
  destruct (CampaignService.notAdmin (Some userRole)); cbn [andb].
  - destruct (String.eqb (owner c) userId); cbn [negb]; [|reflexivity].
    destruct (isClosed c); [reflexivity|]. step_storage idtac; reflexivity.
  - destruct (isClosed c); [reflexivity|]. step_storage idtac; reflexivity.
Qed.

Lemma deleteCampaign_run campaignId userId userRole flt s c :
  campaigns s !! campaignId = Some c ->
  ObjectId_isValid campaignId = true ->
  run (CampaignService.deleteCampaign campaignId userId userRole) flt s =
  if CampaignService.notAdmin (Some userRole) && negb (String.eqb (owner c) userId)
  then (Err (Msg "You don't have permission to perform this action"), s)
  else if negb (Qle_bool (raised c) 0)
  then (Err (Msg "Cannot delete campaign with existing donations"), s)
  else if faultWithin 1 flt then (Err StorageError, s)
  else (Ok "Campaign deleted successfully", set_campaigns (delete campaignId) s).
Proof.
  intros Hc Hv. unfold CampaignService.deleteCampaign, CampaignService.verifyCampaignOwnership.
  unfold_js. rewrite Hv, Hc.
  destruct (CampaignService.notAdmin (Some userRole)); cbn [andb].
  - destruct (String.eqb (owner c) userId); cbn [negb]; [|reflexivity].
    destruct (Qle_bool (raised c) 0); [|reflexivity]. step_storage idtac; reflexivity.
  - destruct (Qle_bool (raised c) 0); [|reflexivity]. step_storage idtac; reflexivity.
Qed.


Lemma mayManage_iff userId userRole c :
  CampaignService.notAdmin (Some userRole) && negb (String.eqb (owner c) userId) = false
  <-> mayManage userId userRole c.
Proof.
  unfold CampaignService.notAdmin, mayManage.
  destruct (String.eqb_spec (owner c) userId); case_bool_decide; cbn; split;
    try done; try (intros; by right); try (intros; left; congruence).
  intros [?|?]; congruence.
Qed.

Lemma createCampaign_run newId organizerId data flt s :
  run (CampaignService.createCampaign newId organizerId data) flt s =
  if negb (JS.truthy (CampaignService.cc_title data))
     || Qeq_bool (CampaignService.cc_target data) 0
  then (Err (Msg "Title and target amount are required"), s)
  else if Qle_bool (CampaignService.cc_target data) 0
  then (Err (Msg "Target amount must be greater than 0"), s)
  else if match users s !! organizerId with
          | None => true
          | Some u => negb (bool_decide (role u = ORGANIZER)) || negb (isOrganizerApproved u)
          end
  then (Err (Msg "Only approved organizers can create campaigns"), s)
  else match Schema.Campaign_new (newCampaign organizerId data) with
       | Some e => (Err e, s)
       | None =>
           match campaigns s !! newId with
           | Some _ => (Err DuplicateKey, s)
           | None =>
               if faultWithin 1 flt then (Err StorageError, s)
               else (Ok (newCampaign organizerId data),
                     set_campaigns (insert newId (newCampaign organizerId data)) s)
           end
       end.
Proof.
  unfold CampaignService.createCampaign, newCampaign. unfold_js.
  destruct (JS.truthy (CampaignService.cc_title data)); [|reflexivity].
  destruct (Qeq_bool (CampaignService.cc_target data) 0); [reflexivity|].
  destruct (Qle_bool (CampaignService.cc_target data) 0); [reflexivity|].
  destruct (users s !! organizerId) as [u|]; [|reflexivity].
  destruct (bool_decide (role u = ORGANIZER)); [|reflexivity].
  destruct (isOrganizerApproved u); [|reflexivity].
  destruct (Schema.Campaign_new _); [reflexivity|].
  unfold_js. destruct (campaigns s !! newId); [reflexivity|].
  step_storage idtac; reflexivity.
Qed.


Lemma orElse_truthy o dflt : JS.truthy dflt = true -> JS.truthy (JS.orElse o dflt) = true.
Proof. intros Hd. unfold JS.orElse. destruct o as [t|]; [|done]. by destruct (JS.truthy t) eqn:E. Qed.

Lemma faultWithin_nil n : faultWithin n [] = false.
Proof. unfold faultWithin. by rewrite take_nil. Qed.

(** ** Rejection of an organizer application *)

(** X11. [rejectApplication] acts on pending applications only. The rejected
    application records the admin, the time and a reason that is never
    empty: the trimmed reason given, or "Application rejected by admin" when
    none is given or it is blank. The applicant is not touched, so the role
    stays what it was. Any failure leaves the store as it was. *)
Theorem rejectApplication_records_reason now applicationId adminId why flt s a :
  applications s !! applicationId = Some a ->
  ObjectId_isValid applicationId = true ->
  ObjectId_isValid adminId = true ->
  match run (OrganizerService.rejectApplication now applicationId adminId why) flt s with
  | (Ok a', s') =>
      app_status a = A_PENDING
      /\ app_status a' = A_REJECTED
      /\ app_reviewedBy a' = Some adminId /\ reviewedAt a' = Some now
      /\ (exists r, rejectionReason a' = Some r /\ JS.truthy r = true
                    /\ (forall t, why = Some t -> JS.truthy (JS.trim t) = true ->
                                  r = JS.trim t)
                    /\ (why = None -> r = "Application rejected by admin")
                    /\ (forall t, why = Some t -> JS.truthy (JS.trim t) = false ->
                                  r = "Application rejected by admin"))
      /\ sameApplication a a'
      /\ applications s' = <[applicationId := a']> (applications s)
      /\ users s' = users s /\ campaigns s' = campaigns s
      /\ donations s' = donations s /\ withdrawals s' = withdrawals s
  | (Err e, s') =>
      s' = s
      /\ (app_status a <> A_PENDING -> e = Msg "Only pending applications can be rejected")
      /\ (app_status a = A_PENDING -> faultWithin 1 flt = true)
  end.
Proof.
  intros Ha Hv1 Hv2. rewrite (rejectApplication_run _ _ _ _ _ _ a) by done. cbv zeta.
  case_bool_decide as Hp; cbn [negb]; [|done].
  destruct (faultWithin 1 flt); [done|].
  repeat split; try done.
  eexists. split; [reflexivity|]. split; [by apply orElse_truthy|].
  split; [|split].
  - intros t -> Ht. cbn. by rewrite Ht.
  - by intros ->.
  - intros t -> Ht. cbn. by rewrite Ht.
Qed.

Lemma rejectApplication_records_reason_witness :
  applications (Sample.store D_COMPLETED W_PENDING) !! Sample.form = Some Sample.formDoc
  /\ ObjectId_isValid Sample.form = true
  /\ ObjectId_isValid Sample.admin = true
  /\ match run (OrganizerService.rejectApplication 3 Sample.form Sample.admin (Some "   "))
             [] (Sample.store D_COMPLETED W_PENDING) with
     | (Ok a', _) => rejectionReason a' = Some "Application rejected by admin"
     | (Err _, _) => False
     end.
Proof.
  pose proof (rejectApplication_records_reason 3 Sample.form Sample.admin (Some "   ") []
                (Sample.store D_COMPLETED W_PENDING) Sample.formDoc
                eq_refl eq_refl eq_refl) as H.
  split; [reflexivity|]. split; [reflexivity|]. split; [reflexivity|].
  destruct (run _ _ _) as [[a'|e] s'].
  - destruct H as (_ & _ & _ & _ & (r & Hr & _ & _ & _ & Hblank) & _).
    rewrite Hr. f_equal. by apply (Hblank "   ").
  - destruct H as (_ & _ & Hf). discriminate (Hf eq_refl).
Defined.

(** ** Applying again *)

(** X12. While an application is pending, and after it has been approved, a new
    application of the same user is refused with the conflict error; after
    it has been rejected the user can apply again. Here the user has no
    other pending or approved application and the new texts have valid
    lengths. *)
Theorem reapply_after_decision now applicationId adminId why newId data s a :
  applications s !! applicationId = Some a ->
  app_status a = A_PENDING ->
  ObjectId_isValid applicationId = true ->
  ObjectId_isValid adminId = true ->
  ObjectId_isValid (app_user a) = true ->
  oneLiveApplication s ->
  3 <= String.length (JS.trim (OrganizerService.dto_organizationName data)) <= 200 ->
  20 <= String.length (JS.trim (OrganizerService.dto_description data)) <= 2000 ->
  applications s !! newId = None ->
  let again := OrganizerService.submitApplication newId (app_user a) data in
  let conflict := Err (Msg "You already have a pending or approved application") in
  (run again [] s).1 = conflict
  /\ (run again [] (exec (ApproveApplication now applicationId adminId) [] s)).1 = conflict
  /\ (run again [] (exec (RejectApplication now applicationId adminId why) [] s)).1
     = Ok (newApplication (app_user a) data).
Proof.
  intros Ha Hp Hv1 Hv2 Hv3 Hone [Hn1 Hn2] [Hd1 Hd2] Hfresh again conflict.
  assert (live a = true) as Hlive by (unfold live; by rewrite Hp).
  assert (forall s0,
            (exists a0, applications s0 !! applicationId = Some a0
                        /\ app_user a0 = app_user a /\ live a0 = true) ->
            (run again [] s0).1 = conflict) as Hconflict.
  { intros s0 (a0 & Ha0 & Hu0 & Hl0). unfold again. rewrite submitApplication_run. cbv zeta.
    rewrite (trim_nonempty _ 2) by lia. rewrite (trim_nonempty _ 19) by lia.
    cbn [negb orb].
    destruct (Nat.ltb_spec (String.length (JS.trim (OrganizerService.dto_organizationName data))) 3);
      [lia|].
    destruct (Nat.ltb_spec (String.length (JS.trim (OrganizerService.dto_description data))) 20);
      [lia|].
    rewrite Hv3. cbn [negb].
    destruct (bool_decide (map_Exists _ _)) eqn:Hex; [done|].
    apply noneLive_iff in Hex. specialize (Hex applicationId a0 Ha0 Hu0). congruence. }
  split; [|split].
  - apply Hconflict. eauto.
  - apply Hconflict. cbn [exec].
    rewrite (approveApplication_run _ _ _ _ _ a) by done.
    rewrite Hp, bool_decide_eq_true_2 by done. cbn [negb]. rewrite faultWithin_nil.
    cbn [snd applications set_users set_applications]. rewrite lookup_insert_eq.
    eexists. split; [reflexivity|]. split; [reflexivity|]. reflexivity.
  - cbn [exec]. rewrite (rejectApplication_run _ _ _ _ _ _ a) by done. cbv zeta.
    rewrite Hp, bool_decide_eq_true_2 by done. cbn [negb]. rewrite faultWithin_nil.
    cbn [snd]. unfold again. rewrite submitApplication_run. cbv zeta.
    rewrite (trim_nonempty _ 2) by lia. rewrite (trim_nonempty _ 19) by lia.
    cbn [negb orb].
    destruct (Nat.ltb_spec (String.length (JS.trim (OrganizerService.dto_organizationName data))) 3);
      [lia|].
    destruct (Nat.ltb_spec (String.length (JS.trim (OrganizerService.dto_description data))) 20);
      [lia|].
    rewrite Hv3. cbn [negb].
    destruct (bool_decide (map_Exists _ _)) eqn:Hex.
    { exfalso. apply bool_decide_eq_true in Hex. destruct Hex as (i & a0 & Hi & Hl).
      cbn [applications set_applications] in Hi.
      unfold OrganizerService.isLive in Hl. apply andb_true_iff in Hl as [Hu Hl].
      apply String.eqb_eq in Hu.
      destruct (decide (applicationId = i)) as [<-|Hne].
      - rewrite lookup_insert_eq in Hi. injection Hi as <-. cbn in Hl. done.
      - rewrite lookup_insert_ne in Hi by done.
        apply Hne. apply (Hone applicationId i a a0); auto. }
    unfold Schema.maxLength.
    destruct (Nat.leb_spec (String.length (JS.trim (OrganizerService.dto_organizationName data))) 200);
      [|lia].
    destruct (Nat.leb_spec (String.length (JS.trim (OrganizerService.dto_description data))) 2000);
      [|lia].
    cbn [negb applications set_applications].
    rewrite lookup_insert_ne by congruence. rewrite Hfresh, faultWithin_nil. reflexivity.
Qed.

Lemma reapply_after_decision_witness :
  let s := Sample.store D_COMPLETED W_PENDING in
  let data :=
    OrganizerService.mkSubmitApplicationDTO "Helpers Inc" "We help people in need daily"
      None None None None in
  let again := OrganizerService.submitApplication Sample.payout2 Sample.bob data in
  applications s !! Sample.form = Some Sample.formDoc
  /\ oneLiveApplication s
  /\ (run again [] s).1 = Err (Msg "You already have a pending or approved application")
  /\ (run again [] (exec (ApproveApplication 4 Sample.form Sample.admin) [] s)).1
     = Err (Msg "You already have a pending or approved application")
  /\ (run again [] (exec (RejectApplication 4 Sample.form Sample.admin None) [] s)).1
     = Ok (newApplication Sample.bob data).
Proof.
  intros s data again.
  split; [reflexivity|]. split; [apply sample_oneLive|].
  apply (reapply_after_decision 4 Sample.form Sample.admin None Sample.payout2 data s
           Sample.formDoc);
    first [ reflexivity | apply sample_oneLive | vm_compute; lia ].
Defined.

(** ** Creation and update of a campaign *)

(** X13. [createCampaign] succeeds only for a user of the store who is an
    organizer with [isOrganizerApproved], and only for a positive target;
    the campaign it stores is unapproved, open, with nothing raised, owned by
    the caller, and its title is the trimmed title, not empty and at most
    150 characters. Nothing else is written, and a failure leaves the store
    as it was. With a user, a title and a target that pass these tests, a
    description within the schema's 2000 characters and a fresh id, it fails
    only when the store does. *)
Theorem createCampaign_guarded newId organizerId data flt s :
  match run (CampaignService.createCampaign newId organizerId data) flt s with
  | (Ok c, s') =>
      (exists u, users s !! organizerId = Some u
                 /\ role u = ORGANIZER /\ isOrganizerApproved u = true)
      /\ (0 < CampaignService.cc_target data)%Q
      /\ c = newCampaign organizerId data
      /\ isApproved c = false /\ isClosed c = false /\ raised c = 0%Q
      /\ owner c = organizerId
      /\ 1 <= String.length (title c) <= 150
      /\ campaigns s !! newId = None
      /\ campaigns s' = <[newId := c]> (campaigns s)
      /\ users s' = users s /\ applications s' = applications s
      /\ donations s' = donations s /\ withdrawals s' = withdrawals s
  | (Err e, s') =>
      s' = s
      /\ ((exists u, users s !! organizerId = Some u
                     /\ role u = ORGANIZER /\ isOrganizerApproved u = true) ->
          (0 < CampaignService.cc_target data)%Q ->
          1 <= String.length (JS.trim (CampaignService.cc_title data)) <= 150 ->
          Schema.optMaxLength 2000 (JS.optTrim (CampaignService.cc_description data)) = true ->
          campaigns s !! newId = None ->
          faultWithin 1 flt = true)
  end.
Proof.
  rewrite createCampaign_run.
  destruct (JS.truthy (CampaignService.cc_title data)) eqn:Ht; cbn [negb orb].
  2:{ split; [done|]. intros _ _ [Hlen _]. apply trim_nonempty in Hlen. congruence. }
  destruct (Qeq_bool (CampaignService.cc_target data) 0) eqn:Hz.
  { split; [done|]. intros _ Hpos. apply Qeq_bool_iff in Hz. rewrite Hz in Hpos.
    by apply Qlt_irrefl in Hpos. }
  destruct (Qle_bool (CampaignService.cc_target data) 0) eqn:Hle.
  { split; [done|]. intros _ Hpos. apply Qle_bool_iff in Hle. lra. }
  assert (0 < CampaignService.cc_target data)%Q as Hpos.
  { apply Qnot_le_lt. intros H. apply Qle_bool_iff in H. congruence. }
  destruct (users s !! organizerId) as [u|] eqn:Hu.
  2:{ split; [done|]. by intros (u & ? & _). }
  case_bool_decide as Hr; cbn [negb orb].
  2:{ split; [done|]. intros (u0 & [= <-] & ? & _). done. }
  destruct (isOrganizerApproved u) eqn:Hap; cbn [negb].
  2:{ split; [done|]. intros (u0 & [= <-] & _ & ?). congruence. }
  unfold Schema.Campaign_new, Schema.Campaign_title, Schema.Campaign_description,
    Schema.Campaign_target, Schema.Campaign_raised.
  cbn [app firstError newCampaign title description target raised].
  destruct (JS.truthy (JS.trim (CampaignService.cc_title data))) eqn:Htt.
  2:{ split; [done|]. intros _ _ [Hlen _].
      destruct (JS.trim (CampaignService.cc_title data)); [cbn in Hlen; lia | done]. }
  unfold Schema.maxLength at 1.
  destruct (Nat.leb_spec (String.length (JS.trim (CampaignService.cc_title data))) 150)
    as [Hmax|Hmax].
  2:{ split; [done|]. intros _ _ [_ Hlen]. lia. }
  destruct (Schema.optMaxLength 2000 (JS.optTrim (CampaignService.cc_description data)))
    eqn:Hdesc.
  2:{ split; [done|]. intros; done. }
  assert (Qle_bool 0 (CampaignService.cc_target data) = true) as ->
    by (apply Qle_bool_iff; lra).
  assert (Qle_bool 0 0 = true) as -> by reflexivity.
  destruct (campaigns s !! newId) eqn:Hfresh.
  { split; [done|]. intros; done. }
  destruct (faultWithin 1 flt).
  { split; [done|]. intros; done. }
  repeat split; try done; eauto.
  cbn. destruct (JS.trim (CampaignService.cc_title data)); [done | cbn; lia].
Qed.



(** ** Approval, closure and removal of a campaign *)

Lemma approve_twice c : CampaignService.approve (CampaignService.approve c)
                        = CampaignService.approve c.
Proof. reflexivity. Qed.

(** X15. [approveCampaign] has no test on the state of the campaign: for any
    campaign of the store, also a closed or an already approved one, it
    succeeds unless the store fails, and sets [isApproved] and nothing
    else. Approving again changes nothing: the store after a second
    approval, failed or not, is the store after the first. *)
Theorem approveCampaign_idempotent campaignId flt s c :
  campaigns s !! campaignId = Some c ->
  ObjectId_isValid campaignId = true ->
  let once := run (CampaignService.approveCampaign campaignId) [] s in
  once = (Ok (CampaignService.approve c),
          set_campaigns (insert campaignId (CampaignService.approve c)) s)
  /\ isClosed (CampaignService.approve c) = isClosed c
  /\ raised (CampaignService.approve c) = raised c
  /\ owner (CampaignService.approve c) = owner c
  /\ exec (ApproveCampaign campaignId) flt once.2 = once.2.
Proof.
  intros Hc Hv once. unfold once.
  rewrite approveCampaign_run, faultWithin_nil, Hc by done.
  split; [reflexivity|]. split; [reflexivity|]. split; [reflexivity|]. split; [reflexivity|].
  cbn [exec snd]. rewrite approveCampaign_run by done.
  destruct (faultWithin 1 flt); [reflexivity|].
  cbn [campaigns set_campaigns]. rewrite lookup_insert_eq. cbn [snd].
  destruct s as [us aps cs ds ws]. unfold set_campaigns. cbn. f_equal.
  by rewrite insert_insert_eq.
Qed.

Lemma approveCampaign_idempotent_witness :
  campaigns Sample.closedStore !! Sample.well
  = Some (mkCampaign "Village well" None [] 1000 0 Sample.alice true true None)
  /\ ObjectId_isValid Sample.well = true
  /\ exec (ApproveCampaign Sample.well) [true]
       (run (CampaignService.approveCampaign Sample.well) [] Sample.closedStore).2
     = (run (CampaignService.approveCampaign Sample.well) [] Sample.closedStore).2.
Proof.
  split; [reflexivity|]. split; [reflexivity|].
  apply (approveCampaign_idempotent Sample.well [true] Sample.closedStore _ eq_refl eq_refl).
Defined.

(** X16. [closeCampaign] closes an open campaign for an admin or its owner,
    leaving [closedReason], [raised] and the approval as they are; after
    that every further [closeCampaign] on it fails with "Campaign is
    already closed" and changes nothing, so a closed campaign is never
    closed twice and nothing reopens it. *)
Theorem closeCampaign_once campaignId userId userRole s c :
  campaigns s !! campaignId = Some c ->
  ObjectId_isValid campaignId = true ->
  mayManage userId userRole c ->
  isClosed c = false ->
  let once := run (CampaignService.closeCampaign campaignId userId userRole) [] s in
  once = (Ok (CampaignService.close c),
          set_campaigns (insert campaignId (CampaignService.close c)) s)
  /\ closedReason (CampaignService.close c) = closedReason c
  /\ raised (CampaignService.close c) = raised c
  /\ isApproved (CampaignService.close c) = isApproved c
  /\ (forall userId' userRole' flt,
        mayManage userId' userRole' c ->
        run (CampaignService.closeCampaign campaignId userId' userRole') flt once.2
        = (Err (Msg "Campaign is already closed"), once.2)).
Proof.
  intros Hc Hv Hm Hopen once. unfold once.
  rewrite (closeCampaign_run _ _ _ _ _ c) by done.
  apply mayManage_iff in Hm. rewrite Hm, Hopen, faultWithin_nil.
  split; [reflexivity|]. split; [reflexivity|]. split; [reflexivity|]. split; [reflexivity|].
  intros userId' userRole' flt Hm'. cbn [snd].
  rewrite (closeCampaign_run _ _ _ _ _ (CampaignService.close c)); [|by apply lookup_insert_eq|done].
  change (owner (CampaignService.close c)) with (owner c).
  apply mayManage_iff in Hm'. by rewrite Hm'.
Qed.

Lemma closeCampaign_once_witness :
  campaigns (Sample.store D_COMPLETED W_PENDING) !! Sample.well = Some Sample.wellDoc
  /\ mayManage Sample.alice ORGANIZER Sample.wellDoc
  /\ isClosed Sample.wellDoc = false
  /\ run (CampaignService.closeCampaign Sample.well Sample.admin ADMIN) []
       (run (CampaignService.closeCampaign Sample.well Sample.alice ORGANIZER) []
          (Sample.store D_COMPLETED W_PENDING)).2
     = (Err (Msg "Campaign is already closed"),
        (run (CampaignService.closeCampaign Sample.well Sample.alice ORGANIZER) []
           (Sample.store D_COMPLETED W_PENDING)).2).
Proof.
  assert (mayManage Sample.alice ORGANIZER Sample.wellDoc) as Hm by (by right).
  split; [reflexivity|]. split; [exact Hm|]. split; [reflexivity|].
  apply (closeCampaign_once Sample.well Sample.alice ORGANIZER
           (Sample.store D_COMPLETED W_PENDING) Sample.wellDoc eq_refl eq_refl Hm eq_refl).
  by left.
Defined.

(** X17. [deleteCampaign] looks at [raised] only. With [raised] above 0 it fails
    with "Cannot delete campaign with existing donations" and changes
    nothing. With nothing raised it removes the campaign and leaves its
    donations and withdrawal requests in the store; a donation of the
    removed campaign that was not completed can then still be completed,
    and its amount is credited to no campaign. *)
Theorem deleteCampaign_leaves_donations campaignId userId userRole donationId details s c d :
  campaigns s !! campaignId = Some c ->
  ObjectId_isValid campaignId = true ->
  mayManage userId userRole c ->
  donations s !! donationId = Some d ->
  ObjectId_isValid donationId = true ->
  don_campaign d = campaignId ->
  don_status d <> D_COMPLETED ->
  let removed := run (CampaignService.deleteCampaign campaignId userId userRole) [] s in
  ((0 < raised c)%Q ->
   removed = (Err (Msg "Cannot delete campaign with existing donations"), s))
  /\ ((raised c <= 0)%Q ->
      removed.1 = Ok "Campaign deleted successfully"
      /\ campaigns removed.2 = delete campaignId (campaigns s)
      /\ donations removed.2 = donations s
      /\ withdrawals removed.2 = withdrawals s
      /\ match run (DonationService.updateDonationStatus donationId D_COMPLETED details) []
                 removed.2 with
         | (Ok d', s') =>
             don_status d' = D_COMPLETED /\ amount d' = amount d
             /\ donations s' !! donationId = Some d'
             /\ campaigns s' = campaigns removed.2
         | (Err _, _) => False
         end).
Proof.
  intros Hc Hv Hm Hd Hvd Hdc Hnot removed. unfold removed.
  rewrite (deleteCampaign_run _ _ _ _ _ c) by done.
  apply mayManage_iff in Hm. rewrite Hm, faultWithin_nil. split.
  - intros Hpos. destruct (Qle_bool (raised c) 0) eqn:Hle; [|reflexivity].
    apply Qle_bool_iff in Hle. lra.
  - intros Hle. apply Qle_bool_iff in Hle. rewrite Hle. cbn [negb fst snd].
    split; [reflexivity|]. split; [reflexivity|]. split; [reflexivity|].
    split; [reflexivity|].
    rewrite updateDonationStatus_run, Hvd. cbn [negb donations set_campaigns].
    rewrite Hd. cbv zeta.
    rewrite bool_decide_eq_true_2 by done.
    rewrite (bool_decide_eq_false_2 (don_status d = D_COMPLETED)) by done.
    cbn [negb andb]. rewrite faultWithin_nil.
    destruct (applyStatus_facts D_COMPLETED details d) as (Hs & Ha & _).
    split; [exact Hs|]. split; [exact Ha|].
    cbn [donations campaigns set_campaigns set_donations].
    split; [apply lookup_insert_eq|].
    apply alter_id. intros c0 Hc0. rewrite Hdc, lookup_delete_eq in Hc0. done.
Qed.

Lemma deleteCampaign_leaves_donations_witness :
  let removed :=
    run (CampaignService.deleteCampaign Sample.well Sample.alice ORGANIZER) []
      Sample.closedStore in
  campaigns Sample.closedStore !! Sample.well
  = Some (mkCampaign "Village well" None [] 1000 0 Sample.alice true true None)
  /\ donations Sample.closedStore !! Sample.gift = Some (Sample.giftDoc D_PENDING)
  /\ removed.1 = Ok "Campaign deleted successfully"
  /\ match run (DonationService.updateDonationStatus Sample.gift D_COMPLETED None) []
             removed.2 with
     | (Ok d', s') => don_status d' = D_COMPLETED /\ campaigns s' = campaigns removed.2
     | (Err _, _) => False
     end.
Proof.
  intros removed.
  assert (mayManage Sample.alice ORGANIZER
            (mkCampaign "Village well" None [] 1000 0 Sample.alice true true None)) as Hm
    by (by right).
  assert (don_status (Sample.giftDoc D_PENDING) <> D_COMPLETED) as Hn by done.
  assert (raised (mkCampaign "Village well" None [] 1000 0 Sample.alice true true None) <= 0)%Q
    as Hz by apply Qle_refl.
  pose proof (deleteCampaign_leaves_donations Sample.well Sample.alice ORGANIZER Sample.gift
                None Sample.closedStore _ (Sample.giftDoc D_PENDING)
                eq_refl eq_refl Hm eq_refl eq_refl eq_refl Hn) as [_ H].
  destruct (H Hz) as (H1 & _ & _ & _ & H2).
  split; [reflexivity|]. split; [reflexivity|]. split; [exact H1|].
  fold removed in H2.
  destruct (run (DonationService.updateDonationStatus Sample.gift D_COMPLETED None) []
              removed.2) as [[d'|e] s']; [|done].
  destruct H2 as (? & _ & _ & ?). auto.
Defined.

(** ** Review and payout of a withdrawal request *)

(** X18. [approveWithdrawal] and [rejectWithdrawal] act on pending requests
    only and write the request and nothing else: the campaign keeps its
    [raised] at approval, the debit comes with the payout. The approved
    request keeps its admin message; the rejected one gets a message that
    is never empty, "Withdrawal request rejected" when none is given. Each
    records the admin in [reviewedBy]; a failure leaves the store as it
    was. *)
Theorem review_writes_request_only withdrawalId adminId message flt s w :
  withdrawals s !! withdrawalId = Some w ->
  ObjectId_isValid withdrawalId = true ->
  ObjectId_isValid adminId = true ->
  match run (WithdrawalService.approveWithdrawal withdrawalId adminId) flt s with
  | (Ok w', s') =>
      wr_status w = W_PENDING /\ wr_status w' = W_APPROVED
      /\ wr_reviewedBy w' = Some adminId /\ adminMessage w' = adminMessage w
      /\ sameRequest w w'
      /\ withdrawals s' = <[withdrawalId := w']> (withdrawals s)
      /\ campaigns s' = campaigns s /\ users s' = users s
      /\ donations s' = donations s /\ applications s' = applications s
  | (Err e, s') =>
      s' = s
      /\ (wr_status w <> W_PENDING -> e = Msg "Only pending requests can be approved")
      /\ (wr_status w = W_PENDING -> faultWithin 1 flt = true)
  end
  /\ match run (WithdrawalService.rejectWithdrawal withdrawalId adminId message) flt s with
     | (Ok w', s') =>
         wr_status w = W_PENDING /\ wr_status w' = W_REJECTED
         /\ wr_reviewedBy w' = Some adminId
         /\ (exists m, adminMessage w' = Some m /\ JS.truthy m = true
                       /\ (message = None -> m = "Withdrawal request rejected"))
         /\ sameRequest w w'
         /\ withdrawals s' = <[withdrawalId := w']> (withdrawals s)
         /\ campaigns s' = campaigns s /\ users s' = users s
         /\ donations s' = donations s /\ applications s' = applications s
     | (Err e, s') =>
         s' = s
         /\ (wr_status w <> W_PENDING -> e = Msg "Only pending requests can be rejected")
         /\ (wr_status w = W_PENDING -> faultWithin 1 flt = true)
     end.
Proof.
  intros Hw Hv1 Hv2.
  rewrite (approveWithdrawal_run _ _ _ _ w), (rejectWithdrawal_run _ _ _ _ _ w) by done.
  cbv zeta. case_bool_decide as Hp; cbn [negb]; [|done].
  destruct (faultWithin 1 flt); [done|].
  split; [by repeat split|].
  repeat split; try done.
  eexists. split; [reflexivity|]. split; [by apply orElse_truthy|]. by intros ->.
Qed.

Lemma review_writes_request_only_witness :
  withdrawals (Sample.store D_COMPLETED W_PENDING) !! Sample.payout
  = Some (Sample.payoutDoc W_PENDING)
  /\ match run (WithdrawalService.approveWithdrawal Sample.payout Sample.admin) []
             (Sample.store D_COMPLETED W_PENDING) with
     | (Ok w', s') =>
         wr_status w' = W_APPROVED
         /\ campaigns s' = campaigns (Sample.store D_COMPLETED W_PENDING)
     | (Err _, _) => False
     end.
Proof.
  pose proof (review_writes_request_only Sample.payout Sample.admin None []
                (Sample.store D_COMPLETED W_PENDING) (Sample.payoutDoc W_PENDING)
                eq_refl eq_refl eq_refl) as [H _].
  split; [reflexivity|].
  destruct (run _ _ _) as [[w'|e] s'].
  - destruct H as (_ & ? & _ & _ & _ & _ & ? & _). auto.
  - destruct H as (_ & _ & Hf). discriminate (Hf eq_refl).
Defined.

(** X19. An approved request is paid once: after a successful [markAsPaid] every
    further [markAsPaid], [approveWithdrawal] or [rejectWithdrawal] on the
    request fails with its state error and changes nothing, so the campaign
    is debited once. *)
Theorem markAsPaid_once now withdrawalId adminId ref s w :
  withdrawals s !! withdrawalId = Some w ->
  ObjectId_isValid withdrawalId = true ->
  ObjectId_isValid adminId = true ->
  wr_status w = W_APPROVED ->
  let paid := run (WithdrawalService.markAsPaid now withdrawalId adminId ref) [] s in
  paid.1 = Ok (WithdrawalService.markPaid now adminId ref w)
  /\ (forall now' adminId' ref' flt,
        ObjectId_isValid adminId' = true ->
        run (WithdrawalService.markAsPaid now' withdrawalId adminId' ref') flt paid.2
        = (Err (Msg "Only approved requests can be marked as paid"), paid.2))
  /\ (forall adminId' flt,
        ObjectId_isValid adminId' = true ->
        run (WithdrawalService.approveWithdrawal withdrawalId adminId') flt paid.2
        = (Err (Msg "Only pending requests can be approved"), paid.2))
  /\ (forall adminId' message flt,
        ObjectId_isValid adminId' = true ->
        run (WithdrawalService.rejectWithdrawal withdrawalId adminId' message) flt paid.2
        = (Err (Msg "Only pending requests can be rejected"), paid.2)).
Proof.
  intros Hw Hv1 Hv2 Hst paid.
  assert (paid.1 = Ok (WithdrawalService.markPaid now adminId ref w)
          /\ withdrawals paid.2 !! withdrawalId
             = Some (WithdrawalService.markPaid now adminId ref w)) as [Hok Hpaid].
  { unfold paid. rewrite (markAsPaid_run _ _ _ _ _ _ w) by done. cbv zeta.
    rewrite Hst, bool_decide_eq_true_2 by done. cbn [negb].
    destruct (campaigns s !! wr_campaign w); rewrite faultWithin_nil;
      cbn [fst snd withdrawals set_campaigns set_withdrawals];
      by rewrite lookup_insert_eq. }
  split; [exact Hok|]. split; [|split].
  - intros now' adminId' ref' flt Hv'.
    by rewrite (markAsPaid_run _ _ _ _ _ _ _ Hpaid Hv1 Hv').
  - intros adminId' flt Hv'.
    by rewrite (approveWithdrawal_run _ _ _ _ _ Hpaid Hv1 Hv').
  - intros adminId' message flt Hv'.
    by rewrite (rejectWithdrawal_run _ _ _ _ _ _ Hpaid Hv1 Hv').
Qed.

Lemma markAsPaid_once_witness :
  let paid :=
    run (WithdrawalService.markAsPaid 9 Sample.payout Sample.admin None) []
      (Sample.store D_COMPLETED W_APPROVED) in
  withdrawals (Sample.store D_COMPLETED W_APPROVED) !! Sample.payout
  = Some (Sample.payoutDoc W_APPROVED)
  /\ wr_status (Sample.payoutDoc W_APPROVED) = W_APPROVED
  /\ run (WithdrawalService.markAsPaid 10 Sample.payout Sample.admin None) [] paid.2
     = (Err (Msg "Only approved requests can be marked as paid"), paid.2).
Proof.
  intros paid. split; [reflexivity|]. split; [reflexivity|].
  apply (markAsPaid_once 9 Sample.payout Sample.admin None
           (Sample.store D_COMPLETED W_APPROVED) (Sample.payoutDoc W_APPROVED)
           eq_refl eq_refl eq_refl eq_refl).
  reflexivity.
Defined.

(** ** Revocation followed by reinstatement *)

(** X20. Revoking an organizer and reinstating them gives the user document back
    as it was, when it carried no revocation data before; the campaigns that
    the revocation closed stay closed with the reason "Organizer account
    revoked" and the requests it rejected stay rejected. *)
Theorem revoke_then_reinstate now organizerId adminId why s u :
  users s !! organizerId = Some u ->
  role u = ORGANIZER ->
  isOrganizerRevoked u = false ->
  revokedAt u = None -> revokedBy u = None -> revocationReason u = None ->
  10 <= String.length (JS.trim why) <= 500 ->
  ObjectId_isValid organizerId = true ->
  ObjectId_isValid adminId = true ->
  let revoked := exec (RevokeOrganizer now organizerId adminId why) [] s in
  let back := exec (ReinstateOrganizer organizerId adminId) [] revoked in
  (exists u', users revoked !! organizerId = Some u' /\ isOrganizerRevoked u' = true)
  /\ users back = users s
  /\ applications back = applications s /\ donations back = donations s
  /\ (forall id c, campaigns s !! id = Some c -> owner c = organizerId ->
                   isClosed c = false ->
                   campaigns back !! id = Some (OrganizerService.closeForRevocation c))
  /\ (forall id w, withdrawals s !! id = Some w -> organizer w = organizerId ->
                   wr_status w = W_PENDING ->
                   withdrawals back !! id
                   = Some (OrganizerService.rejectForRevocation adminId w)).
Proof.
  intros Hu Hr Hn Hat Hby Hwhy [Hlen Hmax] Hv1 Hv2 revoked back.
  assert (revoked
          = set_withdrawals
              (fmap (fun w => if OrganizerService.pendingWithdrawalOf organizerId w
                              then OrganizerService.rejectForRevocation adminId w else w))
              (set_campaigns
                 (fmap (fun c => if OrganizerService.openCampaignOf organizerId c
                                 then OrganizerService.closeForRevocation c else c))
                 (set_users
                    (insert organizerId
                       (OrganizerService.markRevoked now adminId (JS.trim why) u)) s)))
    as Hrev.
  { unfold revoked. cbn [exec]. rewrite (revokeOrganizer_run _ _ _ _ _ _ u) by done.
    cbv zeta. rewrite Hv1, Hv2. cbn [negb]. unfold Schema.maxLength.
    destruct (Nat.leb_spec (String.length (JS.trim why)) 500); [|lia].
    cbn [negb]. by rewrite faultWithin_nil. }
  assert (back = set_users (insert organizerId u) revoked) as Hback.
  { unfold back. cbn [exec]. rewrite reinstateOrganizer_run, Hv1, Hv2. cbn [negb].
    rewrite Hrev at 1. cbn [users set_users set_campaigns set_withdrawals].
    rewrite lookup_insert_eq. cbn [role isOrganizerRevoked OrganizerService.markRevoked].
    rewrite Hr, bool_decide_eq_true_2 by done. cbn [negb]. rewrite faultWithin_nil.
    cbn [snd]. f_equal. f_equal.
    destruct u; cbn in *; subst; reflexivity. }
  split; [|split; [|split; [|split; [|split]]]].
  - rewrite Hrev. cbn [users set_users set_campaigns set_withdrawals].
    rewrite lookup_insert_eq. by eexists.
  - rewrite Hback, Hrev. cbn [users set_users set_campaigns set_withdrawals].
    rewrite insert_insert_eq. by apply insert_id.
  - by rewrite Hback, Hrev.
  - by rewrite Hback, Hrev.
  - intros id c Hc Ho Hopen. rewrite Hback, Hrev.
    cbn [campaigns set_users set_campaigns set_withdrawals].
    rewrite lookup_fmap, Hc. cbn. unfold OrganizerService.openCampaignOf.
    by rewrite Ho, String.eqb_refl, Hopen.
  - intros id w Hw Ho Hp. rewrite Hback, Hrev.
    cbn [withdrawals set_users set_campaigns set_withdrawals].
    rewrite lookup_fmap, Hw. cbn. unfold OrganizerService.pendingWithdrawalOf.
    by rewrite Ho, String.eqb_refl, Hp.
Qed.

Lemma revoke_then_reinstate_witness :
  let s := Sample.store D_COMPLETED W_PENDING in
  let back :=
    exec (ReinstateOrganizer Sample.alice Sample.admin) []
      (exec (RevokeOrganizer 7 Sample.alice Sample.admin "fraudulent campaign") [] s) in
  users s !! Sample.alice = Some Sample.aliceDoc
  /\ users back = users s
  /\ campaigns back !! Sample.well = Some (OrganizerService.closeForRevocation Sample.wellDoc).
Proof.
  intros s back.
  assert (10 <= String.length (JS.trim "fraudulent campaign") <= 500) as Hlen
    by (vm_compute; lia).
  destruct (revoke_then_reinstate 7 Sample.alice Sample.admin "fraudulent campaign" s
              Sample.aliceDoc eq_refl eq_refl eq_refl eq_refl eq_refl eq_refl Hlen
              eq_refl eq_refl) as (_ & Hu & _ & _ & Hc & _).
  split; [reflexivity|]. split; [exact Hu|].
  apply (Hc Sample.well Sample.wellDoc); reflexivity.
Defined.

(** X21. A revocation rejects the pending requests of the organizer and leaves
    the approved ones alone: a request that was approved before the
    revocation is still paid by [markAsPaid] afterwards, and the campaign,
    closed by the revocation, is debited. *)
Theorem approved_request_survives_revocation
  now organizerId adminId why now' ref withdrawalId s u w c :
  users s !! organizerId = Some u ->
  role u = ORGANIZER ->
  isOrganizerRevoked u = false ->
  10 <= String.length (JS.trim why) <= 500 ->
  ObjectId_isValid organizerId = true ->
  ObjectId_isValid adminId = true ->
  ObjectId_isValid withdrawalId = true ->
  withdrawals s !! withdrawalId = Some w ->
  wr_status w = W_APPROVED ->
  campaigns s !! wr_campaign w = Some c ->
  let revoked := exec (RevokeOrganizer now organizerId adminId why) [] s in
  withdrawals revoked !! withdrawalId = Some w
  /\ match run (WithdrawalService.markAsPaid now' withdrawalId adminId ref) [] revoked with
     | (Ok w', s') =>
         wr_status w' = W_PAID
         /\ exists c', campaigns s' !! wr_campaign w = Some c'
                       /\ raised c' = JS.Math_max 0 (raised c - amountRequested w)
                       /\ (owner c = organizerId -> isClosed c' = true)
     | (Err _, _) => False
     end.
Proof.
  intros Hu Hr Hn [Hlen Hmax] Hv1 Hv2 Hv3 Hw Hst Hc revoked.
  assert (revoked
          = set_withdrawals
              (fmap (fun w => if OrganizerService.pendingWithdrawalOf organizerId w
                              then OrganizerService.rejectForRevocation adminId w else w))
              (set_campaigns
                 (fmap (fun c => if OrganizerService.openCampaignOf organizerId c
                                 then OrganizerService.closeForRevocation c else c))
                 (set_users
                    (insert organizerId
                       (OrganizerService.markRevoked now adminId (JS.trim why) u)) s)))
    as Hrev.
  { unfold revoked. cbn [exec]. rewrite (revokeOrganizer_run _ _ _ _ _ _ u) by done.
    cbv zeta. rewrite Hv1, Hv2. cbn [negb]. unfold Schema.maxLength.
    destruct (Nat.leb_spec (String.length (JS.trim why)) 500); [|lia].
    cbn [negb]. by rewrite faultWithin_nil. }
  assert (withdrawals revoked !! withdrawalId = Some w) as Hw'.
  { rewrite Hrev. cbn [withdrawals set_users set_campaigns set_withdrawals].
    rewrite lookup_fmap, Hw. cbn.
    unfold OrganizerService.pendingWithdrawalOf. rewrite Hst.
    rewrite (bool_decide_eq_false_2 (W_APPROVED = W_PENDING)) by done.
    by rewrite andb_false_r. }
  split; [exact Hw'|].
  rewrite (markAsPaid_run _ _ _ _ _ _ w) by done. cbv zeta.
  rewrite Hst, bool_decide_eq_true_2 by done. cbn [negb].
  assert (campaigns revoked !! wr_campaign w
          = Some (if OrganizerService.openCampaignOf organizerId c
                  then OrganizerService.closeForRevocation c else c)) as Hc'.
  { rewrite Hrev. cbn [campaigns set_users set_campaigns set_withdrawals].
    by rewrite lookup_fmap, Hc. }
  rewrite Hc', faultWithin_nil. split; [reflexivity|].
  cbn [campaigns set_campaigns]. rewrite lookup_insert_eq.
  eexists. split; [reflexivity|].
  unfold OrganizerService.openCampaignOf.
  destruct (String.eqb_spec (owner c) organizerId) as [Ho|Ho]; cbn [andb].
  - destruct (isClosed c) eqn:Hcl; cbn [negb]; split; try reflexivity; by intros _.
  - split; [reflexivity|]. intros; done.
Qed.

Lemma approved_request_survives_revocation_witness :
  let s := Sample.store D_COMPLETED W_APPROVED in
  let revoked := exec (RevokeOrganizer 7 Sample.alice Sample.admin "fraudulent campaign") [] s in
  withdrawals s !! Sample.payout = Some (Sample.payoutDoc W_APPROVED)
  /\ withdrawals revoked !! Sample.payout = Some (Sample.payoutDoc W_APPROVED)
  /\ match run (WithdrawalService.markAsPaid 9 Sample.payout Sample.admin None) [] revoked
     with
     | (Ok w', _) => wr_status w' = W_PAID
     | (Err _, _) => False
     end.
Proof.
  intros s revoked.
  assert (10 <= String.length (JS.trim "fraudulent campaign") <= 500) as Hlen
    by (vm_compute; lia).
  destruct (approved_request_survives_revocation 7 Sample.alice Sample.admin
              "fraudulent campaign" 9 None Sample.payout s Sample.aliceDoc
              (Sample.payoutDoc W_APPROVED) Sample.wellDoc
              eq_refl eq_refl eq_refl Hlen eq_refl eq_refl eq_refl eq_refl eq_refl eq_refl)
    as [H1 H2].
  split; [reflexivity|]. split; [exact H1|].
  fold s revoked in H2.
  destruct (run (WithdrawalService.markAsPaid 9 Sample.payout Sample.admin None) [] revoked)
    as [[w'|e] s']; [|done].
  by destruct H2.
Defined.

Lemma submitApplication_guarded_witness :
  ObjectId_isValid Sample.alice = true
  /\ match run (OrganizerService.submitApplication Sample.payout2 Sample.alice
                  (OrganizerService.mkSubmitApplicationDTO "  Wells for all "
                     "We dig wells in dry villages." None None None None)) []
             (Sample.store D_COMPLETED W_PENDING) with
     | (Ok a, s') =>
         organizationName a = "Wells for all" /\ app_status a = A_PENDING
         /\ users s' = users (Sample.store D_COMPLETED W_PENDING)
     | (Err _, _) => False
     end.
Proof.
  split; [reflexivity|].
  pose proof (submitApplication_guarded Sample.payout2 Sample.alice
                (OrganizerService.mkSubmitApplicationDTO "  Wells for all "
                   "We dig wells in dry villages." None None None None) []
                (Sample.store D_COMPLETED W_PENDING)) as H.
  cbv zeta in H.
  destruct (run _ _ _) as [[a|e] s'] eqn:E.
  - destruct H as (_ & _ & _ & _ & Hp & Hn & _ & _ & _ & _ & _ & Hu & _).
    split; [rewrite Hn; vm_compute; reflexivity|]. split; [exact Hp | exact Hu].
  - vm_compute in E. discriminate E.
Defined.

Lemma createCampaign_guarded_witness :
  users (Sample.store D_COMPLETED W_PENDING) !! Sample.alice = Some Sample.aliceDoc
  /\ match run (CampaignService.createCampaign Sample.nowhere Sample.alice
                  (CampaignService.mkCreateCampaignDTO " Flood relief " None None 1000)) []
             (Sample.store D_COMPLETED W_PENDING) with
     | (Ok c, _) => isApproved c = false /\ raised c = 0%Q /\ owner c = Sample.alice
     | (Err _, _) => False
     end.
Proof.
  split; [reflexivity|].
  pose proof (createCampaign_guarded Sample.nowhere Sample.alice
                (CampaignService.mkCreateCampaignDTO " Flood relief " None None 1000) []
                (Sample.store D_COMPLETED W_PENDING)) as H.
  destruct (run _ _ _) as [[c|e] s'] eqn:E.
  - destruct H as (_ & _ & _ & Ha & _ & Hr & Ho & _). auto.
  - vm_compute in E. discriminate E.
Defined.

(** ** The donor email *)

Lemma lowerChar_space c : JS.isSpace (JS.lowerChar c) = JS.isSpace c.
Proof. by destruct c as [[] [] [] [] [] [] [] []]. Qed.

Lemma lowerChar_at c : Ascii.eqb (JS.lowerChar c) "@" = Ascii.eqb c "@".
Proof. by destruct c as [[] [] [] [] [] [] [] []]. Qed.

Lemma lowerChar_dot c : Ascii.eqb (JS.lowerChar c) "." = Ascii.eqb c ".".
Proof. by destruct c as [[] [] [] [] [] [] [] []]. Qed.

Lemma lowerChar_twice c : JS.lowerChar (JS.lowerChar c) = JS.lowerChar c.
Proof. by destruct c as [[] [] [] [] [] [] [] []]. Qed.

Lemma toLowerCase_twice s : JS.toLowerCase (JS.toLowerCase s) = JS.toLowerCase s.
Proof. induction s as [|c s IH]; cbn; [done|]. by rewrite lowerChar_twice, IH. Qed.

Lemma toLowerCase_truthy s : JS.truthy (JS.toLowerCase s) = JS.truthy s.
Proof. by destruct s. Qed.

Lemma toLowerCase_plain s :
  JS.all DonationService.plainChar (JS.toLowerCase s) = JS.all DonationService.plainChar s.
Proof.
  induction s as [|c s IH]; cbn; [done|].
  unfold DonationService.plainChar at 1 3. by rewrite lowerChar_space, lowerChar_at, IH.
Qed.

Lemma toLowerCase_dotThenMore s :
  DonationService.dotThenMore (JS.toLowerCase s) = DonationService.dotThenMore s.
Proof.
  induction s as [|c s IH]; cbn; [done|].
  by rewrite lowerChar_dot, toLowerCase_truthy, IH.
Qed.

Lemma toLowerCase_domainPart s :
  DonationService.domainPart (JS.toLowerCase s) = DonationService.domainPart s.
Proof.
  unfold DonationService.domainPart. rewrite toLowerCase_plain.
  destruct s as [|c s]; cbn; [done|]. by rewrite toLowerCase_dotThenMore.
Qed.

Lemma toLowerCase_localThenDomain s : forall seen,
  DonationService.localThenDomain seen (JS.toLowerCase s)
  = DonationService.localThenDomain seen s.
Proof.
  induction s as [|c s IH]; intros seen; cbn; [done|].
  by rewrite lowerChar_at, lowerChar_space, toLowerCase_domainPart, IH.
Qed.

Lemma plain_no_at s : JS.all DonationService.plainChar s = true -> countAt s = 0.
Proof.
  induction s as [|c s IH]; cbn; [done|]. unfold DonationService.plainChar at 1.
  intros H. apply andb_true_iff in H as [Hc Hs]. apply andb_true_iff in Hc as [_ Hc].
  destruct (Ascii.eqb c "@"); [done|]. by rewrite IH.
Qed.

Lemma plain_no_space s :
  JS.all DonationService.plainChar s = true -> JS.all (fun c => negb (JS.isSpace c)) s = true.
Proof.
  induction s as [|c s IH]; cbn; [done|]. unfold DonationService.plainChar at 1.
  intros H. apply andb_true_iff in H as [Hc Hs]. apply andb_true_iff in Hc as [Hc _].
  by rewrite Hc, IH.
Qed.

Lemma localThenDomain_shape s : forall seen,
  DonationService.localThenDomain seen s = true ->
  countAt s = 1 /\ JS.all (fun c => negb (JS.isSpace c)) s = true.
Proof.
  induction s as [|c s IH]; intros seen; cbn; [done|].
  destruct (Ascii.eqb_spec c "@") as [->|Hc].
  - intros H. apply andb_true_iff in H as [_ H]. unfold DonationService.domainPart in H.
    apply andb_true_iff in H as [H _]. rewrite (plain_no_at s H), (plain_no_space s H).
    done.
  - destruct (JS.isSpace c); [done|]. intros H. by destruct (IH true H) as [-> ->].
Qed.

Lemma trimEnd_no_space s :
  JS.all (fun c => negb (JS.isSpace c)) s = true -> JS.trimEnd s = s.
Proof.
  induction s as [|c s IH]; cbn; [done|].
  intros H. apply andb_true_iff in H as [Hc Hs]. rewrite (IH Hs).
  destruct s; [|done]. by destruct (JS.isSpace c).
Qed.

Lemma trim_no_space s :
  JS.all (fun c => negb (JS.isSpace c)) s = true -> JS.trim s = s.
Proof.
  intros H. unfold JS.trim.
  assert (JS.trimStart s = s) as ->; [|by apply trimEnd_no_space].
  destruct s as [|c s]; cbn; [done|]. cbn in H. by destruct (JS.isSpace c).
Qed.

(** X22. An address that passes the format test of [createDonation] has exactly
    one ["@"] and no white space, so the [trim] that follows the test never
    removes anything; the stored address is the lower-case form of the one
    given, passes the format test itself, and normalising it again gives it
    back. *)
Theorem accepted_email_normal_form donorId data :
  let e := DonationService.cd_donorEmail data in
  DonationService.emailRegex_test e = true ->
  countAt e = 1
  /\ JS.trim e = e
  /\ donorEmail (newDonation donorId data) = JS.toLowerCase e
  /\ DonationService.emailRegex_test (donorEmail (newDonation donorId data)) = true
  /\ normalizeEmail (donorEmail (newDonation donorId data))
     = donorEmail (newDonation donorId data).
Proof.
  intros e He. unfold DonationService.emailRegex_test in He.
  destruct (localThenDomain_shape e false He) as [Hat Hsp].
  assert (DonationService.localThenDomain false (JS.toLowerCase e) = true) as Hl
    by (by rewrite toLowerCase_localThenDomain).
  destruct (localThenDomain_shape _ false Hl) as [_ Hsp'].
  assert (donorEmail (newDonation donorId data) = JS.toLowerCase e) as Hstored
    by (cbn; by apply trim_no_space).
  split; [exact Hat|]. split; [by apply trim_no_space|]. split; [exact Hstored|].
  rewrite Hstored. split; [exact Hl|].
  unfold normalizeEmail. rewrite toLowerCase_twice. by apply trim_no_space.
Qed.

Lemma accepted_email_normal_form_witness :
  DonationService.emailRegex_test
    (DonationService.cd_donorEmail (Sample.pledge Sample.well)) = true
  /\ donorEmail (newDonation Sample.bob (Sample.pledge Sample.well)) = "bob@example.org".
Proof.
  split; [reflexivity|].
  destruct (accepted_email_normal_form Sample.bob (Sample.pledge Sample.well) eq_refl)
    as (_ & _ & -> & _).
  reflexivity.
Defined.

(** ** Pagination *)

Lemma limit_bounds d x : (1 <= Paging.limit d x <= 100)%Z.
Proof. unfold Paging.limit. lia. Qed.

Lemma page_bounds x : (1 <= Paging.page x)%Z.
Proof. unfold Paging.page. lia. Qed.

Lemma pages_spec total l :
  (1 <= l)%Z ->
  ((Paging.pages total l - 1) * l < Z.of_nat total <= Paging.pages total l * l)%Z.
Proof.
  intros Hl. unfold Paging.pages.
  set (x := (inject_Z (Z.of_nat total) / inject_Z l)%Q).
  assert (0 < inject_Z l)%Q as Hpos by (rewrite <- (Zlt_Qlt 0); lia).
  assert (x * inject_Z l == inject_Z (Z.of_nat total))%Q as Hx.
  { unfold x. field. intros H. rewrite H in Hpos. by apply Qlt_irrefl in Hpos. }
  split.
  - pose proof (Qceiling_lt x) as H.
    apply (Qmult_lt_compat_r _ _ (inject_Z l)) in H; [|exact Hpos].
    rewrite Hx, <- inject_Z_mult in H. by rewrite <- Zlt_Qlt in H.
  - pose proof (Qle_ceiling x) as H.
    apply (Qmult_le_compat_r _ _ (inject_Z l)) in H; [|by apply Qlt_le_weak].
    rewrite Hx, <- inject_Z_mult in H. by rewrite <- Zle_Qle in H.
Qed.

Lemma windows_cover {D} (l : Z) (docs : list D) (n : nat) :
  (1 <= l)%Z ->
  concat ((fun i : nat => Paging.window (Z.of_nat i) l docs) <$> seq 1 n)
  = take (n * Z.to_nat l) docs.
Proof.
  intros Hl. induction n as [|n IH]; [by rewrite take_0|].
  rewrite seq_S, fmap_app, concat_app, IH. cbn [fmap list_fmap concat].
  rewrite app_nil_r. unfold Paging.window, Paging.skip.
  replace (Z.to_nat ((Z.of_nat (1 + n) - 1) * l)) with (n * Z.to_nat l) by nia.
  rewrite take_take_drop. f_equal. lia.
Qed.

(** X23. For every default between 1 and 100 (the code uses 10 and 20) and every
    [page] and [limit] asked for: the page is at least 1 and the limit is
    between 1 and 100; a limit of 0 gives the default, not 1; the page shown
    has at most [limit] documents; [total] counts all matches; [pages] is
    the least number of pages of that size that hold them; a page within
    [pages] is not empty and a page beyond it is; and the pages 1 to [pages]
    together are exactly the matches, in order. *)
Theorem paginate_window {D} (d : Z) (xpage xlimit : option Z) (docs : list D) :
  (1 <= d <= 100)%Z ->
  let (items, pg) := Paging.paginate d xpage xlimit docs in
  let p := Paging.pg_page pg in
  let l := Paging.pg_limit pg in
  let n := Paging.pg_pages pg in
  (1 <= p)%Z /\ (1 <= l <= 100)%Z
  /\ (xlimit = Some 0%Z \/ xlimit = None -> l = d)
  /\ (forall k, xlimit = Some k -> (1 <= k <= 100)%Z -> l = k)
  /\ (forall k, xpage = Some k -> (1 <= k)%Z -> p = k)
  /\ length items <= Z.to_nat l
  /\ Paging.pg_total pg = length docs
  /\ ((n - 1) * l < Z.of_nat (length docs) <= n * l)%Z
  /\ ((p <= n)%Z -> items <> [])
  /\ ((n < p)%Z -> items = [])
  /\ concat ((fun i : nat => Paging.window (Z.of_nat i) l docs) <$> seq 1 (Z.to_nat n)) = docs.
Proof.
  intros Hd. unfold Paging.paginate. cbv zeta.
  cbn [Paging.pg_page Paging.pg_limit Paging.pg_pages Paging.pg_total].
  pose proof (limit_bounds d xlimit) as Hl. pose proof (page_bounds xpage) as Hp.
  pose proof (pages_spec (length docs) _ (proj1 Hl)) as Hn.
  set (l := Paging.limit d xlimit) in *. set (p := Paging.page xpage) in *.
  set (n := Paging.pages (length docs) l) in *.
  split; [exact Hp|]. split; [exact Hl|].
  split; [intros [->| ->]; unfold l, Paging.limit; cbn; lia|].
  split; [intros k -> Hk; unfold l, Paging.limit, Paging.orDefault;
          destruct (Z.eqb_spec k 0); lia|].
  split; [intros k -> Hk; unfold p, Paging.page, Paging.orDefault;
          destruct (Z.eqb_spec k 0); lia|].
  split; [unfold Paging.window; rewrite length_take; lia|].
  split; [reflexivity|]. split; [exact Hn|].
  split; [|split].
  - intros Hpn Hnil. apply (f_equal length) in Hnil.
    unfold Paging.window, Paging.skip in Hnil. rewrite length_take, length_drop in Hnil.
    cbn in Hnil. nia.
  - intros Hnp. unfold Paging.window, Paging.skip. rewrite drop_ge; [by rewrite take_nil|].
    nia.
  - rewrite windows_cover by lia. apply take_ge. nia.
Qed.

Lemma paginate_window_witness :
  (1 <= 10 <= 100)%Z
  /\ Paging.paginate 10 (Some 2%Z) (Some (-5)%Z) ["a"; "b"; "c"]
     = (["b"], Paging.mkPagination 2 1 3 3)
  /\ match Paging.paginate 10 (Some 2%Z) (Some (-5)%Z) ["a"; "b"; "c"] with
     | (items, pg) => length items <= Z.to_nat (Paging.pg_limit pg) /\ items <> []
     end.
Proof.
  split; [lia|]. split; [vm_compute; reflexivity|].
  pose proof (paginate_window 10 (Some 2%Z) (Some (-5)%Z) ["a"; "b"; "c"]
                ltac:(lia)) as H.
  destruct (Paging.paginate 10 (Some 2%Z) (Some (-5)%Z) ["a"; "b"; "c"]) as [items pg] eqn:E.
  destruct H as (_ & _ & _ & _ & _ & Hlen & _ & _ & Hin & _).
  split; [exact Hlen|]. apply Hin.
  injection E as <- <-. vm_compute. discriminate.
Defined.

(** ** Read operations *)

Section QueryFacts.

Variable newestFirst : forall D : Type, list (Id * D) -> list (Id * D).
Hypothesis newestFirst_perm : forall D (l : list (Id * D)), newestFirst D l ≡ₚ l.

Lemma find_elem {D} (coll : gmap string D) query p l id d :
  (id, d) ∈ Paging.window p l (find newestFirst coll query) ->
  coll !! id = Some d /\ query d = true.
Proof.
  unfold Paging.window, find. intros H.
  apply subseteq_take, subseteq_drop, list_elem_of_filter in H as [Hq H].
  rewrite newestFirst_perm in H. by apply elem_of_map_to_list in H.
Qed.

Lemma find_length {D} (coll : gmap string D) query :
  length (find newestFirst coll query)
  = length (filter (fun d : Id * D => query d.2 = true) (map_to_list coll)).
Proof. unfold find. by rewrite newestFirst_perm. Qed.

End QueryFacts.

Lemma getCampaigns_run textMatch newestFirst filters userId userRole flt s :
  run (getCampaigns textMatch newestFirst filters userId userRole) flt s =
  if CampaignService.notAdmin userRole && viewsOwn filters userId
     && negb (ObjectId_isValid (default "" userId))
  then (Err TypeError, s)
  else
    let docs := find newestFirst (campaigns s)
                  (matchesCampaign textMatch (campaignQuery filters userId userRole)) in
    let p := Paging.page (f_page filters) in
    let l := Paging.limit 10 (f_limit filters) in
    (Ok (mkCampaignPage
           ((fun d => (d.1, d.2, users s !! owner d.2)) <$> Paging.window p l docs)
           (Paging.mkPagination p l (length docs) (Paging.pages (length docs) l))),
     s).
Proof.
  unfold getCampaigns, Paging.paginate. unfold_js.
  by destruct (CampaignService.notAdmin userRole), (viewsOwn filters userId),
    (ObjectId_isValid (default "" userId)).
Qed.

Lemma viewsOwn_spec filters userId :
  viewsOwn filters userId = true ->
  exists u, userId = Some u /\ f_owner filters = Some u /\ JS.truthy u = true.
Proof.
  unfold viewsOwn. destruct (f_owner filters) as [o|], userId as [u|]; try done.
  intros H. apply andb_true_iff in H as [Ht He]. apply String.eqb_eq in He as ->. eauto.
Qed.

Lemma notAdmin_true userRole : CampaignService.notAdmin userRole = true <-> userRole <> Some ADMIN.
Proof. unfold CampaignService.notAdmin. case_bool_decide; cbn; split; done. Qed.

(** What a campaign that matches the query of a caller who is not an admin
    looks like: approved, or owned by the caller who asked for their own. *)
Lemma matchesCampaign_visible textMatch filters userId userRole c :
  matchesCampaign textMatch (campaignQuery filters userId userRole) c = true ->
  (userRole <> Some ADMIN ->
   isApproved c = true
   \/ userId = Some (owner c) /\ f_owner filters = Some (owner c)
      /\ JS.truthy (owner c) = true)
  /\ (forall b, f_isClosed filters = Some b -> isClosed c = b).
Proof.
  unfold matchesCampaign, campaignQuery.
  cbn [q_owner q_isApproved q_isClosed q_text].
  intros H. repeat (apply andb_true_iff in H as [H ?]). split.
  - intros Hna. apply notAdmin_true in Hna. rewrite Hna in *. cbn [negb andb] in *.
    rewrite andb_false_r in *.
    destruct (viewsOwn filters userId) eqn:Hown; cbn [negb] in *.
    + right. destruct (viewsOwn_spec _ _ Hown) as (u & -> & -> & Ht).
      cbn in H. apply String.eqb_eq in H. by rewrite H.
    + left. cbn in *. by destruct (isApproved c).
  - intros b Hb. rewrite Hb in *. cbn in *. by destruct (isClosed c), b.
Qed.

(** X24. [getCampaigns] writes nothing and fails only on a malformed caller id.
    Every campaign it lists is a campaign of the store that comes with its
    owner's document; it has the closure the filter asks for; and for a
    caller who is not an admin it is approved, or it is the caller's own and
    the caller has asked for their own. At most 100 campaigns are listed,
    and [total] counts the campaigns of the store that match the query. *)
Theorem getCampaigns_lists_visible textMatch newestFirst filters userId userRole flt s :
  (forall D (l : list (Id * D)), newestFirst D l ≡ₚ l) ->
  match run (getCampaigns textMatch newestFirst filters userId userRole) flt s with
  | (Ok r, s') =>
      s' = s
      /\ length (cp_campaigns r) <= 100
      /\ Paging.pg_total (cp_pagination r)
         = length (filter
                     (fun d : Id * Campaign =>
                        matchesCampaign textMatch (campaignQuery filters userId userRole) d.2
                        = true)
                     (map_to_list (campaigns s)))
      /\ (forall id c o,
            (id, c, o) ∈ cp_campaigns r ->
            campaigns s !! id = Some c /\ o = users s !! owner c
            /\ (userRole <> Some ADMIN ->
                isApproved c = true
                \/ userId = Some (owner c) /\ f_owner filters = Some (owner c))
            /\ (forall b, f_isClosed filters = Some b -> isClosed c = b))
  | (Err e, s') =>
      s' = s /\ e = TypeError /\ userRole <> Some ADMIN /\ viewsOwn filters userId = true
  end.
Proof.
  intros Hperm. rewrite getCampaigns_run.
  destruct (CampaignService.notAdmin userRole && viewsOwn filters userId
            && negb (ObjectId_isValid (default "" userId))) eqn:Hbad.
  { apply andb_true_iff in Hbad as [Hbad _]. apply andb_true_iff in Hbad as [Hna Hown].
    apply notAdmin_true in Hna. done. }
  cbv zeta. cbn [cp_campaigns cp_pagination Paging.pg_total].
  split; [reflexivity|]. split; [|split].
  - rewrite length_fmap. unfold Paging.window. rewrite length_take.
    pose proof (limit_bounds 10 (f_limit filters)). lia.
  - by apply find_length.
  - intros id c o Hin. apply list_elem_of_fmap in Hin as ([id' c'] & [= -> -> ->] & Hin).
    apply (find_elem newestFirst Hperm) in Hin as [Hc Hm]. cbn [fst snd].
    split; [exact Hc|]. split; [reflexivity|].
    destruct (matchesCampaign_visible _ _ _ _ _ Hm) as [Hvis Hcl].
    split; [|exact Hcl]. intros Hna. destruct (Hvis Hna) as [?|(? & ? & _)]; auto.
Qed.

Lemma getCampaigns_lists_visible_witness :
  (forall D (l : list (Id * D)), (fun D (l : list (Id * D)) => l) D l ≡ₚ l)
  /\ match run (getCampaigns (fun _ _ => true) (fun _ l => l)
                  (mkCampaignFilters None None None None None None) None None) []
             (Sample.store D_COMPLETED W_PENDING) with
     | (Ok r, _) =>
         forall id c o, (id, c, o) ∈ cp_campaigns r -> isApproved c = true
     | (Err _, _) => False
     end.
Proof.
  assert (forall D (l : list (Id * D)), (fun D (l : list (Id * D)) => l) D l ≡ₚ l) as Hperm
    by done.
  split; [exact Hperm|].
  pose proof (getCampaigns_lists_visible (fun _ _ => true) (fun _ l => l)
                (mkCampaignFilters None None None None None None) None None []
                (Sample.store D_COMPLETED W_PENDING) Hperm) as H.
  destruct (run _ _ _) as [[r|e] s'].
  - destruct H as (_ & _ & _ & H). intros id c o Hin.
    destruct (H id c o Hin) as (_ & _ & Hvis & _).
    destruct Hvis as [?|[? _]]; done.
  - by destruct H as (_ & _ & _ & ?).
Defined.



Lemma getWithdrawalById_run withdrawalId userId userRole flt s :
  run (getWithdrawalById withdrawalId userId userRole) flt s =
  (if negb (ObjectId_isValid withdrawalId) then Err (Msg "Invalid withdrawal ID")
   else if negb (ObjectId_isValid userId) then Err (Msg "Invalid user ID")
   else match withdrawals s !! withdrawalId with
        | None => Err (Msg "Withdrawal request not found")
        | Some w =>
            let found :=
              mkWithdrawalView w (users s !! organizer w) (campaigns s !! wr_campaign w)
                (wr_reviewedBy w ≫= fun a => users s !! a) in
            if CampaignService.notAdmin (Some userRole)
            then match users s !! organizer w with
                 | None => Err TypeError
                 | Some _ =>
                     if negb (String.eqb (organizer w) userId) then Err (Msg "Access denied")
                     else Ok found
                 end
            else Ok found
        end,
   s).
Proof.
  unfold getWithdrawalById. unfold_js.
  destruct (ObjectId_isValid withdrawalId); [|reflexivity].
  destruct (ObjectId_isValid userId); [|reflexivity].
  destruct (withdrawals s !! withdrawalId) as [w|]; [|reflexivity].
  destruct (CampaignService.notAdmin (Some userRole)); [|reflexivity].
  destruct (users s !! organizer w); [|reflexivity].
  by destruct (String.eqb (organizer w) userId).
Qed.

(** X26. [getWithdrawalById] gives a request to an admin and to its organizer
    and to nobody else, and writes nothing. Anyone else gets "Access
    denied" for a request of the store and "Withdrawal request not found"
    for an id without a request: the two answers differ, so the function
    tells a caller whether a request with a given id exists. Here the
    organizer of the request is a user of the store. *)
Theorem getWithdrawalById_access withdrawalId ghostId userId userRole flt s w :
  withdrawals s !! withdrawalId = Some w ->
  ObjectId_isValid withdrawalId = true ->
  ObjectId_isValid userId = true ->
  is_Some (users s !! organizer w) ->
  ObjectId_isValid ghostId = true ->
  withdrawals s !! ghostId = None ->
  match run (getWithdrawalById withdrawalId userId userRole) flt s with
  | (Ok v, s') =>
      s' = s /\ (userRole = ADMIN \/ organizer w = userId)
      /\ wv_request v = w
      /\ wv_organizer v = users s !! organizer w
      /\ wv_campaign v = campaigns s !! wr_campaign w
  | (Err e, s') =>
      s' = s /\ userRole <> ADMIN /\ organizer w <> userId /\ e = Msg "Access denied"
  end
  /\ run (getWithdrawalById ghostId userId userRole) flt s
     = (Err (Msg "Withdrawal request not found"), s).
Proof.
  intros Hw Hv1 Hv2 [o Ho] Hg Hnone.
  rewrite !getWithdrawalById_run, Hv1, Hv2, Hg, Hw, Hnone, Ho. cbn [negb]. cbv zeta.
  split; [|reflexivity].
  unfold CampaignService.notAdmin. case_bool_decide as Hadm; cbn [negb].
  - injection Hadm as ->. repeat split; auto.
  - destruct (String.eqb_spec (organizer w) userId) as [Heq|Hne]; cbn [negb].
    + repeat split; auto.
    + repeat split; try done. congruence.
Qed.

Lemma getWithdrawalById_access_witness :
  withdrawals (Sample.store D_COMPLETED W_PENDING) !! Sample.payout
  = Some (Sample.payoutDoc W_PENDING)
  /\ is_Some (users (Sample.store D_COMPLETED W_PENDING)
                !! organizer (Sample.payoutDoc W_PENDING))
  /\ withdrawals (Sample.store D_COMPLETED W_PENDING) !! Sample.payout2 = None
  /\ (run (getWithdrawalById Sample.payout Sample.bob ORGANIZER) []
        (Sample.store D_COMPLETED W_PENDING)).1 = Err (Msg "Access denied")
  /\ (run (getWithdrawalById Sample.payout2 Sample.bob ORGANIZER) []
        (Sample.store D_COMPLETED W_PENDING)).1 = Err (Msg "Withdrawal request not found").
Proof.
  assert (is_Some (users (Sample.store D_COMPLETED W_PENDING)
                     !! organizer (Sample.payoutDoc W_PENDING))) as Ho
    by (exists Sample.aliceDoc; reflexivity).
  destruct (getWithdrawalById_access Sample.payout Sample.payout2 Sample.bob ORGANIZER []
              (Sample.store D_COMPLETED W_PENDING) (Sample.payoutDoc W_PENDING)
              eq_refl eq_refl eq_refl Ho eq_refl eq_refl) as [H1 H2].
  split; [reflexivity|]. split; [exact Ho|]. split; [reflexivity|].
  split; [|by rewrite H2].
  destruct (run (getWithdrawalById Sample.payout Sample.bob ORGANIZER) []
              (Sample.store D_COMPLETED W_PENDING)) as [[v|e] s'].
  - destruct H1 as (_ & [?|?] & _); done.
  - destruct H1 as (_ & _ & _ & ->). reflexivity.
Defined.

(** *** Organizers by status *)

Lemma getAllOrganizers_run newestFirst status xpage xlimit flt s :
  run (getAllOrganizers newestFirst status xpage xlimit) flt s =
  let docs := find newestFirst (users s) (organizerQuery status) in
  let p := Paging.page xpage in
  let l := Paging.limit 20 xlimit in
  (Ok (mkOrganizerPage
         ((fun d => (d.1, d.2, revokedBy d.2 ≫= fun a => users s !! a))
            <$> Paging.window p l docs)
         (Paging.mkPagination p l (length docs) (Paging.pages (length docs) l))),
   s).
Proof. reflexivity. Qed.

Lemma exec_organizersApproved op flt s :
  organizersApproved s -> organizersApproved (exec op flt s).
Proof.
  intros Hs id u' Hu' Hr.
  destruct (users s !! id) as [u|] eqn:Hu.
  - destruct (exec_userStep op flt s id u Hu) as (u'' & Hu'' & _ & _ & Hstep).
    rewrite Hu' in Hu''. injection Hu'' as <-.
    destruct Hstep as [[Hr' Ha]|[_ Ha]]; [|exact Ha].
    rewrite Ha. apply (Hs id u Hu). congruence.
  - apply (exec_users_dom op flt) in Hu. congruence.
Qed.

Lemma execAll_organizersApproved trace : forall s,
  organizersApproved s -> organizersApproved (execAll trace s).
Proof.
  induction trace as [|[op flt] rest IH]; intros s H; [done|].
  cbn [execAll]. by apply IH, exec_organizersApproved.
Qed.

Lemma filter_nil_all {A} (P : A -> Prop) `{forall x, Decision (P x)} (l : list A) :
  (forall x, x ∈ l -> ~ P x) -> filter P l = [].
Proof.
  induction l as [|x l IH]; intros Hall; [done|].
  rewrite filter_cons_False by (apply Hall; left).
  apply IH. intros y Hy. apply Hall. by right.
Qed.

(** X27. The three statuses of [getAllOrganizers] split the organizers: every
    organizer is listed under exactly one of "active", "revoked" and
    "pending", a user who is no organizer under none, and any other status
    lists all organizers. In any store, "pending" counts nobody exactly
    when every organizer that is not revoked is approved. The sixteen
    workflow operations keep it so: they make a user an organizer only
    together with [isOrganizerApproved], and none of them clears that flag,
    so when every organizer of the store is approved, "pending" lists
    nobody after any history of these operations. The statement about
    histories is about these operations only; the profile update of the
    auth service, which also writes users, is not among them. *)
Theorem organizers_by_status newestFirst xpage xlimit flt s :
  (forall D (l : list (Id * D)), newestFirst D l ≡ₚ l) ->
  (forall u,
     let active := organizerQuery (Some "active") u in
     let revoked := organizerQuery (Some "revoked") u in
     let pending := organizerQuery (Some "pending") u in
     (role u = ORGANIZER ->
      (active = true /\ revoked = false /\ pending = false)
      \/ (active = false /\ revoked = true /\ pending = false)
      \/ (active = false /\ revoked = false /\ pending = true))
     /\ (role u <> ORGANIZER -> active = false /\ revoked = false /\ pending = false)
     /\ (forall st, st <> "active" -> st <> "revoked" -> st <> "pending" ->
                    organizerQuery (Some st) u = organizerQuery None u))
  /\ (exists r,
        run (getAllOrganizers newestFirst (Some "pending") xpage xlimit) flt s = (Ok r, s)
        /\ (Paging.pg_total (op_pagination r) = 0
            <-> forall id u, users s !! id = Some u -> role u = ORGANIZER ->
                             isOrganizerRevoked u = false -> isOrganizerApproved u = true))
  /\ (forall trace,
        organizersApproved s ->
        exists r,
          run (getAllOrganizers newestFirst (Some "pending") xpage xlimit) flt
            (execAll trace s)
          = (Ok r, execAll trace s)
          /\ op_organizers r = [] /\ Paging.pg_total (op_pagination r) = 0).
Proof.
  intros Hperm. split; [|split].
  - intros u. cbv zeta. unfold organizerQuery. cbn [String.eqb Ascii.eqb Bool.eqb].
    split; [|split].
    + intros ->. rewrite bool_decide_eq_true_2 by done.
      destruct (isOrganizerApproved u), (isOrganizerRevoked u); cbn; auto.
    + intros Hr. by rewrite bool_decide_eq_false_2 by done.
    + intros st H1 H2 H3.
      destruct (String.eqb_spec st "active"); [done|].
      destruct (String.eqb_spec st "revoked"); [done|].
      by destruct (String.eqb_spec st "pending").
  - rewrite getAllOrganizers_run. cbv zeta. eexists. split; [reflexivity|].
    cbn [op_pagination Paging.pg_total]. split.
    + intros Hlen id u Hu Hr Hrev. apply length_zero_iff_nil in Hlen.
      destruct (isOrganizerApproved u) eqn:Ha; [done|].
      assert ((id, u) ∈ find newestFirst (users s) (organizerQuery (Some "pending"))) as Hin.
      { unfold find. apply list_elem_of_filter. split.
        - cbn [snd]. unfold organizerQuery. cbn [String.eqb Ascii.eqb Bool.eqb].
          rewrite bool_decide_eq_true_2 by done. by rewrite Ha, Hrev.
        - rewrite Hperm. by apply elem_of_map_to_list. }
      rewrite Hlen in Hin. by apply elem_of_nil in Hin.
    + intros Hall.
      assert (find newestFirst (users s) (organizerQuery (Some "pending")) = []) as ->; [|done].
      unfold find. apply filter_nil_all. intros [id u] Hin.
      rewrite Hperm in Hin. apply elem_of_map_to_list in Hin. cbn [snd].
      unfold organizerQuery. cbn [String.eqb Ascii.eqb Bool.eqb].
      case_bool_decide as Hr; cbn [andb]; [|done].
      destruct (isOrganizerRevoked u) eqn:Hrev; [by rewrite andb_false_r|].
      by rewrite (Hall id u Hin Hr Hrev).
  - intros trace Happr.
    rewrite getAllOrganizers_run. cbv zeta. eexists. split; [reflexivity|].
    cbn [op_organizers op_pagination Paging.pg_total].
    assert (find newestFirst (users (execAll trace s)) (organizerQuery (Some "pending")) = [])
      as ->; [|unfold Paging.window; by rewrite drop_nil, take_nil].
    unfold find. apply filter_nil_all. intros [id u] Hin.
    rewrite Hperm in Hin. apply elem_of_map_to_list in Hin. cbn [snd].
    unfold organizerQuery. cbn [String.eqb Ascii.eqb Bool.eqb].
    case_bool_decide as Hr; cbn [andb]; [|done].
    by rewrite (execAll_organizersApproved trace s Happr id u Hin Hr).
Qed.

Lemma sample_organizersApproved gs ps : organizersApproved (Sample.store gs ps).
Proof.
  intros id u Hu Hr. cbn in Hu. unfold Sample.people in Hu.
  apply lookup_insert_Some in Hu as [[_ <-]|[_ Hu]]; [done|].
  apply lookup_insert_Some in Hu as [[_ <-]|[_ Hu]]; [done|].
  apply lookup_insert_Some in Hu as [[_ <-]|[_ Hu]]; [done|].
  by rewrite lookup_empty in Hu.
Qed.

Lemma organizers_by_status_witness :
  (forall D (l : list (Id * D)), (fun D (l : list (Id * D)) => l) D l ≡ₚ l)
  /\ organizersApproved (Sample.store D_COMPLETED W_PENDING)
  /\ exists r,
       run (getAllOrganizers (fun _ l => l) (Some "pending") None None) []
         (execAll [ (ApproveApplication 4 Sample.form Sample.admin, []);
                    (RevokeOrganizer 7 Sample.bob Sample.admin "fraudulent campaign", []) ]
            (Sample.store D_COMPLETED W_PENDING))
       = (Ok r,
          execAll [ (ApproveApplication 4 Sample.form Sample.admin, []);
                    (RevokeOrganizer 7 Sample.bob Sample.admin "fraudulent campaign", []) ]
            (Sample.store D_COMPLETED W_PENDING))
       /\ op_organizers r = [].
Proof.
  assert (forall D (l : list (Id * D)), (fun D (l : list (Id * D)) => l) D l ≡ₚ l) as Hperm
    by done.
  split; [exact Hperm|]. split; [apply sample_organizersApproved|].
  destruct (organizers_by_status (fun _ l => l) None None []
              (Sample.store D_COMPLETED W_PENDING) Hperm) as (_ & _ & Hhist).
  destruct (Hhist [ (ApproveApplication 4 Sample.form Sample.admin, []);
                    (RevokeOrganizer 7 Sample.bob Sample.admin "fraudulent campaign", []) ]
              (sample_organizersApproved _ _)) as (r & Hr & Hnil & _).
  eauto.
Defined.

(** *** Donation statistics *)

Lemma valid_id_truthy id : ObjectId_isValid id = true -> JS.truthy id = true.
Proof. by destruct id. Qed.

Lemma getDonationStats_run floatSum floatAvg campaignId flt s :
  run (getDonationStats floatSum floatAvg campaignId) flt s =
  if match campaignId with
     | Some id => JS.truthy id && negb (ObjectId_isValid id)
     | None => false
     end
  then (Err (Msg "Invalid campaign ID"), s)
  else (Ok (groupStats floatSum floatAvg ((fun d => amount d.2)
                          <$> filter (fun d => statsMatch campaignId d.2 = true)
                                (map_to_list (donations s)))),
        s).
Proof.
  unfold getDonationStats. unfold_js.
  destruct campaignId as [id|]; [|reflexivity].
  by destruct (JS.truthy id), (ObjectId_isValid id).
Qed.

Lemma maxOf_spec a rest :
  (forall x, x ∈ a :: rest -> (x <= maxOf a rest)%Q) /\ maxOf a rest ∈ a :: rest.
Proof.
  induction rest as [|y rest [IHle IHin]]; cbn [maxOf foldr].
  - split; [|by left]. intros x Hx. apply elem_of_cons in Hx as [->|Hx].
    + apply Qle_refl.
    + by apply elem_of_nil in Hx.
  - fold (maxOf a rest). unfold JS.Math_max.
    destruct (Qle_bool (maxOf a rest) y) eqn:E.
    + apply Qle_bool_iff in E. split.
      * intros x Hx. apply elem_of_cons in Hx as [->|Hx].
        { eapply Qle_trans; [|exact E]. apply IHle. by left. }
        apply elem_of_cons in Hx as [->|Hx]; [apply Qle_refl|].
        eapply Qle_trans; [|exact E]. apply IHle. by right.
      * right. by left.
    + assert (y < maxOf a rest)%Q as Hlt.
      { apply Qnot_le_lt. intros H. apply Qle_bool_iff in H. congruence. }
      split.
      * intros x Hx. apply elem_of_cons in Hx as [->|Hx]; [apply IHle; by left|].
        apply elem_of_cons in Hx as [->|Hx]; [by apply Qlt_le_weak|].
        apply IHle. by right.
      * apply elem_of_cons in IHin as [Heq|Hin]; [rewrite Heq; by left|].
        right. by right.
Qed.

Lemma minOf_spec a rest :
  (forall x, x ∈ a :: rest -> (minOf a rest <= x)%Q) /\ minOf a rest ∈ a :: rest.
Proof.
  induction rest as [|y rest [IHle IHin]]; cbn [minOf foldr].
  - split; [|by left]. intros x Hx. apply elem_of_cons in Hx as [->|Hx].
    + apply Qle_refl.
    + by apply elem_of_nil in Hx.
  - fold (minOf a rest).
    destruct (Qle_bool (minOf a rest) y) eqn:E.
    + apply Qle_bool_iff in E. split.
      * intros x Hx. apply elem_of_cons in Hx as [->|Hx]; [apply IHle; by left|].
        apply elem_of_cons in Hx as [->|Hx]; [exact E|].
        apply IHle. by right.
      * apply elem_of_cons in IHin as [Heq|Hin]; [rewrite Heq; by left|].
        right. by right.
    + assert (y < minOf a rest)%Q as Hlt.
      { apply Qnot_le_lt. intros H. apply Qle_bool_iff in H. congruence. }
      apply Qlt_le_weak in Hlt. split.
      * intros x Hx. apply elem_of_cons in Hx as [->|Hx].
        { eapply Qle_trans; [exact Hlt|]. apply IHle. by left. }
        apply elem_of_cons in Hx as [->|Hx]; [apply Qle_refl|].
        eapply Qle_trans; [exact Hlt|]. apply IHle. by right.
      * right. by left.
Qed.

(** X28. For a well-formed campaign id [getDonationStats] succeeds and writes
    nothing. The donations it counts are the completed donations of the
    campaign, and [totalDonations] is their number. Without one, all five
    figures are 0. Otherwise [maxDonation] and [minDonation] are amounts of
    donations that are counted, and the amount of every donation counted
    lies between them. An absent id and an empty one both give the figures
    over all campaigns. Nothing is stated about the values of
    [totalAmount] and [avgDonation] of a group that is not empty, which the
    store computes in floating point. *)
Theorem getDonationStats_figures floatSum floatAvg campaignId flt s :
  ObjectId_isValid campaignId = true ->
  let completed :=
    filter (fun d : Id * Donation => statsMatch (Some campaignId) d.2 = true)
      (map_to_list (donations s)) in
  (exists st,
     run (getDonationStats floatSum floatAvg (Some campaignId)) flt s = (Ok st, s)
     /\ totalDonations st = length completed
     /\ (completed = [] -> st = mkDonationStats 0 0 0 0 0)
     /\ (forall id d, (id, d) ∈ completed ->
           (minDonation st <= amount d)%Q /\ (amount d <= maxDonation st)%Q)
     /\ (completed <> [] ->
         (exists id d, (id, d) ∈ completed /\ maxDonation st = amount d)
         /\ (exists id d, (id, d) ∈ completed /\ minDonation st = amount d)))
  /\ (forall id d, (id, d) ∈ completed <->
                   donations s !! id = Some d /\ don_status d = D_COMPLETED
                   /\ don_campaign d = campaignId)
  /\ run (getDonationStats floatSum floatAvg (Some "")) flt s
     = run (getDonationStats floatSum floatAvg None) flt s.
Proof.
  intros Hv completed. pose proof (valid_id_truthy _ Hv) as Ht. split; [|split].
  - rewrite getDonationStats_run, Ht, Hv. cbn [negb andb]. eexists. split; [reflexivity|].
    fold completed. destruct completed as [|p rest].
    { split; [done|]. split; [done|]. split; [|done].
      intros id d Hd. by apply elem_of_nil in Hd. }
    cbn [fmap list_fmap groupStats totalDonations maxDonation minDonation].
    destruct (maxOf_spec (amount p.2) ((fun d : Id * Donation => amount d.2) <$> rest))
      as [Hmax Hmaxin].
    destruct (minOf_spec (amount p.2) ((fun d : Id * Donation => amount d.2) <$> rest))
      as [Hmin Hminin].
    change (amount p.2 :: ((fun d : Id * Donation => amount d.2) <$> rest))
      with ((fun d : Id * Donation => amount d.2) <$> p :: rest) in *.
    split; [cbn; by rewrite length_fmap|]. split; [done|]. split.
    + intros id d Hd.
      assert (amount d ∈ (fun d : Id * Donation => amount d.2) <$> p :: rest) as Hin
        by (apply list_elem_of_fmap; by exists (id, d)).
      split; [by apply Hmin | by apply Hmax].
    + intros _. split.
      * apply list_elem_of_fmap in Hmaxin as ([id d] & Heq & Hin). eauto.
      * apply list_elem_of_fmap in Hminin as ([id d] & Heq & Hin). eauto.
  - intros id d. unfold completed. rewrite list_elem_of_filter, elem_of_map_to_list.
    cbn [snd]. unfold statsMatch. rewrite Ht, andb_true_iff, bool_decide_eq_true.
    rewrite String.eqb_eq. tauto.
  - by rewrite !getDonationStats_run.
Qed.

Lemma getDonationStats_figures_witness :
  ObjectId_isValid Sample.well = true
  /\ exists st,
       run (getDonationStats (foldr Qplus 0%Q) (foldr Qplus 0%Q) (Some Sample.well)) []
         (Sample.store D_COMPLETED W_PENDING)
       = (Ok st, Sample.store D_COMPLETED W_PENDING)
       /\ (minDonation st <= amount (Sample.giftDoc D_COMPLETED))%Q
       /\ (amount (Sample.giftDoc D_COMPLETED) <= maxDonation st)%Q.
Proof.
  split; [reflexivity|].
  destruct (getDonationStats_figures (foldr Qplus 0%Q) (foldr Qplus 0%Q) Sample.well []
              (Sample.store D_COMPLETED W_PENDING) eq_refl) as ((st & Hrun & _ & _ & Hbounds & _) & Hmem & _).
  exists st. split; [exact Hrun|].
  apply (Hbounds Sample.gift). apply Hmem. split; [reflexivity|]. split; reflexivity.
Defined.

(** ** Guards and routes *)




(** X30. [GET /campaigns/:id] has no guard, so its controller never sees a
    user: whatever [Authorization] header comes with the request, also an
    admin's or the owner's, the answer is status 404 with "Invalid campaign
    ID" for an id that is no ObjectId, status 404 with "Campaign not found"
    for a campaign that is missing and for one that is unapproved, and
    status 200 with the campaign and its owner for an approved one. The
    store is left as it is. *)
Theorem public_campaign_route_hides_unapproved header campaignId flt s :
  getCampaign campaignId flt s header
  = (if negb (ObjectId_isValid campaignId) then Failed 404 (Msg "Invalid campaign ID")
     else match campaigns s !! campaignId with
          | None => Failed 404 (Msg "Campaign not found")
          | Some c =>
              if isApproved c then Done 200 (c, users s !! owner c)
              else Failed 404 (Msg "Campaign not found")
          end,
     s).
Proof.
  unfold getCampaign, route, getcampaignById, incoming.
  cbn [chain req_user fmap option_fmap option_map].
  rewrite getCampaignById_run.
  destruct (ObjectId_isValid campaignId); cbn [negb]; [|reflexivity].
  destruct (campaigns s !! campaignId) as [c|]; [|reflexivity].
  by destruct (isApproved c).
Qed.

Lemma public_campaign_route_hides_unapproved_witness :
  getCampaign Sample.school [] (Sample.store D_COMPLETED W_PENDING)
    (Some "Bearer admin-token")
  = (Failed 404 (Msg "Campaign not found"), Sample.store D_COMPLETED W_PENDING)
  /\ getCampaign Sample.well [] (Sample.store D_COMPLETED W_PENDING) None
     = (Done 200 (Sample.wellDoc, Some Sample.aliceDoc), Sample.store D_COMPLETED W_PENDING).
Proof.
  split.
  - rewrite (public_campaign_route_hides_unapproved (Some "Bearer admin-token")
               Sample.school [] (Sample.store D_COMPLETED W_PENDING)).
    reflexivity.
  - rewrite (public_campaign_route_hides_unapproved None
               Sample.well [] (Sample.store D_COMPLETED W_PENDING)).
    reflexivity.
Defined.
